(** * Cerberus: directory layout resolver and repair-tool lifecycle

    A shallow embedding of

      - [app/core/task/dir_info.py]                        (layout resolver),
      - [app/drivers/tools/repair/AbstractRepairTool.py]   (default lifecycle),
      - [app/drivers/tools/repair/java/ARJA_E.py]          (ARJA-e driver),

    over an explicit model of the POSIX file system the Python code talks
    to.  Python dictionaries [Dict[str, str]] are finite maps
    [gmap string string]; functions that touch the disk thread a [filesys]
    value and return [option] ([None] is a raised exception). *)

From Stdlib Require Import ZArith Ascii String DecimalString.
From stdpp Require Import gmap strings list fin_maps.

Set Default Proof Using "Type".
Open Scope Z_scope.

(* ===================================================================== *)
(** ** Strings: the Python string operations the sources use             *)
(* ===================================================================== *)

(** [s.startswith("/")] *)
Definition starts_with_sep (s : string) : bool :=
  match s with
  | String c _ => bool_decide (c = "/"%char)
  | EmptyString => false
  end.

(** [s.endswith("/")] *)
Fixpoint ends_with_sep (s : string) : bool :=
  match s with
  | EmptyString => false
  | String c EmptyString => bool_decide (c = "/"%char)
  | String _ s' => ends_with_sep s'
  end.

(** Python truthiness of a [str]: [bool(s)]. *)
Definition truthy (s : string) : bool :=
  match s with
  | EmptyString => false
  | String _ _ => true
  end.

(** The slice [s[:n]]. *)
Fixpoint str_take (n : nat) (s : string) : string :=
  match n, s with
  | S n', String c s' => String c (str_take n' s')
  | _, _ => EmptyString
  end.

(** [s.startswith(pat)] *)
Fixpoint str_prefix (pat s : string) : bool :=
  match pat, s with
  | EmptyString, _ => true
  | String a pat', String b s' => bool_decide (a = b) && str_prefix pat' s'
  | String _ _, EmptyString => false
  end.

(** [pat in s] for strings: [pat] occurs as a contiguous substring. *)
Fixpoint str_contains (pat s : string) : bool :=
  str_prefix pat s ||
  match s with
  | EmptyString => false
  | String _ s' => str_contains pat s'
  end.

(** [s.replace("\n", "")] *)
Fixpoint strip_newlines (s : string) : string :=
  match s with
  | EmptyString => EmptyString
  | String c s' =>
      if bool_decide (c = "010"%char) then strip_newlines s'
      else String c (strip_newlines s')
  end.

(** [str(n)] for a non-negative Python [int]. *)
Definition str_of_int (n : Z) : string :=
  NilZero.string_of_int (Z.to_int n).

(* ===================================================================== *)
(** ** [os.path.join] (posixpath)                                        *)
(* ===================================================================== *)

(** One iteration of the loop of [posixpath.join]: an absolute component
    restarts the path, otherwise it is appended with exactly one
    separator between the two. *)
Definition join2 (path b : string) : string :=
  if starts_with_sep b then b
  else if negb (truthy path) || ends_with_sep path then path +:+ b
  else path +:+ "/" +:+ b.

(** [os.path.join(a, *p)] *)
Definition join (a : string) (p : list string) : string :=
  foldl join2 a p.

(** The path components the kernel sees: the pieces between slashes. *)
Fixpoint split_sep (s : string) : list string :=
  match s with
  | EmptyString => [EmptyString]
  | String c s' =>
      if bool_decide (c = "/"%char) then EmptyString :: split_sep s'
      else match split_sep s' with
           | [] => [String c EmptyString]
           | w :: ws => String c w :: ws
           end
  end.

(** Trailing slashes of a path that is about to be created or removed are
    ignored ([mkdir d/], [rmdir d//]). *)
Fixpoint strip_trailing_empty (cs : list string) : list string :=
  match cs with
  | [] => []
  | c :: cs' =>
      match strip_trailing_empty cs' with
      | [] => if bool_decide (c = EmptyString) then [] else [c]
      | r => c :: r
      end
  end.

(* ===================================================================== *)
(** ** The file system                                                   *)
(* ===================================================================== *)

(** A file (its lines, as [readlines] returns them) or a directory (its
    entries by name).  There are no symbolic links and no permissions. *)
#[warnings="-register-all"]
Inductive node :=
  | File (lines : list string)
  | Dir (entries : gmap string node).

(** The whole tree and the working directory of the process (its
    components from the root). *)
Record filesys := mk_filesys {
  fs_tree : node;
  fs_cwd : list string;
}.

Definition is_dir_node (o : option node) : bool :=
  match o with Some (Dir _) => true | _ => false end.

Definition is_file_node (o : option node) : bool :=
  match o with Some (File _) => true | _ => false end.

Definition is_some_node (o : option node) : bool :=
  match o with Some _ => true | None => false end.

(** The node reached from [n] along the component names [p]. *)
Fixpoint lookup_node (p : list string) (n : node) : option node :=
  match p with
  | [] => Some n
  | c :: p' =>
      match n with
      | Dir m =>
          match m !! c with
          | Some ch => lookup_node p' ch
          | None => None
          end
      | File _ => None
      end
  end.

(** Change the entries of the directory at [p] with [f]; an error when
    [p] is not a directory. *)
Fixpoint alter_dir (f : gmap string node → gmap string node)
    (p : list string) (n : node) : option node :=
  match p with
  | [] =>
      match n with
      | Dir m => Some (Dir (f m))
      | File _ => None
      end
  | c :: p' =>
      match n with
      | Dir m =>
          match m !! c with
          | Some ch =>
              match alter_dir f p' ch with
              | Some ch' => Some (Dir (<[c:=ch']> m))
              | None => None
              end
          | None => None
          end
      | File _ => None
      end
  end.

(** How the kernel moves through one path component.  The cursor is the
    stack of directory names below the root, innermost first. *)
Inductive move := Stay | Up | Down (c : string).

Definition classify (c : string) : move :=
  if bool_decide (c = "") then Stay
  else if bool_decide (c = ".") then Stay
  else if bool_decide (c = "..") then Up
  else Down c.

(** Path resolution.  Every component is looked up in a directory, so the
    cursor has to be one whenever a component is left to process; the
    node the whole path ends on may be anything, or not exist. *)
Fixpoint walk (t : node) (cur : list string) (cs : list string)
  : option (list string) :=
  match cs with
  | [] => Some cur
  | c :: cs' =>
      if is_dir_node (lookup_node (rev cur) t) then
        match classify c with
        | Stay => walk t cur cs'
        | Up => walk t (tail cur) cs'
        | Down d => walk t (d :: cur) cs'
        end
      else None
  end.

(** Where resolution starts: the root for an absolute path, the working
    directory otherwise. *)
Definition start_cursor (fs : filesys) (p : string) : list string :=
  if starts_with_sep p then [] else rev (fs_cwd fs).

(** The components, from the root, of what [p] names; the empty path
    names nothing. *)
Definition resolve (fs : filesys) (p : string) : option (list string) :=
  if truthy p then
    @rev string <$> walk (fs_tree fs) (start_cursor fs p) (split_sep p)
  else None.

Definition node_at (fs : filesys) (p : string) : option node :=
  match resolve fs p with
  | Some np => lookup_node np (fs_tree fs)
  | None => None
  end.

(** [os.path.exists], [os.path.isdir], [os.path.isfile] *)
Definition path_exists (fs : filesys) (p : string) : bool :=
  is_some_node (node_at fs p).
Definition path_isdir (fs : filesys) (p : string) : bool :=
  is_dir_node (node_at fs p).
Definition path_isfile (fs : filesys) (p : string) : bool :=
  is_file_node (node_at fs p).

(** [os.makedirs(name, exist_ok=True)] on the tree: go through the
    components, creating each directory that is missing.  A regular file
    in the way is an error. *)
Fixpoint makedirs_walk (cs : list string) (cur : list string) (t : node)
  : option node :=
  match cs with
  | [] => Some t
  | c :: cs' =>
      if is_dir_node (lookup_node (rev cur) t) then
        match classify c with
        | Stay => makedirs_walk cs' cur t
        | Up => makedirs_walk cs' (tail cur) t
        | Down d =>
            match lookup_node (rev (d :: cur)) t with
            | Some (Dir _) => makedirs_walk cs' (d :: cur) t
            | Some (File _) => None
            | None =>
                match alter_dir (insert d (Dir ∅)) (rev cur) t with
                | Some t' => makedirs_walk cs' (d :: cur) t'
                | None => None
                end
            end
        end
      else None
  end.

Definition makedirs (fs : filesys) (p : string) : option filesys :=
  if truthy p then
    match makedirs_walk (split_sep p) (start_cursor fs p) (fs_tree fs) with
    | Some t' => Some (mk_filesys t' (fs_cwd fs))
    | None => None
    end
  else None.

(** [os.listdir]: the entry names of a directory; an error on anything
    else. *)
Definition listdir (fs : filesys) (p : string) : option (list string) :=
  match node_at fs p with
  | Some (Dir m) => Some (map fst (map_to_list m))
  | _ => None
  end.

(** The last component that names something, if the path has one. *)
Definition final_component (p : string) : option string :=
  last (strip_trailing_empty (split_sep p)).

(** [shutil.rmtree(p)]: [p] has to be a directory with a name of its own
    (not the root, and not spelled with a final [.] or [..], on which the
    closing [rmdir] fails). *)
Definition rmtree (fs : filesys) (p : string) : option filesys :=
  match final_component p with
  | Some c =>
      match classify c with
      | Down _ =>
          match walk (fs_tree fs) (start_cursor fs p) (split_sep p) with
          | Some (d :: cur) =>
              if is_dir_node (lookup_node (rev (d :: cur)) (fs_tree fs)) then
                match alter_dir (delete d) (rev cur) (fs_tree fs) with
                | Some t' => Some (mk_filesys t' (fs_cwd fs))
                | None => None
                end
              else None
          | _ => None
          end
      | _ => None
      end
  | None => None
  end.

(* ===================================================================== *)
(** ** [app/core/task/dir_info.py]                                       *)
(* ===================================================================== *)

(** Modelled from the spec: the module [app.core.values] is not among the
    sources.  The resolver reads from it the process-wide roots (benchmark,
    experiment, logs, artifacts and results root, and the experiment root
    inside a container), which are set once at process start; they are
    taken here as an explicit configuration value. *)
Record values := mk_values {
  dir_experiments : string;
  dir_benchmark : string;
  dir_logs : string;
  dir_artifacts : string;
  dir_results : string;
  container_base_experiment : string;
}.

(** [DirectoryInfo]: the two namespaces of a layout. *)
Record DirectoryInfo := mk_DirectoryInfo {
  local : gmap string string;
  container : gmap string string;
}.

(** The object passed as [hash]: all the resolver asks of it is
    [hash.hexdigest()]. *)
Record hash_object := mk_hash {
  hexdigest : string;
}.

(** The loop of [generate_local_dir_info]:
    [if not os.path.isdir(d): os.makedirs(d, exist_ok=True)]. *)
Fixpoint ensure_dirs (dirs : list string) (fs : filesys) : option filesys :=
  match dirs with
  | [] => Some fs
  | d :: ds =>
      if path_isdir fs d then ensure_dirs ds fs
      else match makedirs fs d with
           | Some fs' => ensure_dirs ds fs'
           | None => None
           end
  end.

(** The loop of [generate_local_tool_dir_info]:
    [os.makedirs(d, exist_ok=True)], with no check before it. *)
Fixpoint makedirs_all (dirs : list string) (fs : filesys) : option filesys :=
  match dirs with
  | [] => Some fs
  | d :: ds =>
      match makedirs fs d with
      | Some fs' => makedirs_all ds fs'
      | None => None
      end
  end.

(** The path [join(values.dir_benchmark, benchmark, subject, bug-tag, "")]
    probed by the tag override. *)
Definition dir_setup_extended (v : values)
    (benchmark_name subject_name bug_name tag : string) : string :=
  join (dir_benchmark v)
    [join benchmark_name [subject_name; bug_name +:+ "-" +:+ tag; ""]].

(** The path [join(values.dir_benchmark, benchmark, subject, bug, "")]. *)
Definition dir_setup_plain (v : values)
    (benchmark_name subject_name bug_name : string) : string :=
  join (dir_benchmark v) [join benchmark_name [subject_name; bug_name; ""]].

(** The choice of the setup root (lines 25 to 31). *)
Definition dir_setup_local (v : values)
    (benchmark_name subject_name bug_name tag : string) (fs : filesys)
  : string :=
  if truthy tag then
    if path_exists fs (dir_setup_extended v benchmark_name subject_name bug_name tag)
    then dir_setup_extended v benchmark_name subject_name bug_name tag
    else dir_setup_plain v benchmark_name subject_name bug_name
  else dir_setup_plain v benchmark_name subject_name bug_name.

(** The nine directories the resolver creates, in the order of the loop. *)
Definition local_dirs_created (v : values)
    (benchmark_name subject_name bug_name : string) (setup : string)
  : list string :=
  let dir_path := join benchmark_name [subject_name; bug_name; ""] in
  [ join (dir_experiments v) [dir_path];
    setup;
    join (dir_benchmark v) [benchmark_name; subject_name; ".aux"];
    join (dir_benchmark v) [benchmark_name; subject_name; "base"];
    join setup ["bugs"];
    join setup ["patches"];
    join setup ["localization"];
    join setup ["validation"];
    join setup ["selection"] ].

Definition generate_local_dir_info (v : values)
    (benchmark_name subject_name bug_name tag : string) (fs : filesys)
  : option (gmap string string * filesys) :=
  let dir_path := join benchmark_name [subject_name; bug_name; ""] in
  let dir_exp_local := join (dir_experiments v) [dir_path] in
  let setup := dir_setup_local v benchmark_name subject_name bug_name tag fs in
  let dir_bugs_local := join setup ["bugs"] in
  let dir_localization_local := join setup ["localization"] in
  let dir_patches_local := join setup ["patches"] in
  let dir_validation_local := join setup ["validation"] in
  let dir_selection_local := join setup ["selection"] in
  let dir_aux_local :=
    join (dir_benchmark v) [benchmark_name; subject_name; ".aux"] in
  let dir_base_local :=
    join (dir_benchmark v) [benchmark_name; subject_name; "base"] in
  let dir_logs_local := join (dir_logs v) [dir_path] in
  let dir_artifact_local := join (dir_artifacts v) [dir_path] in
  match ensure_dirs
          (local_dirs_created v benchmark_name subject_name bug_name setup) fs
  with
  | Some fs' =>
      Some ({[ "logs" := dir_logs_local;
               "artifacts" := dir_artifact_local;
               "experiment" := dir_exp_local;
               "setup" := setup;
               "base" := dir_base_local;
               "aux" := dir_aux_local;
               "patches" := dir_patches_local;
               "localization" := dir_localization_local;
               "selection" := dir_selection_local;
               "validation" := dir_validation_local;
               "bugs" := dir_bugs_local ]}, fs')
  | None => None
  end.

(** [f"{task_identifier}-{hash.hexdigest()[:8]}"] *)
Definition run_dir_name (task_identifier : string) (hash : hash_object)
  : string :=
  task_identifier +:+ "-" +:+ str_take 8 (hexdigest hash).

Definition generate_local_tool_dir_info (v : values)
    (benchmark_name subject_name bug_name : string) (hash : hash_object)
    (task_identifier tag : string) (fs : filesys)
  : option (gmap string string * filesys) :=
  let dir_name := run_dir_name task_identifier hash in
  match generate_local_dir_info v benchmark_name subject_name bug_name tag fs
  with
  | Some (base_info, fs1) =>
      let dir_result_local := join (dir_results v) [dir_name] in
      let dir_log_local := join (dir_logs v) [dir_name] in
      let dir_artifact_local := join (dir_artifacts v) [dir_name] in
      match makedirs_all
              [dir_log_local; dir_result_local; dir_artifact_local] fs1
      with
      | Some fs2 =>
          Some (<["results" := dir_result_local]>
                  (<["artifacts" := dir_artifact_local]>
                     (<["logs" := dir_log_local]> base_info)), fs2)
      | None => None
      end
  | None => None
  end.

Definition generate_container_dir_info (v : values)
    (benchmark_name subject_name bug_name : string) : gmap string string :=
  let dir_path := join benchmark_name [subject_name; bug_name; ""] in
  let dir_setup_container := join "/setup" [dir_path] in
  let dir_exp_container := join (container_base_experiment v) [dir_path] in
  let dir_logs_container := "/logs" in
  let dir_artifact_container := "/output" in
  let dir_aux_container := join dir_exp_container [".aux"] in
  let dir_base_container := join dir_exp_container ["base"] in
  {[ "logs" := dir_logs_container;
     "artifacts" := dir_artifact_container;
     "experiment" := dir_exp_container;
     "setup" := dir_setup_container;
     "base" := dir_base_container;
     "aux" := dir_aux_container ]}.

Definition generate_tool_dir_info (v : values)
    (benchmark_name subject_name bug_name : string) (hash : hash_object)
    (task_identifier tag : string) (fs : filesys)
  : option (DirectoryInfo * filesys) :=
  match generate_local_tool_dir_info v benchmark_name subject_name bug_name
          hash task_identifier tag fs
  with
  | Some (l, fs') =>
      Some (mk_DirectoryInfo l
              (generate_container_dir_info v benchmark_name subject_name
                 bug_name), fs')
  | None => None
  end.

Definition generate_dir_info (v : values)
    (benchmark_name subject_name bug_name tag : string) (fs : filesys)
  : option (DirectoryInfo * filesys) :=
  match generate_local_dir_info v benchmark_name subject_name bug_name tag fs
  with
  | Some (l, fs') =>
      Some (mk_DirectoryInfo l
              (generate_container_dir_info v benchmark_name subject_name
                 bug_name), fs')
  | None => None
  end.

(* ===================================================================== *)
(** ** Statistics and the tool object                                    *)
(* ===================================================================== *)

(** Modelled from the spec: [RepairToolStats] is not among the sources.
    It is the nested record of the spec's data model: [patch_stats]
    (generated, enumerations, plausible, non-compilable, size) and
    [time_stats] (start and end timestamps, total build and validation
    time, per-phase markers), all empty at construction. *)
Record PatchStats := mk_PatchStats {
  generated : Z;
  enumerations : Z;
  plausible : Z;
  non_compilable : Z;
  patch_size : Z;
}.

Record TimeStats := mk_TimeStats {
  timestamp_start : string;
  timestamp_end : string;
  total_validation : Z;
  total_build : Z;
  timestamp_compilation : Z;
  timestamp_validation : Z;
  timestamp_plausible : Z;
}.

Record RepairToolStats := mk_RepairToolStats {
  patch_stats : PatchStats;
  time_stats : TimeStats;
}.

(** [RepairToolStats()] *)
Definition new_stats : RepairToolStats :=
  mk_RepairToolStats (mk_PatchStats 0 0 0 0 0) (mk_TimeStats "" "" 0 0 0 0 0).

(** Modelled from the spec: the attributes of [self] that the methods
    below read.  [AbstractTool], which declares and fills them, is not
    among the sources; the spec calls them the run context: the tool name,
    the optional container identifier, the patch-output directory, the
    output and experiment directories, the path of the captured log and
    the statistics of the run. *)
Record tool := mk_tool {
  name : string;
  container_id : option string;
  dir_patch : string;
  dir_output : string;
  dir_expr : string;
  log_output_path : string;
  use_valkyrie : bool;
  stats : RepairToolStats;
}.

(** [self.stats.patch_stats.generated = n] *)
Definition set_generated (n : Z) (self : tool) : tool :=
  let st := stats self in
  let ps := patch_stats st in
  mk_tool (name self) (container_id self) (dir_patch self) (dir_output self)
    (dir_expr self) (log_output_path self) (use_valkyrie self)
    (mk_RepairToolStats
       (mk_PatchStats n (enumerations ps) (plausible ps) (non_compilable ps)
          (patch_size ps))
       (time_stats st)).

(** [self.stats.patch_stats.enumerations = n] *)
Definition set_enumerations (n : Z) (self : tool) : tool :=
  let st := stats self in
  let ps := patch_stats st in
  mk_tool (name self) (container_id self) (dir_patch self) (dir_output self)
    (dir_expr self) (log_output_path self) (use_valkyrie self)
    (mk_RepairToolStats
       (mk_PatchStats (generated ps) n (plausible ps) (non_compilable ps)
          (patch_size ps))
       (time_stats st)).

(** [self.stats.patch_stats.plausible = n] *)
Definition set_plausible (n : Z) (self : tool) : tool :=
  let st := stats self in
  let ps := patch_stats st in
  mk_tool (name self) (container_id self) (dir_patch self) (dir_output self)
    (dir_expr self) (log_output_path self) (use_valkyrie self)
    (mk_RepairToolStats
       (mk_PatchStats (generated ps) (enumerations ps) n (non_compilable ps)
          (patch_size ps))
       (time_stats st)).

(** [self.stats.time_stats.timestamp_start = a] and [timestamp_end = b] *)
Definition set_timestamps (a b : string) (self : tool) : tool :=
  let st := stats self in
  let ts := time_stats st in
  mk_tool (name self) (container_id self) (dir_patch self) (dir_output self)
    (dir_expr self) (log_output_path self) (use_valkyrie self)
    (mk_RepairToolStats (patch_stats st)
       (mk_TimeStats a b (total_validation ts) (total_build ts)
          (timestamp_compilation ts) (timestamp_validation ts)
          (timestamp_plausible ts))).

(** Modelled from the spec: the file helpers of [AbstractTool] ([is_dir],
    [is_file], [list_dir], [read_file]) are not among the sources.  They
    are the spec's consumed Filesystem interface (existence check,
    list-directory, read-lines), run on the file system the tool works on:
    the container's when there is one, the host's otherwise.  Listing
    what is not a directory and reading what is not a file are errors. *)
Definition is_dir (fs : filesys) (p : string) : bool := path_isdir fs p.
Definition is_file (fs : filesys) (p : string) : bool := path_isfile fs p.
Definition list_dir (fs : filesys) (p : string) : option (list string) :=
  listdir fs p.
Definition read_file (fs : filesys) (p : string) : option (list string) :=
  match node_at fs p with
  | Some (File lines) => Some lines
  | _ => None
  end.

(* ===================================================================== *)
(** ** [AbstractRepairTool]                                              *)
(* ===================================================================== *)

(** [AbstractRepairTool.analyse_output]: the statistics it returns (the
    object [self.stats]) and [self] after the call.  The arguments
    [dir_info], [bug_id] and [fail_list] are not read. *)
Definition analyse_output (self : tool) (fs : filesys)
  : option (RepairToolStats * tool) :=
  if is_dir fs (dir_patch self) then
    match list_dir fs (dir_patch self) with
    | Some l =>
        let self' := set_generated (Z.of_nat (length l)) self in
        Some (stats self', self')
    | None => None
    end
  else Some (stats self, self).

(** The host and the file systems of the running containers, by
    container identifier. *)
Record world := mk_world {
  host : filesys;
  guests : gmap string filesys;
}.

(** What [save_artifacts] calls and the sources do not define.

    [parent_save_artifacts] is [AbstractTool.save_artifacts], the method
    behind [super().save_artifacts(dir_info)]; neither the sources nor the
    spec say what it archives.

    [copy_into_directory sn src dst fs] is what a recursive copy of the
    node [sn], found at [src], does where the outcome depends on how the
    copy goes through the tree: when [dst] already is a directory (then
    [cp] copies into it, merging with what is there) and when [dst] lies
    inside the directory that is copied (then [cp] stops part way).

    [execute_other command fs] is the disk after
    [utilities.execute_command] ran a command line that the shell does not
    pass on word for word. *)
Class Collaborators := mk_Collaborators {
  parent_save_artifacts : tool → gmap string string → world → option world;
  copy_into_directory : node → string → string → filesys → option filesys;
  execute_other : string → filesys → filesys;
}.

(** [is_prefix p q]: the components [p] are an initial part of [q]. *)
Fixpoint is_prefix (p q : list string) : bool :=
  match p, q with
  | [], _ => true
  | a :: p', b :: q' => bool_decide (a = b) && is_prefix p' q'
  | _ :: _, [] => false
  end.

(** Modelled from the spec: the recursive copy of the Filesystem
    interface, the effect of both [cp -rf src dst] and
    [copy_file_from_container].  A destination that does not exist is
    created as a copy of the source, its parent directory has to exist;
    a file can be written over a file, a directory cannot.  [within] is
    where the source lies when it is on the same file system; a copy of a
    directory to a place inside itself is left to [copy_into_directory],
    as is a copy to a directory that exists.  The result [None] is a copy
    that fails and has changed nothing. *)
Definition copy_node_to `{Collaborators} (sn : node) (src dst : string)
    (within : option (list string)) (fs : filesys) : option filesys :=
  match node_at fs dst with
  | Some (Dir _) => copy_into_directory sn src dst fs
  | Some (File _) =>
      match sn, walk (fs_tree fs) (start_cursor fs dst) (split_sep dst) with
      | File _, Some (d :: cur) =>
          match alter_dir (insert d sn) (rev cur) (fs_tree fs) with
          | Some t' => Some (mk_filesys t' (fs_cwd fs))
          | None => None
          end
      | _, _ => None
      end
  | None =>
      if truthy dst then
        match walk (fs_tree fs) (start_cursor fs dst)
                (strip_trailing_empty (split_sep dst)) with
        | Some (d :: cur) =>
            match lookup_node (rev (d :: cur)) (fs_tree fs) with
            | None =>
                if match within with
                   | Some ns => is_prefix ns (rev (d :: cur))
                   | None => false
                   end
                then copy_into_directory sn src dst fs
                else
                  match alter_dir (insert d sn) (rev cur) (fs_tree fs) with
                  | Some t' => Some (mk_filesys t' (fs_cwd fs))
                  | None => None
                  end
            | Some _ => None
            end
        | _ => None
        end
      else None
  end.

(** Modelled from the spec: the local recursive copy, [cp -rf src dst]
    with the two operands as they are; the source has to exist. *)
Definition cp_rf `{Collaborators} (src dst : string) (fs : filesys)
  : option filesys :=
  match node_at fs src with
  | Some sn => copy_node_to sn src dst (resolve fs src) fs
  | None => None
  end.

(** A character that the shell passes on as it is wherever it stands in a
    word: a letter, a digit or one of [/ . _ -]. *)
Definition shell_plain_char (c : ascii) : bool :=
  let n := nat_of_ascii c in
  ((48 <=? n) && (n <=? 57) || (65 <=? n) && (n <=? 90)
   || (97 <=? n) && (n <=? 122))%nat
  || bool_decide (c = "/"%char) || bool_decide (c = "."%char)
  || bool_decide (c = "_"%char) || bool_decide (c = "-"%char).

Fixpoint shell_plain (s : string) : bool :=
  match s with
  | EmptyString => true
  | String c s' => shell_plain_char c && shell_plain s'
  end.

(** A text that, written into a command line between spaces, reaches the
    program as one operand: not empty, made of plain characters, and not
    starting with the hyphen of an option. *)
Definition shell_word (s : string) : bool :=
  truthy s && negb (str_prefix "-" s) && shell_plain s.

(** Modelled from the spec: [utilities.execute_command] on the command
    ["cp -rf {} {};".format(src, dst)].  The function is not among the
    sources; as the spec's process execution it runs the line in a shell
    and returns the exit status, which line 82 does not look at: a copy
    that fails leaves the disk as it was and the method goes on.  The
    line is [cp] with the two operands only when both paths are words of
    the shell. *)
Definition execute_cp_rf `{Collaborators} (src dst : string) (fs : filesys)
  : filesys :=
  if shell_word src && shell_word dst then
    match cp_rf src dst fs with
    | Some fs' => fs'
    | None => fs
    end
  else execute_other ("cp -rf " +:+ src +:+ " " +:+ dst +:+ ";") fs.

(** Modelled from the spec: [container.copy_file_from_container
    (container_id, source_path, dest_path)] of the Container Operations
    interface copies from the file system of the container to the host. *)
Definition copy_file_from_container `{Collaborators} (cid : string)
    (src dst : string) (w : world) : option world :=
  match guests w !! cid with
  | Some cfs =>
      match node_at cfs src with
      | Some sn =>
          match copy_node_to sn src dst None (host w) with
          | Some h' => Some (mk_world h' (guests w))
          | None => None
          end
      | None => None
      end
  | None => None
  end.

(** Truthiness of [self.container_id] ([None] and [""] are false). *)
Definition active_container (self : tool) : option string :=
  match container_id self with
  | Some cid => if truthy cid then Some cid else None
  | None => None
  end.

(** Lines 70 to 82 of [AbstractRepairTool.save_artifacts]. *)
Definition save_patches `{Collaborators} (self : tool)
    (dir_info : gmap string string) (w : world) : option world :=
  let base_dir_patches := default "" (dir_info !! "patches") in
  if path_isdir (host w) base_dir_patches then
    let dir_patches := join base_dir_patches [name self] in
    let removed :=
      if path_isdir (host w) dir_patches then
        match rmtree (host w) dir_patches with
        | Some h' => Some (mk_world h' (guests w))
        | None => None
        end
      else Some w in
    match removed with
    | Some w1 =>
        match active_container self with
        | Some cid =>
            copy_file_from_container cid (dir_patch self) dir_patches w1
        | None =>
            if truthy (dir_patch self) then
              Some (mk_world
                      (execute_cp_rf (dir_patch self) dir_patches (host w1))
                      (guests w1))
            else Some w1
        end
    | None => None
    end
  else Some w.

(** [AbstractRepairTool.save_artifacts] *)
Definition save_artifacts `{Collaborators} (self : tool)
    (dir_info : gmap string string) (w : world) : option world :=
  match save_patches self dir_info w with
  | Some w1 => parent_save_artifacts self dir_info w1
  | None => None
  end.

(* ===================================================================== *)
(** ** [ARJA_E]                                                          *)
(* ===================================================================== *)

Definition arja_e_home : string := "/opt/arja".

(** The entries of [bug_info] that [invoke] reads (the keys are constants
    of [app.core.definitions]); [java_version] is the text the f-string
    prints for it. *)
Record bug_info := mk_bug_info {
  dir_source : string;
  dir_tests : string;
  dir_class : string;
  dir_test_class : string;
  passing_test_identifiers : list string;
  failing_test_identifiers : list string;
  dependencies : list string;
  java_version : string;
}.

Definition arja_default_population_size : Z := 40.

(** [0x7FFFFFFF // (arja_default_population_size + 1)] *)
Definition max_generations : Z :=
  0x7FFFFFFF / (arja_default_population_size + 1).

Definition test_timeout : Z := 20.

(** [int(datetime.timedelta(days=365).total_seconds() // 60)]; the
    quotient is a whole number of minutes. *)
Definition repair_timeout : Z := (365 * 86400) / 60.

(** [":".join(list_deps)] *)
Definition list_deps_str (self : tool) (bi : bug_info) : string :=
  String.concat ":"
    (map (λ dep, join (dir_expr self) [dep]) (dependencies bi)
     ++ [ join arja_e_home ["external"; "lib"; "hamcrest-core-1.3.jar"];
          join arja_e_home ["external"; "lib"; "junit-4.12.jar"] ]).

(** The value of [arja_e_command] after the assignment of lines 83 to 98;
    [timeout_h] is [str(task_config_info[self.key_timeout])]. *)
Definition arja_e_command_base (self : tool) (bi : bug_info)
    (timeout_h : string) : string :=
  let classpath :=
    join arja_e_home ["lib/*"] +:+ ":" +:+ join arja_e_home ["bin"] in
  let dir_java_src := join (dir_expr self) ["src"; dir_source bi] in
  let dir_java_bin := join (dir_expr self) ["src"; dir_class bi] in
  let dir_test_bin := join (dir_expr self) ["src"; dir_test_class bi] in
  let dir_localization := dir_output self +:+ "/localization" in
  "timeout -k 5m " +:+ timeout_h +:+ "h java -cp " +:+ classpath
    +:+ " us.msu.cse.repair.Main ArjaE "
    +:+ "-DsrcJavaDir " +:+ dir_java_src +:+ " "
    +:+ "-DbinJavaDir " +:+ dir_java_bin +:+ " "
    +:+ "-DbinTestDir " +:+ dir_test_bin +:+ " "
    +:+ "-DdiffFormat true "
    +:+ " -DsrcVersion=" +:+ java_version bi +:+ " "
    +:+ "-DexternalProjRoot " +:+ arja_e_home +:+ "/external "
    +:+ "-DwaitTime " +:+ str_of_int test_timeout +:+ " "
    +:+ "-DmaxGenerations " +:+ str_of_int max_generations +:+ " "
    +:+ "-DpatchOutputRoot " +:+ dir_output self +:+ "/patches "
    +:+ "-Ddependences " +:+ list_deps_str self bi +:+ " "
    +:+ "-DmaxTime " +:+ str_of_int repair_timeout +:+ " "
    +:+ "-DpopulationSize " +:+ str_of_int arja_default_population_size
    +:+ " "
    +:+ "-DgzoltarDataDir " +:+ dir_localization +:+ " ".

(** The flag of lines 100 to 102. *)
Definition tests_flag (bi : bug_info) : string :=
  " -Dtests " +:+ String.concat "," (failing_test_identifiers bi).

(** The command [ARJA_E.invoke] hands to [run_command]. *)
Definition arja_e_command (self : tool) (bi : bug_info) (timeout_h : string)
  : string :=
  match passing_test_identifiers bi with
  | [] => arja_e_command_base self bi timeout_h +:+ tests_flag bi
  | _ :: _ => arja_e_command_base self bi timeout_h
  end.

(** The loop of lines 167 to 171 over the lines of the log: the pair
    [(count_enumerations, count_plausible)]. *)
Fixpoint count_log_lines (log_lines : list string) (counts : Z * Z) : Z * Z :=
  match log_lines with
  | [] => counts
  | line :: rest =>
      if str_contains "One fitness evaluation is finished" line then
        count_log_lines rest (fst counts + 1, snd counts)
      else if str_contains "failed tests: 0" line then
        count_log_lines rest (fst counts, snd counts + 1)
      else count_log_lines rest counts
  end.

(** [ARJA_E.analyse_output]: the statistics it returns and [self] after
    the call; [None] when it raises. *)
Definition arja_e_analyse_output (self : tool) (fs : filesys)
  : option (RepairToolStats * tool) :=
  match list_dir fs (dir_output self) with
  | None => None
  | Some list_output_dir =>
      let self1 :=
        set_generated
          (Z.of_nat (length (filter (λ x, str_contains ".patch" x = true)
                               list_output_dir))) self in
      if negb (truthy (log_output_path self))
         || negb (is_file fs (log_output_path self))
      then Some (stats self1, self1)
      else
        let scanned :=
          if is_file fs (log_output_path self) then
            match read_file fs (log_output_path self) with
            | Some log_lines =>
                match head log_lines, last log_lines with
                | Some first_line, Some last_line =>
                    Some (set_timestamps (strip_newlines first_line)
                            (strip_newlines last_line) self1,
                          count_log_lines log_lines (0, 0))
                | _, _ => None
                end
            | None => None
            end
          else Some (self1, (0, 0)) in
        match scanned with
        | Some (self2, (count_enumerations, count_plausible)) =>
            match list_dir fs
                    (join (dir_output self)
                       [if use_valkyrie self then "patch-valid"
                        else "patches"])
            with
            | Some l =>
                let self3 :=
                  set_plausible count_plausible
                    (set_enumerations count_enumerations
                       (set_generated
                          (Z.of_nat
                             (length (filter
                                        (λ x, str_contains ".txt" x = true)
                                        l)))
                          self2)) in
                Some (stats self3, self3)
            | None => None
            end
        | None => None
        end
  end.

(* ===================================================================== *)
(** ** Notions used to state the properties                              *)
(* ===================================================================== *)

(** The string contains a slash. *)
Fixpoint has_sep (s : string) : bool :=
  match s with
  | EmptyString => false
  | String c s' => bool_decide (c = "/"%char) || has_sep s'
  end.

(** A plain name: what can be the name of a directory entry (not empty,
    no slash, neither [.] nor [..]). *)
Definition plain_name (c : string) : bool :=
  negb (has_sep c) &&
  match classify c with Down _ => true | _ => false end.

(** The absolute, normalised path with the given components:
    [abs_path ["a"; "b"]] is ["/a/b"]. *)
Fixpoint abs_path (cs : list string) : string :=
  match cs with
  | [] => EmptyString
  | c :: cs' => "/" +:+ c +:+ abs_path cs'
  end.

(** [tree_le t t']: whatever exists in [t] exists in [t'], directories as
    directories and files with the same lines. *)
Definition tree_le (t t' : node) : Prop :=
  ∀ q, match lookup_node q t with
       | Some (File l) => lookup_node q t' = Some (File l)
       | Some (Dir _) => is_dir_node (lookup_node q t') = true
       | None => True
       end.

Definition fs_le (fs fs' : filesys) : Prop :=
  tree_le (fs_tree fs) (fs_tree fs') ∧ fs_cwd fs' = fs_cwd fs.

(** The roles whose directories [generate_local_dir_info] creates. *)
Definition created_roles : list string :=
  [ "experiment"; "setup"; "aux"; "base"; "bugs"; "patches";
    "localization"; "validation"; "selection" ].

(** The number of lines of a log that contain [pat]. *)
Definition count_lines (pat : string) (log_lines : list string) : Z :=
  Z.of_nat (length (filter (λ x, str_contains pat x = true) log_lines)).

(** The number of lines of a log that contain [pat] and not [other]. *)
Definition count_lines_without (pat other : string) (log_lines : list string)
  : Z :=
  Z.of_nat
    (length (filter (λ x, str_contains pat x = true
                          ∧ str_contains other x = false) log_lines)).

(** The call returned, it did not raise. *)
Definition succeeds {A : Type} (o : option A) : bool :=
  match o with Some _ => true | None => false end.

(** Neither path lies at or below the other. *)
Definition apart (p q : list string) : bool :=
  negb (is_prefix p q) && negb (is_prefix q p).

(** The tool's working patch directory, as [save_artifacts] reads it: in
    the container when there is one, on the host otherwise. *)
Definition patch_source (self : tool) (w : world) : option node :=
  match active_container self with
  | Some cid =>
      match guests w !! cid with
      | Some cfs => node_at cfs (dir_patch self)
      | None => None
      end
  | None => node_at (host w) (dir_patch self)
  end.

(** A run on the host reads the patches from the normalised path [cs],
    which is apart from the destination [dst], and both paths are words
    of the shell; a run in a container reads them from another file
    system. *)
Definition source_apart (self : tool) (cs dst : list string) : Prop :=
  match active_container self with
  | Some _ => True
  | None =>
      dir_patch self = abs_path cs ∧ forallb plain_name cs = true ∧
      apart cs dst = true ∧
      shell_word (abs_path cs) = true ∧ shell_word (abs_path dst) = true
  end.

(** What the theorem on [save_artifacts] asks of the parent method, which
    the sources do not define: it leaves alone the destination [dst] and
    the tool's working patch directory, on the host and in the tool's
    container. *)
Definition parent_frame `{Collaborators} (self : tool)
    (dir_info : gmap string string) (dst : string) : Prop :=
  ∀ w1 w2, parent_save_artifacts self dir_info w1 = Some w2 →
    node_at (host w2) dst = node_at (host w1) dst ∧
    node_at (host w2) (dir_patch self) = node_at (host w1) (dir_patch self) ∧
    ∀ cid, container_id self = Some cid →
      guests w2 !! cid = guests w1 !! cid.

(** The character [c] occurs in [s]. *)
Fixpoint has_char (c : ascii) (s : string) : bool :=
  match s with
  | EmptyString => false
  | String x s' => bool_decide (x = c) || has_char c s'
  end.

(** The last character of [a] does not occur in [pat]. *)
Fixpoint ends_outside (pat a : string) : bool :=
  match a with
  | EmptyString => false
  | String c EmptyString => negb (has_char c pat)
  | String _ a' => ends_outside pat a'
  end.

(** The first character of [r] does not occur in [pat]. *)
Definition starts_outside (pat r : string) : bool :=
  match r with
  | EmptyString => false
  | String c _ => negb (has_char c pat)
  end.

(** The texts that [ARJA_E.invoke] takes from the task, the tool and the
    bug and writes into the command line. *)
Definition command_fields (self : tool) (bi : bug_info) (timeout_h : string)
  : list string :=
  [ timeout_h; dir_expr self; dir_source bi; dir_class bi;
    dir_test_class bi; java_version bi; dir_output self ]
  ++ dependencies bi.

(* ===================================================================== *)
(** ** Sample inputs                                                     *)
(* ===================================================================== *)

Definition ex_values : values :=
  mk_values "/cerberus/experiments" "/cerberus/benchmark" "/cerberus/logs"
    "/cerberus/artifacts" "/cerberus/results" "/experiment".

(** An empty disk, working directory [/]. *)
Definition ex_disk_empty : filesys := mk_filesys (Dir ∅) [].

(** Two digests that differ, but not in their first eight characters. *)
Definition ex_hash : hash_object := mk_hash "a1b2c3d4e5f60718293a4b5c6d7e8f90".
Definition ex_hash_twin : hash_object :=
  mk_hash "a1b2c3d4ffffffffffffffff00000000".

(** A disk on which an earlier run with the same hash left a result. *)
Definition ex_disk_rerun : filesys :=
  mk_filesys
    (Dir {[ "cerberus" :=
              Dir {[ "results" :=
                       Dir {[ "arja-e-a1b2c3d4" :=
                                Dir {[ "old.json" := File ["{}"] ]} ]} ]} ]})
    [].

(** A disk with a shadow directory for bug [1] and tag [v2]. *)
Definition ex_disk_shadow : filesys :=
  mk_filesys
    (Dir {[ "cerberus" :=
              Dir {[ "benchmark" :=
                       Dir {[ "defects4j" :=
                                Dir {[ "Lang" :=
                                         Dir {[ "1-v2" := Dir ∅ ]} ]} ]} ]} ]})
    [].

(** A disk with a directory [1-] next to where bug [1] will be set up. *)
Definition ex_disk_dash : filesys :=
  mk_filesys
    (Dir {[ "cerberus" :=
              Dir {[ "benchmark" :=
                       Dir {[ "defects4j" :=
                                Dir {[ "Lang" :=
                                         Dir {[ "1-" := Dir ∅ ]} ]} ]} ]} ]})
    [].

(** A text line as [readlines] returns it, with its newline. *)
Definition text_line (s : string) : string := s +:+ String "010"%char "".

Definition ex_log : list string :=
  map text_line
    [ "Generation 1";
      "One fitness evaluation is finished...";
      "failed tests: 0";
      "One fitness evaluation is finished...";
      "Generation 2" ].

(** The ARJA-e driver after a run on the host. *)
Definition ex_arja_e : tool :=
  mk_tool "arja_e" None "/output/patches" "/output"
    "/experiment/defects4j/Lang/1" "/logs/arja_e.log" false new_stats.

(** The disk after a run that wrote three patches as [.txt] files. *)
Definition ex_disk_run_txt : filesys :=
  mk_filesys
    (Dir {[ "output" :=
              Dir {[ "patches" :=
                       Dir {[ "Patch_1.txt" := File ["-a"; "+b"];
                              "Patch_2.txt" := File ["-c"; "+d"];
                              "Patch_3.txt" := File ["-e"; "+f"] ]} ]};
            "logs" := Dir {[ "arja_e.log" := File ex_log ]} ]})
    [].

(** The same run with the three patches written as [.patch] files. *)
Definition ex_disk_run_patch : filesys :=
  mk_filesys
    (Dir {[ "output" :=
              Dir {[ "patches" :=
                       Dir {[ "1.patch" := File ["-a"; "+b"];
                              "2.patch" := File ["-c"; "+d"];
                              "3.patch" := File ["-e"; "+f"] ]} ]};
            "logs" := Dir {[ "arja_e.log" := File ex_log ]} ]})
    [].

(** A host on which the layout of bug [1] exists, with a leftover of an
    earlier archive, and the patches of the current run. *)
Definition ex_disk_archive : filesys :=
  mk_filesys
    (Dir {[ "setup" :=
              Dir {[ "patches" :=
                       Dir {[ "arja_e" :=
                                Dir {[ "stale.txt" := File ["old"] ]} ]} ]};
            "output" :=
              Dir {[ "patches" :=
                       Dir {[ "Patch_1.txt" := File ["-a"; "+b"] ]} ]} ]})
    [].

Definition ex_world : world := mk_world ex_disk_archive ∅.

Definition ex_dir_info : gmap string string :=
  {[ "patches" := "/setup/patches" ]}.

(** A parent method that archives nothing. *)
Definition ex_collaborators : Collaborators :=
  mk_Collaborators (λ _ _ w, Some w) (λ _ _ _ _, None) (λ _ fs, fs).

Definition ex_bug_info : bug_info :=
  mk_bug_info "src/main/java" "src/test/java" "target/classes"
    "target/test-classes" [] ["org.A::t1"; "org.B::t2"] ["lib/x.jar"] "8".

(* ===================================================================== *)
(** ** The rest of the three modules                                     *)
(* ===================================================================== *)

(** The text is ASCII: every character is below 128. *)
Fixpoint ascii_only (s : string) : bool :=
  match s with
  | EmptyString => true
  | String c s' => (nat_of_ascii c <? 128)%nat && ascii_only s'
  end.

(** [c.lower()] on a character of ASCII text: the capital letters move
    to the small ones.  (On other text Python applies the case mapping of
    Unicode; the statements about [lower] ask for [ascii_only].) *)
Definition lower_char (c : ascii) : ascii :=
  if ((65 <=? nat_of_ascii c) && (nat_of_ascii c <=? 90))%nat
  then ascii_of_nat (nat_of_ascii c + 32)
  else c.

(** [s.lower()] *)
Fixpoint lower (s : string) : string :=
  match s with
  | EmptyString => EmptyString
  | String c s' => String (lower_char c) (lower s')
  end.

(** [update_dir_info]: [dir_info[...]["setup"]] raises [KeyError] when
    the role is missing, first for [local], then for [container]. *)
Definition update_dir_info (dir_info : DirectoryInfo) (tool_name : string)
  : option DirectoryInfo :=
  match local dir_info !! "setup" with
  | Some local_setup =>
      let local' :=
        <["instrumentation" := join local_setup [lower tool_name]]>
          (local dir_info) in
      match container dir_info !! "setup" with
      | Some container_setup =>
          Some (mk_DirectoryInfo local'
                  (<["instrumentation" :=
                       join container_setup [lower tool_name]]>
                     (container dir_info)))
      | None => None
      end
  | None => None
  end.

(** [os.path.basename(p)]: what follows the last slash. *)
Definition basename (p : string) : string :=
  default EmptyString (last (split_sep p)).

(** The slice [s[:-n]] for a positive [n]. *)
Definition str_drop_last (n : nat) (s : string) : string :=
  str_take (String.length s - n) s.

(** [os.path.basename(__file__)[:-3].lower()], the tool name that the
    constructors of [ARJA_E] and [Cardumen] derive from the path of their
    module. *)
Definition tool_name_of_file (file : string) : string :=
  lower (str_drop_last 3 (basename file)).

(** The lines 60 to 70 of [ARJA_E.invoke]: the content of the [tests]
    file. *)
Definition test_name_lines (bi : bug_info) : list string :=
  [text_line "name,outcome,runtime,stacktrace"]
  ++ map (λ name, text_line (name +:+ ",FAIL,0,"))
       (failing_test_identifiers bi)
  ++ map (λ name, text_line (name +:+ ",PASS,0,"))
       (passing_test_identifiers bi).

(** [s.split("#")[0]]: the text before the first hash sign. *)
Fixpoint before_hash (s : string) : string :=
  match s with
  | EmptyString => EmptyString
  | String c s' =>
      if bool_decide (c = "#"%char) then EmptyString
      else String c (before_hash s')
  end.

(** [s.replace("$", ".", 1)]: the first dollar sign becomes a dot. *)
Fixpoint replace_first_dollar (s : string) : string :=
  match s with
  | EmptyString => EmptyString
  | String c s' =>
      if bool_decide (c = "$"%char) then String "."%char s'
      else String c (replace_first_dollar s')
  end.

(** [\d] on ASCII text: one of the ten digits.  (On other text the [\d]
    of Python also matches the decimal digits of other scripts; the
    statements about the lines of [transform_localization] ask for a
    location that is [ascii_only], or name the digits.) *)
Definition is_digit (c : ascii) : bool :=
  ((48 <=? nat_of_ascii c) && (nat_of_ascii c <=? 57))%nat.

(** The text matches [\d+$]: one or more digits up to the end, where the
    end is also found in front of a final newline.  The result says
    whether that newline is there. *)
Fixpoint digits_to_end (s : string) : option bool :=
  match s with
  | EmptyString => None
  | String c s' =>
      if is_digit c then
        match s' with
        | EmptyString => Some false
        | String d EmptyString =>
            if bool_decide (d = "010"%char) then Some true
            else if is_digit d then Some false else None
        | _ => digits_to_end s'
        end
      else None
  end.

(** [re.sub(r"\$\d+$", "", s)] on ASCII text: the first place where a
    dollar sign is followed by digits only, up to the end, is cut out. *)
Fixpoint strip_anonymous (s : string) : string :=
  match s with
  | EmptyString => EmptyString
  | String c s' =>
      if bool_decide (c = "$"%char) then
        match digits_to_end s' with
        | Some true => String "010"%char EmptyString
        | Some false => EmptyString
        | None => String c (strip_anonymous s')
        end
      else String c (strip_anonymous s')
  end.

(** The class name that [transform_localization] derives from a
    location (lines 197 to 199). *)
Definition classname_of (method : string) : string :=
  strip_anonymous (replace_first_dollar (before_hash method)).

(** An entry of the localization data: [score] is the text the f-string
    prints for [x["score"]]. *)
Record loc_entry := mk_loc_entry {
  score : string;
  location : string;
  line_numbers : list Z;
}.

(** [ARJA_E.transform_localization] *)
Definition transform_localization (data : list loc_entry) : list string :=
  text_line "name;suspiciousness_value"
  :: flat_map
       (λ x, map (λ lineno,
                    text_line ("<" +:+ classname_of (location x) +:+ "{#"
                               +:+ str_of_int lineno +:+ ","
                               +:+ score x))
               (line_numbers x))
       data.

(** The text consists of digits. *)
Fixpoint all_digits (s : string) : bool :=
  match s with
  | EmptyString => true
  | String c s' => is_digit c && all_digits s'
  end.

(** A layout without the [patches] role, as the container namespace. *)
Definition ex_dir_info_no_patches : gmap string string :=
  {[ "setup" := "/setup/defects4j/Lang/1/" ]}.

(** The driver of a run for which no patch directory was configured. *)
Definition ex_arja_e_no_patch_dir : tool :=
  mk_tool "arja_e" None "" "/output" "/experiment/defects4j/Lang/1"
    "/logs/arja_e.log" false new_stats.

(** The disk of a run whose log was created and left empty. *)
Definition ex_disk_empty_log : filesys :=
  mk_filesys
    (Dir {[ "output" := Dir {[ "patches" := Dir ∅ ]};
            "logs" := Dir {[ "arja_e.log" := File [] ]} ]})
    [].

(** The disk of a run that wrote a patch and no log. *)
Definition ex_disk_no_log : filesys :=
  mk_filesys
    (Dir {[ "output" :=
              Dir {[ "best.patch" := File ["-a"; "+b"];
                     "patches" := Dir ∅ ]} ]})
    [].

(** A host on which a regular file stands where the archive of the tool
    goes. *)
Definition ex_disk_stale_file : filesys :=
  mk_filesys
    (Dir {[ "setup" :=
              Dir {[ "patches" := Dir {[ "arja_e" := File ["old"] ]} ]};
            "output" :=
              Dir {[ "patches" :=
                       Dir {[ "Patch_1.txt" := File ["-a"; "+b"] ]} ]} ]})
    [].

(** The driver running in the container [c1], and a world in which the
    patches of the run are in that container while the host has others
    under the same path. *)
Definition ex_arja_e_container : tool :=
  mk_tool "arja_e" (Some "c1") "/output/patches" "/output"
    "/experiment/defects4j/Lang/1" "/logs/arja_e.log" false new_stats.

Definition ex_disk_guest : filesys :=
  mk_filesys
    (Dir {[ "output" :=
              Dir {[ "patches" :=
                       Dir {[ "Patch_7.txt" := File ["-x"; "+y"] ]} ]} ]})
    [].

Definition ex_world_container : world :=
  mk_world ex_disk_archive {[ "c1" := ex_disk_guest ]}.

(** A bug with passing tests whose Java version carries more than a
    version. *)
Definition ex_bug_info_version : bug_info :=
  mk_bug_info "src/main/java" "src/test/java" "target/classes"
    "target/test-classes" ["org.P::t0"] ["org.A::t1"] []
    "8 -Dtests org.X::y".

(** A bug with passing tests. *)
Definition ex_bug_info_passing : bug_info :=
  mk_bug_info "src/main/java" "src/test/java" "target/classes"
    "target/test-classes" ["org.P::t0"] ["org.A::t1"] ["lib/x.jar"] "8".

(** A disk on which a regular file stands where the experiment directory
    of bug [1] goes. *)
Definition ex_disk_file_in_the_way : filesys :=
  mk_filesys
    (Dir {[ "cerberus" :=
              Dir {[ "experiments" :=
                       Dir {[ "defects4j" :=
                                Dir {[ "Lang" :=
                                         Dir {[ "1" := File [] ]} ]} ]} ]} ]})
    [].
#[local] Arguments String.append !_ _ / : simpl nomatch.

Lemma succeeds_Some {A : Type} (o : option A) :
  succeeds o = true → ∃ x, o = Some x.
Proof. destruct o as [x|]; [by exists x | done]. Qed.

(* ===================================================================== *)
(** ** Facts about strings and [os.path.join]                            *)
(* ===================================================================== *)

Lemma str_app_nil_r (s : string) : s +:+ "" = s.
Proof. induction s as [|c s IH]; simpl; [done | by rewrite IH]. Qed.

Lemma str_app_assoc (a b c : string) : (a +:+ b) +:+ c = a +:+ (b +:+ c).
Proof. induction a as [|x a IH]; simpl; [done | by rewrite IH]. Qed.

Lemma str_app_inv_head (a b c : string) : a +:+ b = a +:+ c → b = c.
Proof. induction a as [|x a IH]; simpl; [done |]. intros [= E]. auto. Qed.

Lemma str_app_length (a b : string) :
  String.length (a +:+ b) = (String.length a + String.length b)%nat.
Proof. induction a as [|x a IH]; simpl; [done | by rewrite IH]. Qed.

Lemma str_app_self_nil (a b : string) : a = a +:+ b → b = "".
Proof.
  intros E. apply (f_equal String.length) in E.
  rewrite str_app_length in E. destruct b; [done | simpl in E; lia].
Qed.

Lemma truthy_app_l (a b : string) : truthy a = true → truthy (a +:+ b) = true.
Proof. by destruct a. Qed.

Lemma truthy_app_r (a b : string) : truthy b = true → truthy (a +:+ b) = true.
Proof. by destruct a, b. Qed.

Lemma starts_with_sep_app (a b : string) :
  truthy a = true → starts_with_sep (a +:+ b) = starts_with_sep a.
Proof. by destruct a. Qed.

Lemma ends_with_sep_app (a b : string) :
  truthy b = true → ends_with_sep (a +:+ b) = ends_with_sep b.
Proof.
  intros Hb. induction a as [|x a IH]; [done |].
  simpl. rewrite IH. destruct (a +:+ b) eqn:E; [|done].
  destruct a, b; done.
Qed.

Lemma has_sep_starts (c : string) : has_sep c = false → starts_with_sep c = false.
Proof. destruct c; simpl; [done |]. by intros [-> _]%orb_false_iff. Qed.

Lemma has_sep_ends (c : string) : has_sep c = false → ends_with_sep c = false.
Proof.
  induction c as [|x c IH]; simpl; [done |].
  intros [Hx Hc]%orb_false_iff. destruct c; [done | auto].
Qed.

Lemma has_sep_app (a b : string) : has_sep (a +:+ b) = has_sep a || has_sep b.
Proof.
  induction a as [|x a IH]; [done |]. simpl. by rewrite IH, orb_assoc.
Qed.

Lemma plain_name_has_sep (c : string) : plain_name c = true → has_sep c = false.
Proof. unfold plain_name. intros [H _]%andb_true_iff. by destruct (has_sep c). Qed.

Lemma plain_name_classify (c : string) : plain_name c = true → classify c = Down c.
Proof.
  unfold plain_name, classify. intros [_ H]%andb_true_iff. revert H.
  repeat case_bool_decide; done.
Qed.

Lemma plain_name_truthy (c : string) : plain_name c = true → truthy c = true.
Proof.
  intros H. apply plain_name_classify in H. destruct c; [|done].
  by vm_compute in H.
Qed.

Lemma join2_plain (a b : string) :
  truthy a = true → ends_with_sep a = false → starts_with_sep b = false →
  join2 a b = a +:+ "/" +:+ b.
Proof. unfold join2. by intros -> -> ->. Qed.

Lemma split_sep_cons (s : string) : ∃ w ws, split_sep s = w :: ws.
Proof.
  induction s as [|c s (w & ws & IH)]; simpl; [by eexists _, _ |].
  case_bool_decide; [by eexists _, _ |]. rewrite IH. by eexists _, _.
Qed.

Lemma split_sep_name_app (c s : string) :
  has_sep c = false →
  split_sep (c +:+ s) =
  match split_sep s with
  | w :: ws => (c +:+ w) :: ws
  | [] => [c]
  end.
Proof.
  destruct (split_sep_cons s) as (w & ws & Es).
  induction c as [|x c IH]; simpl.
  - intros _. by rewrite Es.
  - intros [Hx Hc]%orb_false_iff. rewrite Hx, (IH Hc). by rewrite Es.
Qed.

Lemma split_sep_abs_path (cs : list string) :
  Forall (λ c, plain_name c = true) cs →
  split_sep (abs_path cs) = match cs with [] => [""] | _ => "" :: cs end.
Proof.
  induction 1 as [|c cs Hc Hcs IH]; [done |].
  simpl. f_equal. rewrite split_sep_name_app by by apply plain_name_has_sep.
  rewrite IH. destruct cs; by rewrite ?str_app_nil_r.
Qed.

Lemma split_sep_abs_path_ne (cs : list string) :
  Forall (λ c, plain_name c = true) cs → cs ≠ [] →
  split_sep (abs_path cs) = "" :: cs.
Proof. intros H Hne. rewrite split_sep_abs_path by done. by destruct cs. Qed.

Lemma abs_path_app (cs ds : list string) :
  abs_path (cs ++ ds) = abs_path cs +:+ abs_path ds.
Proof.
  induction cs as [|c cs IH]; [done |].
  simpl. by rewrite IH, str_app_assoc.
Qed.

Lemma abs_path_truthy (cs : list string) : cs ≠ [] → truthy (abs_path cs) = true.
Proof. by destruct cs. Qed.

Lemma abs_path_starts (cs : list string) :
  cs ≠ [] → starts_with_sep (abs_path cs) = true.
Proof. by destruct cs. Qed.

Lemma abs_path_ends (cs : list string) :
  Forall (λ c, plain_name c = true) cs → ends_with_sep (abs_path cs) = false.
Proof.
  induction 1 as [|c cs Hc Hcs IH]; [done |].
  change (abs_path (c :: cs)) with ("/" +:+ (c +:+ abs_path cs)).
  rewrite ends_with_sep_app
    by (apply truthy_app_l; by apply plain_name_truthy).
  destruct cs as [|d cs].
  - simpl. rewrite str_app_nil_r. by apply has_sep_ends, plain_name_has_sep.
  - by rewrite ends_with_sep_app.
Qed.

Lemma join_abs_path (cs : list string) (c : string) :
  Forall (λ c, plain_name c = true) cs → cs ≠ [] → plain_name c = true →
  join (abs_path cs) [c] = abs_path (cs ++ [c]).
Proof.
  intros Hcs Hne Hc. unfold join. simpl.
  rewrite join2_plain.
  - rewrite abs_path_app. simpl. by rewrite str_app_nil_r.
  - by apply abs_path_truthy.
  - by apply abs_path_ends.
  - by apply has_sep_starts, plain_name_has_sep.
Qed.

(* ===================================================================== *)
(** ** Facts about the tree                                              *)
(* ===================================================================== *)

Lemma lookup_node_app (p q : list string) (n : node) :
  lookup_node (p ++ q) n = lookup_node p n ≫= lookup_node q.
Proof.
  revert n. induction p as [|c p IH]; intros n; simpl; [done |].
  destruct n as [l|m]; [done |]. destruct (m !! c); [apply IH | done].
Qed.

Lemma lookup_node_file (q : list string) (l : list string) :
  q ≠ [] → lookup_node q (File l) = None.
Proof. by destruct q. Qed.

Lemma is_dir_node_some (o : option node) :
  is_dir_node o = true → ∃ m, o = Some (Dir m).
Proof. destruct o as [[l|m]|]; try done. by exists m. Qed.

Lemma is_dir_node_prefix (p q : list string) (n : node) :
  is_some_node (lookup_node (p ++ q) n) = true → q ≠ [] →
  is_dir_node (lookup_node p n) = true.
Proof.
  rewrite lookup_node_app. intros H Hq.
  destruct (lookup_node p n) as [[l|m]|]; simpl in *; try done.
  by rewrite lookup_node_file in H.
Qed.

Lemma is_dir_is_some (o : option node) :
  is_dir_node o = true → is_some_node o = true.
Proof. by destruct o as [[|]|]. Qed.

(** The parent of a directory is a directory. *)
Lemma is_dir_node_tail (cur : list string) (t : node) :
  is_dir_node (lookup_node (rev cur) t) = true →
  is_dir_node (lookup_node (rev (tail cur)) t) = true.
Proof.
  destruct cur as [|c cur]; [done |]. simpl. intros H.
  by eapply is_dir_node_prefix; [apply is_dir_is_some, H |].
Qed.

Lemma tree_le_refl (t : node) : tree_le t t.
Proof. intros q. by destruct (lookup_node q t) as [[|]|]. Qed.

Lemma tree_le_trans (t1 t2 t3 : node) :
  tree_le t1 t2 → tree_le t2 t3 → tree_le t1 t3.
Proof.
  intros H12 H23 q. specialize (H12 q). specialize (H23 q).
  destruct (lookup_node q t1) as [[l|m]|]; [| |done].
  - by rewrite H12 in H23.
  - apply is_dir_node_some in H12 as [m' E]. by rewrite E in H23.
Qed.

Lemma tree_le_is_dir (t t' : node) (q : list string) :
  tree_le t t' → is_dir_node (lookup_node q t) = true →
  is_dir_node (lookup_node q t') = true.
Proof.
  intros H Hq. specialize (H q).
  by destruct (lookup_node q t) as [[l|m]|].
Qed.

Lemma tree_le_is_some (t t' : node) (q : list string) :
  tree_le t t' → is_some_node (lookup_node q t) = true →
  is_some_node (lookup_node q t') = true.
Proof.
  intros H Hq. specialize (H q).
  destruct (lookup_node q t) as [[l|m]|]; [by rewrite H | | done].
  by apply is_dir_is_some.
Qed.

(** What [alter_dir] leaves at the directory it changes. *)
Lemma alter_dir_lookup f (p : list string) (n n' : node) :
  alter_dir f p n = Some n' →
  ∃ m, lookup_node p n = Some (Dir m) ∧ lookup_node p n' = Some (Dir (f m)).
Proof.
  revert n n'. induction p as [|c p IH]; intros n n'; simpl.
  - destruct n as [l|m]; [done |]. intros [= <-]. by exists m.
  - destruct n as [l|m]; [done |].
    destruct (m !! c) as [ch|] eqn:Ec; [|done].
    destruct (alter_dir f p ch) as [ch'|] eqn:Ea; [|done].
    intros [= <-]. rewrite lookup_insert_eq. by apply IH.
Qed.

Lemma alter_dir_is_Some f (p : list string) (n : node) :
  is_dir_node (lookup_node p n) = true → is_Some (alter_dir f p n).
Proof.
  revert n. induction p as [|c p IH]; intros n; simpl.
  - by destruct n.
  - destruct n as [l|m]; [done |].
    destruct (m !! c) as [ch|]; [|done]. intros H.
    destruct (IH _ H) as [ch' ->]. done.
Qed.

(** Below the changed directory: the entries after the change. *)
Lemma alter_dir_lookup_below f (p q : list string) (c : string) (n n' : node) :
  alter_dir f p n = Some n' →
  ∃ m, lookup_node p n = Some (Dir m) ∧
       lookup_node (p ++ c :: q) n' = f m !! c ≫= lookup_node q.
Proof.
  intros H. destruct (alter_dir_lookup _ _ _ _ H) as (m & E & E').
  exists m. split; [done |]. rewrite lookup_node_app, E'. simpl.
  by destruct (f m !! c).
Qed.

(** Away from the changed directory nothing moves. *)
Lemma alter_dir_lookup_other f (p q : list string) (n n' : node) :
  alter_dir f p n = Some n' → is_prefix p q = false →
  is_prefix q p = false → lookup_node q n' = lookup_node q n.
Proof.
  revert q n n'. induction p as [|c p IH]; intros q n n'; [done |].
  simpl. destruct n as [l|m]; [done |].
  destruct (m !! c) as [ch|] eqn:Ec; [|done].
  destruct (alter_dir f p ch) as [ch'|] eqn:Ea; [|done].
  intros [= <-]. destruct q as [|d q]; [done |]. simpl.
  case_bool_decide as Ecd; simpl.
  - subst d. rewrite (bool_decide_eq_true_2 _ eq_refl). simpl.
    intros H1 H2. rewrite lookup_insert_eq, Ec. by eapply IH.
  - intros _ _. by rewrite lookup_insert_ne.
Qed.

(** The directories above the changed one stay directories. *)
Lemma alter_dir_lookup_above f (p r : list string) (n n' : node) :
  alter_dir f (p ++ r) n = Some n' →
  is_dir_node (lookup_node p n') = true.
Proof.
  revert n n'. induction p as [|c p IH]; intros n n'.
  - simpl. destruct r as [|d r]; simpl; destruct n as [l|m]; try done.
    + by intros [= <-].
    + destruct (m !! d); [|done]. destruct (alter_dir f r n); [|done].
      by intros [= <-].
  - simpl. destruct n as [l|m]; [done |].
    destruct (m !! c) as [ch|] eqn:Ec; [|done].
    destruct (alter_dir f (p ++ r) ch) as [ch'|] eqn:Ea; [|done].
    intros [= <-]. rewrite lookup_insert_eq. by eapply IH.
Qed.

(** Adding a directory under a name that is free loses nothing. *)
Lemma alter_dir_mkdir_le (p : list string) (d : string) (n n' : node) :
  alter_dir (insert d (Dir ∅)) p n = Some n' →
  lookup_node (p ++ [d]) n = None →
  tree_le n n'.
Proof.
  revert n n'. induction p as [|c p IH]; intros n n'; simpl.
  - destruct n as [l|m]; [done |]. intros [= <-] Hd.
    assert (m !! d = None) as Hm by (by destruct (m !! d)).
    intros [|e q]; [done |]. simpl.
    destruct (decide (e = d)) as [->|Hne].
    + by rewrite Hm.
    + rewrite lookup_insert_ne by done.
      destruct (m !! e) as [ch|]; [|done].
      by destruct (lookup_node q ch) as [[|]|].
  - destruct n as [l|m]; [done |].
    destruct (m !! c) as [ch|] eqn:Ec; [|done].
    destruct (alter_dir _ p ch) as [ch'|] eqn:Ea; [|done].
    intros [= <-] Hd. specialize (IH _ _ Ea Hd).
    intros [|e q]; [done |]. simpl.
    destruct (decide (e = c)) as [->|Hne].
    + rewrite lookup_insert_eq, Ec. apply IH.
    + rewrite lookup_insert_ne by done.
      destruct (m !! e) as [ch0|]; [|done].
      by destruct (lookup_node q ch0) as [[|]|].
Qed.

(* ===================================================================== *)
(** ** Facts about path resolution and [os.makedirs]                     *)
(* ===================================================================== *)

(** Resolution only asks whether the directories on the way exist, so it
    goes the same way in a larger tree. *)
Lemma walk_mono (t t' : node) (cur cs r : list string) :
  tree_le t t' → walk t cur cs = Some r → walk t' cur cs = Some r.
Proof.
  intros Hle. revert cur. induction cs as [|c cs IH]; intros cur; simpl;
    [done |].
  destruct (is_dir_node (lookup_node (rev cur) t)) eqn:E; [|done].
  rewrite (tree_le_is_dir _ _ _ Hle E). destruct (classify c); apply IH.
Qed.

Lemma makedirs_walk_le (cs cur : list string) (t t' : node) :
  makedirs_walk cs cur t = Some t' → tree_le t t'.
Proof.
  revert cur t. induction cs as [|c cs IH]; intros cur t; simpl.
  - intros [= <-]. apply tree_le_refl.
  - destruct (is_dir_node (lookup_node (rev cur) t)); [|done].
    destruct (classify c) as [| |d]; [apply IH | apply IH |].
    destruct (lookup_node (rev cur ++ [d]) t) as [[l|m]|] eqn:E;
      [done | apply IH |].
    destruct (alter_dir _ (rev cur) t) as [t1|] eqn:Ea; [|done].
    intros H. eapply tree_le_trans; [|by eapply IH].
    by eapply alter_dir_mkdir_le.
Qed.

(** After [makedirs] the path resolves, to a directory. *)
Lemma makedirs_walk_isdir (cs cur : list string) (t t' : node) :
  makedirs_walk cs cur t = Some t' →
  is_dir_node (lookup_node (rev cur) t) = true →
  ∃ r, walk t' cur cs = Some r ∧
       is_dir_node (lookup_node (rev r) t') = true.
Proof.
  revert cur t. induction cs as [|c cs IH]; intros cur t Hmk Hdir.
  - simpl in Hmk. injection Hmk as <-. by exists cur.
  - pose proof (makedirs_walk_le _ _ _ _ Hmk) as Hle.
    simpl in *. rewrite Hdir in Hmk.
    rewrite (tree_le_is_dir _ _ _ Hle Hdir).
    destruct (classify c) as [| |d].
    + by eapply IH.
    + eapply IH; [done |]. by apply is_dir_node_tail.
    + destruct (lookup_node (rev cur ++ [d]) t) as [[l|m]|] eqn:E; [done | |].
      * eapply IH; [done |]. simpl. by rewrite E.
      * destruct (alter_dir _ (rev cur) t) as [t1|] eqn:Ea; [|done].
        eapply IH; [done |]. simpl.
        destruct (alter_dir_lookup_below _ _ [] d _ _ Ea) as (m & _ & ->).
        by rewrite lookup_insert_eq.
Qed.

Lemma fs_le_refl (fs : filesys) : fs_le fs fs.
Proof. split; [apply tree_le_refl | done]. Qed.

Lemma fs_le_trans (fs1 fs2 fs3 : filesys) :
  fs_le fs1 fs2 → fs_le fs2 fs3 → fs_le fs1 fs3.
Proof.
  intros [H1 E1] [H2 E2]. split; [by eapply tree_le_trans | congruence].
Qed.

Lemma fs_le_resolve (fs fs' : filesys) (p : string) (np : list string) :
  fs_le fs fs' → resolve fs p = Some np → resolve fs' p = Some np.
Proof.
  intros [Hle Hcwd]. unfold resolve, start_cursor. rewrite Hcwd.
  destruct (truthy p); [|done].
  destruct (walk (fs_tree fs) _ _) as [r|] eqn:E; [|done].
  by rewrite (walk_mono _ _ _ _ _ Hle E).
Qed.

Lemma fs_le_isdir (fs fs' : filesys) (p : string) :
  fs_le fs fs' → path_isdir fs p = true → path_isdir fs' p = true.
Proof.
  intros Hle. unfold path_isdir, node_at.
  destruct (resolve fs p) as [np|] eqn:E; [|done].
  rewrite (fs_le_resolve _ _ _ _ Hle E). apply tree_le_is_dir, Hle.
Qed.

Lemma fs_le_exists (fs fs' : filesys) (p : string) :
  fs_le fs fs' → path_exists fs p = true → path_exists fs' p = true.
Proof.
  intros Hle. unfold path_exists, node_at.
  destruct (resolve fs p) as [np|] eqn:E; [|done].
  rewrite (fs_le_resolve _ _ _ _ Hle E). apply tree_le_is_some, Hle.
Qed.

Lemma fs_le_read_file (fs fs' : filesys) (p : string) (l : list string) :
  fs_le fs fs' → read_file fs p = Some l → read_file fs' p = Some l.
Proof.
  intros Hle. unfold read_file, node_at.
  destruct (resolve fs p) as [np|] eqn:E; [|done].
  rewrite (fs_le_resolve _ _ _ _ Hle E).
  destruct Hle as [Hle _]. specialize (Hle np).
  destruct (lookup_node np (fs_tree fs)) as [[l'|m]|]; [|done|done].
  intros [= ->]. by rewrite Hle.
Qed.

Lemma makedirs_le (fs fs' : filesys) (p : string) :
  makedirs fs p = Some fs' → fs_le fs fs'.
Proof.
  unfold makedirs. destruct (truthy p); [|done].
  destruct (makedirs_walk _ _ _) as [t'|] eqn:E; [|done].
  intros [= <-]. split; [by eapply makedirs_walk_le | done].
Qed.

Lemma makedirs_isdir (fs fs' : filesys) (p : string) :
  makedirs fs p = Some fs' → path_isdir fs' p = true.
Proof.
  unfold makedirs, path_isdir, node_at, resolve.
  destruct (truthy p); [|done].
  destruct (makedirs_walk _ _ _) as [t'|] eqn:E; [|done].
  intros [= <-]. simpl.
  change (start_cursor {| fs_tree := t'; fs_cwd := fs_cwd fs |} p)
    with (start_cursor fs p).
  destruct (makedirs_walk_isdir _ _ _ _ E) as (r & -> & Hr); [|done].
  destruct (split_sep_cons p) as (w & ws & Es). rewrite Es in E.
  simpl in E. by destruct (is_dir_node _).
Qed.

(** [makedirs] on a directory that is there changes nothing. *)
Lemma makedirs_walk_id (cs cur r : list string) (t : node) :
  walk t cur cs = Some r → is_dir_node (lookup_node (rev r) t) = true →
  makedirs_walk cs cur t = Some t.
Proof.
  revert cur. induction cs as [|c cs IH]; intros cur; simpl; [done |].
  destruct (is_dir_node (lookup_node (rev cur) t)); [|done].
  destruct (classify c) as [| |d]; [apply IH | apply IH |].
  intros Hw Hr.
  destruct (lookup_node (rev cur ++ [d]) t) as [[l|m]|] eqn:E.
  - destruct cs as [|c' cs]; simpl in Hw.
    + injection Hw as <-. simpl in Hr. by rewrite E in Hr.
    + simpl in E. by rewrite E in Hw.
  - by apply IH.
  - destruct cs as [|c' cs]; simpl in Hw.
    + injection Hw as <-. simpl in Hr. by rewrite E in Hr.
    + simpl in E. by rewrite E in Hw.
Qed.

Lemma makedirs_id (fs : filesys) (p : string) :
  path_isdir fs p = true → makedirs fs p = Some fs.
Proof.
  unfold makedirs, path_isdir, node_at, resolve.
  destruct (truthy p); [|done].
  destruct (walk _ _ _) as [r|] eqn:E; [|done]. simpl. intros Hr.
  rewrite (makedirs_walk_id _ _ _ _ E Hr). by destruct fs.
Qed.

Lemma ensure_dirs_spec (ds : list string) (fs fs' : filesys) :
  ensure_dirs ds fs = Some fs' →
  fs_le fs fs' ∧ Forall (λ d, path_isdir fs' d = true) ds.
Proof.
  revert fs. induction ds as [|d ds IH]; intros fs; simpl.
  - intros [= <-]. split; [apply fs_le_refl | constructor].
  - destruct (path_isdir fs d) eqn:Ed.
    + intros H. destruct (IH _ H) as [Hle Hall]. split; [done |].
      constructor; [by eapply fs_le_isdir | done].
    + destruct (makedirs fs d) as [fs1|] eqn:Em; [|done].
      intros H. destruct (IH _ H) as [Hle Hall]. split.
      * eapply fs_le_trans; [by eapply makedirs_le | done].
      * constructor; [|done].
        eapply fs_le_isdir; [done | by eapply makedirs_isdir].
Qed.

Lemma ensure_dirs_id (ds : list string) (fs : filesys) :
  Forall (λ d, path_isdir fs d = true) ds → ensure_dirs ds fs = Some fs.
Proof. induction 1 as [|d ds Hd _ IH]; simpl; [done | by rewrite Hd]. Qed.

Lemma makedirs_all_spec (ds : list string) (fs fs' : filesys) :
  makedirs_all ds fs = Some fs' →
  fs_le fs fs' ∧ Forall (λ d, path_isdir fs' d = true) ds.
Proof.
  revert fs. induction ds as [|d ds IH]; intros fs; simpl.
  - intros [= <-]. split; [apply fs_le_refl | constructor].
  - destruct (makedirs fs d) as [fs1|] eqn:Em; [|done].
    intros H. destruct (IH _ H) as [Hle Hall]. split.
    + eapply fs_le_trans; [by eapply makedirs_le | done].
    + constructor; [|done].
      eapply fs_le_isdir; [done | by eapply makedirs_isdir].
Qed.

(* ===================================================================== *)
(** ** Normalised absolute paths                                         *)
(* ===================================================================== *)

Lemma forallb_plain (cs : list string) :
  forallb plain_name cs = true → Forall (λ c, plain_name c = true) cs.
Proof. intros H. apply Forall_forall. intros c Hc.
  rewrite forallb_forall in H. apply H. by apply list_elem_of_In. Qed.

Lemma walk_plain_lookup (t : node) (cur cs : list string) :
  Forall (λ c, plain_name c = true) cs →
  match walk t cur cs with
  | Some r => lookup_node (rev r) t
  | None => None
  end = lookup_node (rev cur ++ cs) t.
Proof.
  intros Hcs. revert cur. induction Hcs as [|c cs Hc _ IH]; intros cur.
  - simpl. by rewrite app_nil_r.
  - simpl. rewrite (plain_name_classify _ Hc).
    destruct (is_dir_node (lookup_node (rev cur) t)) eqn:E.
    + rewrite IH. simpl. by rewrite <- app_assoc.
    + rewrite lookup_node_app.
      destruct (lookup_node (rev cur) t) as [[l|m]|]; done.
Qed.

Lemma walk_plain_some (t : node) (cur cs : list string) (c : string) :
  Forall (λ c, plain_name c = true) (cs ++ [c]) →
  is_dir_node (lookup_node (rev cur ++ cs) t) = true →
  walk t cur (cs ++ [c]) = Some (c :: rev cs ++ cur).
Proof.
  revert cur. induction cs as [|d cs IH]; intros cur Hall Hdir.
  - apply Forall_inv in Hall. simpl in *.
    rewrite app_nil_r in Hdir. by rewrite Hdir, (plain_name_classify _ Hall).
  - rewrite <- app_comm_cons in Hall. apply Forall_cons in Hall as [Hd Hall].
    simpl. rewrite (plain_name_classify _ Hd).
    rewrite (is_dir_node_prefix (rev cur) (d :: cs) t)
      by (done || by apply is_dir_is_some).
    rewrite IH; [by rewrite <- app_assoc | done |].
    simpl. by rewrite <- app_assoc.
Qed.

Lemma walk_empty_head (t : node) (cur l : list string) :
  walk t cur ("" :: l) =
  if is_dir_node (lookup_node (rev cur) t) then walk t cur l else None.
Proof. done. Qed.

Lemma node_at_abs_path (fs : filesys) (cs : list string) :
  Forall (λ c, plain_name c = true) cs → cs ≠ [] →
  node_at fs (abs_path cs) = lookup_node cs (fs_tree fs).
Proof.
  intros Hcs Hne. unfold node_at, resolve, start_cursor.
  rewrite abs_path_truthy, abs_path_starts, split_sep_abs_path_ne by done.
  destruct cs as [|c cs]; [done |]. rewrite walk_empty_head.
  pose proof (walk_plain_lookup (fs_tree fs) [] (c :: cs) Hcs) as Hw.
  change (rev [] ++ c :: cs) with (c :: cs) in Hw.
  change (lookup_node (rev []) (fs_tree fs)) with (Some (fs_tree fs)).
  destruct (fs_tree fs) as [l|m]; [done |].
  change (is_dir_node (Some (Dir m))) with true. cbv iota.
  by destruct (walk (Dir m) [] (c :: cs)) as [r|].
Qed.

Lemma strip_trailing_empty_last (l : list string) (c : string) :
  truthy c = true → strip_trailing_empty (l ++ [c]) = l ++ [c].
Proof.
  intros Hc. induction l as [|a l IH]; simpl.
  - by destruct c.
  - rewrite IH. by destruct l.
Qed.

Lemma is_dir_node_root (cs : list string) (t : node) :
  is_dir_node (lookup_node cs t) = true → is_dir_node (Some t) = true.
Proof.
  destruct cs as [|c cs]; [done |]. intros H.
  by apply (is_dir_node_prefix [] (c :: cs) t); [apply is_dir_is_some |].
Qed.

Lemma walk_abs_path (fs : filesys) (cs : list string) (c : string) :
  Forall (λ c, plain_name c = true) (cs ++ [c]) →
  is_dir_node (lookup_node cs (fs_tree fs)) = true →
  walk (fs_tree fs) (start_cursor fs (abs_path (cs ++ [c])))
    (split_sep (abs_path (cs ++ [c]))) = Some (c :: rev cs).
Proof.
  intros Hall Hdir. unfold start_cursor.
  rewrite abs_path_starts, split_sep_abs_path_ne by (done || by destruct cs).
  rewrite walk_empty_head.
  change (lookup_node (rev []) (fs_tree fs)) with (Some (fs_tree fs)).
  rewrite (is_dir_node_root _ _ Hdir).
  rewrite walk_plain_some; [by rewrite app_nil_r | done | done].
Qed.

Lemma final_component_abs_path (cs : list string) (c : string) :
  Forall (λ c, plain_name c = true) (cs ++ [c]) →
  final_component (abs_path (cs ++ [c])) = Some c.
Proof.
  intros Hall. unfold final_component.
  rewrite split_sep_abs_path_ne by (done || by destruct cs).
  assert (truthy c = true) as Hc.
  { apply plain_name_truthy. rewrite Forall_app in Hall.
    destruct Hall as [_ Hc]. by apply Forall_inv in Hc. }
  rewrite app_comm_cons, strip_trailing_empty_last by done.
  by rewrite last_snoc.
Qed.

(** [rmtree] on a normalised path that names a directory removes the
    entry from its parent. *)
Lemma rmtree_abs_path (fs : filesys) (cs : list string) (c : string) :
  Forall (λ c, plain_name c = true) (cs ++ [c]) →
  is_dir_node (lookup_node (cs ++ [c]) (fs_tree fs)) = true →
  ∃ t', alter_dir (delete c) cs (fs_tree fs) = Some t' ∧
        rmtree fs (abs_path (cs ++ [c])) = Some (mk_filesys t' (fs_cwd fs)).
Proof.
  intros Hall Hdir.
  assert (is_dir_node (lookup_node cs (fs_tree fs)) = true) as Hpar
    by (by eapply is_dir_node_prefix; [apply is_dir_is_some, Hdir |]).
  destruct (alter_dir_is_Some (delete c) cs _ Hpar) as [t' Et].
  exists t'. split; [done |]. unfold rmtree.
  rewrite final_component_abs_path by done.
  assert (plain_name c = true) as Hc.
  { rewrite Forall_app in Hall. destruct Hall as [_ Hc].
    by apply Forall_inv in Hc. }
  rewrite (plain_name_classify _ Hc), walk_abs_path by done.
  simpl. by rewrite rev_involutive, Hdir, Et.
Qed.

(** A change of the entry [d] of the directory at [p] is not seen from a
    path that is apart from [p/d]. *)
Lemma alter_dir_entry_other f (p q : list string) (d : string) (n n' : node) :
  (∀ (m : gmap string node) c, c ≠ d → f m !! c = m !! c) →
  alter_dir f p n = Some n' → apart (p ++ [d]) q = true →
  lookup_node q n' = lookup_node q n.
Proof.
  intros Hf. unfold apart.
  revert q n n'. induction p as [|c p IH]; intros q n n'; simpl.
  - destruct n as [l|m]; [done |]. intros [= <-].
    destruct q as [|e q]; simpl; [done |].
    case_bool_decide as E; simpl; [done |]. intros _.
    rewrite Hf; [done | congruence].
  - destruct n as [l|m]; [done |].
    destruct (m !! c) as [ch|] eqn:Ec; [|done].
    destruct (alter_dir f p ch) as [ch'|] eqn:Ea; [|done].
    intros [= <-]. destruct q as [|e q]; simpl; [done |].
    case_bool_decide as E; simpl.
    + subst e. rewrite (bool_decide_eq_true_2 _ eq_refl). simpl.
      intros Hq. rewrite lookup_insert_eq, Ec. by eapply IH.
    + intros _. by rewrite lookup_insert_ne.
Qed.

Lemma resolve_abs_path (fs : filesys) (cs : list string) :
  Forall (λ c, plain_name c = true) cs →
  is_some_node (lookup_node cs (fs_tree fs)) = true → cs ≠ [] →
  resolve fs (abs_path cs) = Some cs.
Proof.
  intros Hcs Hsome Hne. unfold resolve. rewrite abs_path_truthy by done.
  destruct cs as [|c cs _] using rev_ind; [done |].
  rewrite walk_abs_path; [| done | by eapply is_dir_node_prefix].
  simpl. by rewrite rev_involutive.
Qed.

Section archive.
Context `{Collaborators}.

(** Copying to a normalised path that is free, in a directory that
    exists, puts the source there under the last name. *)
Lemma copy_node_to_abs_path (sn : node) (src : string)
    (cs : list string) (c : string) (within : option (list string))
    (fs : filesys) :
  Forall (λ c, plain_name c = true) (cs ++ [c]) →
  is_dir_node (lookup_node cs (fs_tree fs)) = true →
  lookup_node (cs ++ [c]) (fs_tree fs) = None →
  match within with
  | Some ns => is_prefix ns (cs ++ [c])
  | None => false
  end = false →
  ∃ t', alter_dir (insert c sn) cs (fs_tree fs) = Some t' ∧
        copy_node_to sn src (abs_path (cs ++ [c])) within fs
        = Some (mk_filesys t' (fs_cwd fs)).
Proof.
  intros Hall Hdir Hfree Hwithin.
  destruct (alter_dir_is_Some (insert c sn) cs _ Hdir) as [t' Et].
  exists t'. split; [done |]. unfold copy_node_to.
  rewrite node_at_abs_path, Hfree by (done || by destruct cs).
  rewrite abs_path_truthy by (by destruct cs).
  assert (truthy c = true) as Hc.
  { apply plain_name_truthy. rewrite Forall_app in Hall.
    destruct Hall as [_ Hc]. by apply Forall_inv in Hc. }
  pose proof (walk_abs_path fs cs c Hall Hdir) as Hw.
  rewrite split_sep_abs_path_ne in * by (done || by destruct cs).
  rewrite app_comm_cons, strip_trailing_empty_last by done.
  rewrite <- app_comm_cons, Hw. simpl.
  by rewrite rev_involutive, Hfree, Hwithin, Et.
Qed.

Variables (self : tool) (dir_info : gmap string string).
Variables (cb cs : list string) (m : gmap string node).

Local Abbreviation dst := (cb ++ [name self]).

Hypothesis Hrole : dir_info !! "patches" = Some (abs_path cb).
Hypothesis Hcb : Forall (λ c, plain_name c = true) cb.
Hypothesis Hcb_ne : cb ≠ [].
Hypothesis Hname : plain_name (name self) = true.
Hypothesis Hsrc : source_apart self cs dst.

Lemma dst_plain : Forall (λ c, plain_name c = true) dst.
Proof using Hcb Hname. apply Forall_app. split; [done | by constructor]. Qed.

Lemma dst_path : join (abs_path cb) [name self] = abs_path dst.
Proof using Hcb Hcb_ne Hname. by apply join_abs_path. Qed.

(** A change of the destination entry does not move the source. *)
Lemma patch_source_alter f (w : world) (t' : node) :
  (∀ (m : gmap string node) c, c ≠ name self → f m !! c = m !! c) →
  alter_dir f cb (fs_tree (host w)) = Some t' →
  patch_source self (mk_world (mk_filesys t' (fs_cwd (host w))) (guests w))
  = patch_source self w.
Proof using Hsrc.
  intros Hf Ha. unfold patch_source, source_apart in *.
  destruct (active_container self); [done |]. simpl.
  destruct Hsrc as (-> & Hcs & Hap & _ & _). apply forallb_plain in Hcs.
  destruct (decide (cs = [])) as [->|Hne]; [done |].
  rewrite !node_at_abs_path by done. cbn [host fs_tree].
  eapply alter_dir_entry_other; [done..|].
  unfold apart in *. by rewrite andb_comm.
Qed.

(** The remove-then-copy step: whatever the destination held, it ends
    as a copy of the source, and the source is as it was. *)
Lemma save_patches_spec (w : world) :
  is_dir_node (lookup_node cb (fs_tree (host w))) = true →
  is_file_node (lookup_node dst (fs_tree (host w))) = false →
  patch_source self w = Some (Dir m) →
  ∃ w0, save_patches self dir_info w = Some w0 ∧
        lookup_node dst (fs_tree (host w0)) = Some (Dir m) ∧
        patch_source self w0 = Some (Dir m).
Proof using Hrole Hcb Hcb_ne Hname Hsrc.
  intros Hbase Hnofile Hsource.
  pose proof dst_plain as Hdst.
  (* after the removal the destination is free *)
  assert (∃ w1, (if path_isdir (host w) (abs_path dst) then
                   match rmtree (host w) (abs_path dst) with
                   | Some h' => Some (mk_world h' (guests w))
                   | None => None
                   end
                 else Some w) = Some w1 ∧
                is_dir_node (lookup_node cb (fs_tree (host w1))) = true ∧
                lookup_node dst (fs_tree (host w1)) = None ∧
                patch_source self w1 = Some (Dir m)) as (w1 & E1 & Hb1 & Hd1 & Hs1).
  { unfold path_isdir. rewrite node_at_abs_path by (done || by destruct cb).
    destruct (lookup_node dst (fs_tree (host w))) as [[l|md]|] eqn:Ed;
      [done | | by exists w].
    destruct (rmtree_abs_path (host w) cb (name self) Hdst) as (t1 & Ea & ->);
      [by rewrite Ed |].
    eexists. split; [done |]. simpl.
    destruct (alter_dir_lookup _ _ _ _ Ea) as (m0 & _ & E0).
    destruct (alter_dir_lookup_below _ _ [] (name self) _ _ Ea)
      as (m1 & _ & E1).
    split; [by rewrite E0 |]. split.
    - by rewrite E1, lookup_delete_eq.
    - rewrite (patch_source_alter (delete (name self)) w t1); [done | | done].
      intros. by apply lookup_delete_ne. }
  (* the copy *)
  assert (∃ w0, match active_container self with
                | Some cid =>
                    copy_file_from_container cid (dir_patch self)
                      (abs_path dst) w1
                | None =>
                    if truthy (dir_patch self) then
                      Some (mk_world
                              (execute_cp_rf (dir_patch self) (abs_path dst)
                                 (host w1))
                              (guests w1))
                    else Some w1
                end = Some w0 ∧
                lookup_node dst (fs_tree (host w0)) = Some (Dir m) ∧
                patch_source self w0 = Some (Dir m)) as (w0 & E0 & Hd0 & Hs0).
  { assert (∀ sn within,
              match within with
              | Some ns => is_prefix ns dst
              | None => false
              end = false →
              ∃ t', alter_dir (insert (name self) sn) cb
                      (fs_tree (host w1)) = Some t' ∧
                    copy_node_to sn (dir_patch self) (abs_path dst) within
                      (host w1)
                    = Some (mk_filesys t' (fs_cwd (host w1)))) as Hcopy.
    { intros sn within Hw. by apply copy_node_to_abs_path. }
    pose proof Hs1 as Hs1'. unfold patch_source in Hs1'.
    pose proof Hsrc as Hsrc'. unfold source_apart in Hsrc'.
    destruct (active_container self) as [cid|] eqn:Ec.
    - unfold copy_file_from_container.
      destruct (guests w1 !! cid) as [cfs|] eqn:Eg; [|done].
      rewrite Hs1'.
      destruct (Hcopy (Dir m) None eq_refl) as (t' & Ea & ->).
      eexists. split; [done |]. simpl.
      destruct (alter_dir_lookup_below _ _ [] (name self) _ _ Ea)
        as (m1 & _ & Em1).
      split; [by rewrite Em1, lookup_insert_eq |].
      unfold patch_source. simpl. by rewrite Ec, Eg.
    - destruct Hsrc' as (Ep & Hcs & Hap & Hword_src & Hword_dst).
      assert (cs ≠ []) as Hcs_ne.
      { intros ->. rewrite Ep in Hs1'. done. }
      apply forallb_plain in Hcs.
      rewrite Ep in *. rewrite abs_path_truthy by done.
      unfold execute_cp_rf. rewrite Hword_src, Hword_dst. cbn [andb].
      unfold cp_rf. rewrite Hs1'.
      rewrite node_at_abs_path in Hs1' by done.
      rewrite resolve_abs_path by (done || by rewrite Hs1').
      destruct (Hcopy (Dir m) (Some cs)) as (t' & Ea & ->).
      { unfold apart in Hap. apply andb_true_iff in Hap as [Hap _].
        by destruct (is_prefix cs dst). }
      eexists. split; [done |]. simpl.
      destruct (alter_dir_lookup_below _ _ [] (name self) _ _ Ea)
        as (m1 & _ & Em1).
      split; [by rewrite Em1, lookup_insert_eq |].
      rewrite (patch_source_alter (insert (name self) (Dir m)) w1 t');
        [done | | done].
      intros. by apply lookup_insert_ne. }
  exists w0. split; [|done].
  unfold save_patches. rewrite Hrole. cbv zeta.
  change (default "" (Some (abs_path cb))) with (abs_path cb).
  unfold path_isdir at 1.
  rewrite node_at_abs_path, Hbase, dst_path by done.
  by rewrite E1.
Qed.
End archive.

(* ===================================================================== *)
(** ** The layout resolver                                               *)
(* ===================================================================== *)

(** For names that are not empty and have no slash the joined bug path
    is the one the spec writes [{benchmark}/{subject}/{bug}/]. *)
Lemma dir_path_literal (b s x : string) :
  truthy b = true → has_sep b = false →
  truthy s = true → has_sep s = false →
  truthy x = true → has_sep x = false →
  join b [s; x; ""] = b +:+ "/" +:+ s +:+ "/" +:+ x +:+ "/".
Proof.
  intros Hb Hb' Hs Hs' Hx Hx'. unfold join. simpl.
  pose proof (has_sep_ends _ Hb'). pose proof (has_sep_ends _ Hs').
  pose proof (has_sep_ends _ Hx'). pose proof (has_sep_starts _ Hs').
  pose proof (has_sep_starts _ Hx').
  rewrite (join2_plain b s) by done.
  rewrite (join2_plain _ x)
    by (done || by rewrite ?truthy_app_l, ?ends_with_sep_app
                     by (done || by apply truthy_app_r)).
  rewrite (join2_plain _ "")
    by (done || by rewrite ?truthy_app_l, ?ends_with_sep_app
                     by (done || by apply truthy_app_r || by apply truthy_app_l)).
  by rewrite !str_app_assoc.
Qed.

Lemma dir_path_plain (b s x : string) :
  plain_name b = true → plain_name s = true → plain_name x = true →
  join b [s; x; ""] = b +:+ "/" +:+ s +:+ "/" +:+ x +:+ "/".
Proof.
  intros Hb Hs Hx.
  apply dir_path_literal;
    (by apply plain_name_truthy) || (by apply plain_name_has_sep).
Qed.

(** Under a root that does not end in a slash, the bug path is written
    after one slash; a role is written directly after the slash the bug
    path ends in. *)
Lemma join_root_literal (root b s x : string) :
  truthy root = true → ends_with_sep root = false →
  truthy b = true → has_sep b = false →
  truthy s = true → has_sep s = false →
  truthy x = true → has_sep x = false →
  join root [join b [s; x; ""]]
  = root +:+ "/" +:+ b +:+ "/" +:+ s +:+ "/" +:+ x +:+ "/".
Proof.
  intros Hr Hr' Hb Hb' Hs Hs' Hx Hx'.
  rewrite dir_path_literal by done. unfold join. cbn [foldl].
  apply join2_plain; [done | done |].
  rewrite starts_with_sep_app by done. by apply has_sep_starts.
Qed.

Lemma ends_with_sep_slash (a : string) : ends_with_sep (a +:+ "/") = true.
Proof. by rewrite ends_with_sep_app. Qed.

Lemma join_after_slash (a role : string) :
  starts_with_sep role = false → join (a +:+ "/") [role] = a +:+ "/" +:+ role.
Proof.
  intros Hrole. unfold join. cbn [foldl]. unfold join2.
  by rewrite Hrole, ends_with_sep_slash, orb_true_r, str_app_assoc.
Qed.

Lemma generate_local_dir_info_inv (v : values) (b s bug tag : string)
    (fs : filesys) (info : gmap string string) (fs' : filesys) :
  generate_local_dir_info v b s bug tag fs = Some (info, fs') →
  let setup := dir_setup_local v b s bug tag fs in
  ensure_dirs (local_dirs_created v b s bug setup) fs = Some fs' ∧
  info = {[ "logs" := join (dir_logs v) [join b [s; bug; ""]];
            "artifacts" := join (dir_artifacts v) [join b [s; bug; ""]];
            "experiment" := join (dir_experiments v) [join b [s; bug; ""]];
            "setup" := setup;
            "base" := join (dir_benchmark v) [b; s; "base"];
            "aux" := join (dir_benchmark v) [b; s; ".aux"];
            "patches" := join setup ["patches"];
            "localization" := join setup ["localization"];
            "selection" := join setup ["selection"];
            "validation" := join setup ["validation"];
            "bugs" := join setup ["bugs"] ]}.
Proof.
  unfold generate_local_dir_info. cbv zeta.
  destruct (ensure_dirs _ fs) as [fs1|]; [|done]. by intros [= <- <-].
Qed.

(** C2.  The tag override: when the tag is not empty and the shadow
    directory [{benchmark}/{subject}/{bug}-{tag}/] exists under the
    benchmark root, the resolver returns it as [setup] and derives [bugs],
    [localization], [patches], [validation] and [selection] from it;
    otherwise all six are rooted at the untagged
    [{benchmark}/{subject}/{bug}/].

    The paths are those [os.path.join] builds.  For names that are not
    empty and have no slash, under a benchmark root that does not end in
    a slash, they are the texts written out in the second part. *)
Theorem tag_override (v : values) (b s bug tag : string) (fs : filesys)
    (info : gmap string string) (fs' : filesys) :
  generate_local_dir_info v b s bug tag fs = Some (info, fs') →
  ∃ root,
    info !! "setup" = Some root ∧
    info !! "bugs" = Some (join root ["bugs"]) ∧
    info !! "localization" = Some (join root ["localization"]) ∧
    info !! "patches" = Some (join root ["patches"]) ∧
    info !! "validation" = Some (join root ["validation"]) ∧
    info !! "selection" = Some (join root ["selection"]) ∧
    (truthy tag = true →
     path_exists fs (dir_setup_extended v b s bug tag) = true →
     root = dir_setup_extended v b s bug tag) ∧
    (truthy tag = false ∨
     path_exists fs (dir_setup_extended v b s bug tag) = false →
     root = dir_setup_plain v b s bug) ∧
    (truthy (dir_benchmark v) = true → ends_with_sep (dir_benchmark v) = false →
     truthy b = true → has_sep b = false →
     truthy s = true → has_sep s = false →
     truthy bug = true → has_sep bug = false →
     has_sep tag = false →
     let shadow :=
       dir_benchmark v +:+ "/" +:+ b +:+ "/" +:+ s +:+ "/"
         +:+ bug +:+ "-" +:+ tag +:+ "/" in
     let untagged :=
       dir_benchmark v +:+ "/" +:+ b +:+ "/" +:+ s +:+ "/" +:+ bug +:+ "/" in
     (truthy tag = true → path_exists fs shadow = true → root = shadow) ∧
     (truthy tag = false ∨ path_exists fs shadow = false → root = untagged) ∧
     info !! "bugs" = Some (root +:+ "bugs") ∧
     info !! "localization" = Some (root +:+ "localization") ∧
     info !! "patches" = Some (root +:+ "patches") ∧
     info !! "validation" = Some (root +:+ "validation") ∧
     info !! "selection" = Some (root +:+ "selection")).
Proof.
  intros [_ ->]%generate_local_dir_info_inv.
  exists (dir_setup_local v b s bug tag fs).
  repeat (split; [done |]).
  assert ((truthy tag = true →
           path_exists fs (dir_setup_extended v b s bug tag) = true →
           dir_setup_local v b s bug tag fs = dir_setup_extended v b s bug tag)
          ∧ (truthy tag = false ∨
             path_exists fs (dir_setup_extended v b s bug tag) = false →
             dir_setup_local v b s bug tag fs = dir_setup_plain v b s bug))
    as [Hshadow Hplain].
  { unfold dir_setup_local. split.
    - by intros -> ->.
    - intros [-> | Hne]; [done |]. rewrite Hne. by destruct (truthy tag). }
  split; [done |]. split; [done |].
  intros Hr Hr' Hb Hb' Hs Hs' Hbug Hbug' Htag. cbv zeta.
  assert (dir_setup_extended v b s bug tag
          = dir_benchmark v +:+ "/" +:+ b +:+ "/" +:+ s +:+ "/"
              +:+ bug +:+ "-" +:+ tag +:+ "/") as Eshadow.
  { unfold dir_setup_extended.
    rewrite join_root_literal; try done.
    - by rewrite !str_app_assoc.
    - by apply truthy_app_l.
    - by rewrite !has_sep_app, Hbug', Htag. }
  assert (dir_setup_plain v b s bug
          = dir_benchmark v +:+ "/" +:+ b +:+ "/" +:+ s +:+ "/" +:+ bug +:+ "/")
    as Eplain.
  { unfold dir_setup_plain. by apply join_root_literal. }
  rewrite <- Eshadow, <- Eplain. split; [done |]. split; [done |].
  assert (∃ a, dir_setup_local v b s bug tag fs = a +:+ "/") as [a Ea].
  { unfold dir_setup_local.
    destruct (truthy tag); [destruct (path_exists fs _) |];
      rewrite ?Eshadow, ?Eplain, <- ?str_app_assoc; by eexists. }
  rewrite Ea, !join_after_slash by done. by rewrite !str_app_assoc.
Qed.

Lemma tag_override_witness :
  (∃ info fs',
     generate_local_dir_info ex_values "defects4j" "Lang" "1" "v2"
       ex_disk_shadow = Some (info, fs') ∧
     info !! "setup" = Some "/cerberus/benchmark/defects4j/Lang/1-v2/" ∧
     info !! "bugs" = Some "/cerberus/benchmark/defects4j/Lang/1-v2/bugs" ∧
     info !! "patches"
     = Some "/cerberus/benchmark/defects4j/Lang/1-v2/patches") ∧
  (∃ info fs',
     generate_local_dir_info ex_values "defects4j" "Lang" "1" "v2"
       ex_disk_empty = Some (info, fs') ∧
     info !! "setup" = Some "/cerberus/benchmark/defects4j/Lang/1/" ∧
     info !! "bugs" = Some "/cerberus/benchmark/defects4j/Lang/1/bugs" ∧
     info !! "patches"
     = Some "/cerberus/benchmark/defects4j/Lang/1/patches") ∧
  (∃ info fs',
     generate_local_dir_info ex_values "defects4j" "Lang" "1" ""
       ex_disk_shadow = Some (info, fs') ∧
     info !! "setup" = Some "/cerberus/benchmark/defects4j/Lang/1/" ∧
     info !! "bugs" = Some "/cerberus/benchmark/defects4j/Lang/1/bugs" ∧
     info !! "patches"
     = Some "/cerberus/benchmark/defects4j/Lang/1/patches").
Proof.
  split; [|split].
  - destruct (succeeds_Some
                (generate_local_dir_info ex_values "defects4j" "Lang" "1"
                   "v2" ex_disk_shadow)) as [[info fs'] E];
      [vm_compute; reflexivity |].
    exists info, fs'. split; [exact E |].
    destruct (tag_override _ _ _ _ _ _ _ _ E)
      as (root & Hsetup & _ & _ & _ & _ & _ & _ & _ & Hliteral).
    destruct Hliteral as (Hshadow & _ & Hbugs & _ & Hpatches & _);
      [reflexivity.. |].
    rewrite Hsetup, Hbugs, Hpatches, Hshadow;
      [| reflexivity | vm_compute; reflexivity].
    repeat split; reflexivity.
  - destruct (succeeds_Some
                (generate_local_dir_info ex_values "defects4j" "Lang" "1"
                   "v2" ex_disk_empty)) as [[info fs'] E];
      [vm_compute; reflexivity |].
    exists info, fs'. split; [exact E |].
    destruct (tag_override _ _ _ _ _ _ _ _ E)
      as (root & Hsetup & _ & _ & _ & _ & _ & _ & _ & Hliteral).
    destruct Hliteral as (_ & Hplain & Hbugs & _ & Hpatches & _);
      [reflexivity.. |].
    rewrite Hsetup, Hbugs, Hpatches, Hplain;
      [| right; vm_compute; reflexivity].
    repeat split; reflexivity.
  - destruct (succeeds_Some
                (generate_local_dir_info ex_values "defects4j" "Lang" "1"
                   "" ex_disk_shadow)) as [[info fs'] E];
      [vm_compute; reflexivity |].
    exists info, fs'. split; [exact E |].
    destruct (tag_override _ _ _ _ _ _ _ _ E)
      as (root & Hsetup & _ & _ & _ & _ & _ & _ & _ & Hliteral).
    destruct Hliteral as (_ & Hplain & Hbugs & _ & Hpatches & _);
      [reflexivity.. |].
    rewrite Hsetup, Hbugs, Hpatches, Hplain; [| left; reflexivity].
    repeat split; reflexivity.
Defined.

(** C7 (amended).  After a successful call of the local resolver the nine
    directories of [experiment], [setup], [aux], [base], [bugs], [patches],
    [localization], [validation] and [selection] exist, and what the call
    did to the disk is the existence-checked creation of exactly these
    nine.  A second call with the same arguments then succeeds, returns
    the same mapping and leaves the disk as it is, provided the first call
    did not itself bring the shadow directory of the tag into existence. *)
Theorem local_layout_idempotent (v : values) (b s bug tag : string)
    (fs : filesys) (info : gmap string string) (fs' : filesys) :
  generate_local_dir_info v b s bug tag fs = Some (info, fs') →
  (∀ role, role ∈ created_roles →
     ∃ p, info !! role = Some p ∧ path_isdir fs' p = true) ∧
  ensure_dirs (map (λ role, default "" (info !! role)) created_roles) fs
  = Some fs' ∧
  ((truthy tag = true →
    path_exists fs' (dir_setup_extended v b s bug tag)
    = path_exists fs (dir_setup_extended v b s bug tag)) →
   generate_local_dir_info v b s bug tag fs' = Some (info, fs')).
Proof.
  intros Hgen. pose proof Hgen as [Hdirs ->]%generate_local_dir_info_inv.
  pose proof (ensure_dirs_spec _ _ _ Hdirs) as [Hle Hall].
  split; [|split; [exact Hdirs |]].
  - unfold local_dirs_created in Hall.
    repeat (apply Forall_cons in Hall as [? Hall]).
    intros role Hrole. unfold created_roles in Hrole.
    repeat (apply elem_of_cons in Hrole as [-> | Hrole];
            [by eexists |]).
    by apply elem_of_nil in Hrole.
  - intros Hshadow.
    assert (dir_setup_local v b s bug tag fs'
            = dir_setup_local v b s bug tag fs) as Hsetup.
    { unfold dir_setup_local. destruct (truthy tag); [|done].
      by rewrite Hshadow. }
    unfold generate_local_dir_info in *. cbv zeta in *.
    rewrite Hsetup, ensure_dirs_id; [|done].
    by rewrite Hdirs in Hgen.
Qed.

Lemma local_layout_idempotent_witness :
  ∃ info fs',
    generate_local_dir_info ex_values "defects4j" "Lang" "1" "v2"
      ex_disk_empty = Some (info, fs') ∧
    generate_local_dir_info ex_values "defects4j" "Lang" "1" "v2" fs'
    = Some (info, fs') ∧
    ∃ p, info !! "patches" = Some p ∧ path_isdir fs' p = true.
Proof.
  destruct (succeeds_Some
              (generate_local_dir_info ex_values "defects4j" "Lang" "1" "v2"
                 ex_disk_empty)) as [[info fs'] E];
    [vm_compute; reflexivity |].
  exists info, fs'. split; [exact E |].
  destruct (local_layout_idempotent _ _ _ _ _ _ _ _ E)
    as (Hroles & _ & Hidem).
  split.
  - apply Hidem. intros _.
    assert (match generate_local_dir_info ex_values "defects4j" "Lang" "1"
                    "v2" ex_disk_empty with
            | Some (_, fs1) =>
                path_exists fs1
                  (dir_setup_extended ex_values "defects4j" "Lang" "1" "v2")
            | None => true
            end = false) as Hobs by (vm_compute; reflexivity).
    rewrite E in Hobs. rewrite Hobs. vm_compute; reflexivity.
  - apply Hroles. unfold created_roles.
    do 5 apply list_elem_of_further. apply list_elem_of_here.
Defined.

(** C7, as stated, fails: with a tag that leads back out of its own
    shadow directory, the first call creates what the second call then
    finds, and the two calls return different mappings. *)
Lemma local_layout_second_call_differs :
  ∃ info1 fs1 info2 fs2,
    generate_local_dir_info ex_values "defects4j" "Lang" "1" "/../base"
      ex_disk_dash = Some (info1, fs1) ∧
    generate_local_dir_info ex_values "defects4j" "Lang" "1" "/../base" fs1
    = Some (info2, fs2) ∧
    info1 !! "setup" = Some "/cerberus/benchmark/defects4j/Lang/1/" ∧
    info2 !! "setup" = Some "/cerberus/benchmark/defects4j/Lang/1-/../base/" ∧
    info1 ≠ info2.
Proof.
  destruct (succeeds_Some
              (generate_local_dir_info ex_values "defects4j" "Lang" "1"
                 "/../base" ex_disk_dash)) as [[info1 fs1] E1];
    [vm_compute; reflexivity |].
  assert (match generate_local_dir_info ex_values "defects4j" "Lang" "1"
                  "/../base" ex_disk_dash with
          | Some (i1, fs1) =>
              (i1 !! "setup",
               match generate_local_dir_info ex_values "defects4j" "Lang"
                       "1" "/../base" fs1 with
               | Some (i2, _) => i2 !! "setup"
               | None => None
               end)
          | None => (None, None)
          end = (Some "/cerberus/benchmark/defects4j/Lang/1/",
                 Some "/cerberus/benchmark/defects4j/Lang/1-/../base/"))
    as Hobs by (vm_compute; reflexivity).
  rewrite E1 in Hobs. injection Hobs as H1 H2.
  destruct (generate_local_dir_info ex_values "defects4j" "Lang" "1"
              "/../base" fs1) as [[info2 fs2]|] eqn:E2; [|discriminate H2].
  exists info1, fs1, info2, fs2.
  split; [exact E1 |]. split; [exact E2 |].
  split; [exact H1 |]. split; [exact H2 |].
  intros ->. rewrite H1 in H2. discriminate H2.
Qed.

Lemma generate_local_tool_dir_info_inv (v : values) (b s bug : string)
    (h : hash_object) (task tag : string) (fs : filesys)
    (info : gmap string string) (fs' : filesys) :
  generate_local_tool_dir_info v b s bug h task tag fs = Some (info, fs') →
  ∃ base fs1,
    generate_local_dir_info v b s bug tag fs = Some (base, fs1) ∧
    makedirs_all [ join (dir_logs v) [run_dir_name task h];
                   join (dir_results v) [run_dir_name task h];
                   join (dir_artifacts v) [run_dir_name task h] ] fs1
    = Some fs' ∧
    info = <["results" := join (dir_results v) [run_dir_name task h]]>
             (<["artifacts" := join (dir_artifacts v) [run_dir_name task h]]>
                (<["logs" := join (dir_logs v) [run_dir_name task h]]> base)).
Proof.
  unfold generate_local_tool_dir_info. cbv zeta.
  destruct (generate_local_dir_info v b s bug tag fs) as [[base fs1]|];
    [|done].
  destruct (makedirs_all _ fs1) as [fs2|] eqn:E; [|done].
  intros [= <- <-]. by exists base, fs1.
Qed.

(** C1 (amended).  The tool-scoped extension names the run directory
    exactly the task identifier, a hyphen and the first eight characters
    of the hex digest, and puts [logs], [artifacts] and [results] under
    that name.  The same task identifier and hash give the same name; two
    hashes give the same name exactly when their digests agree on the
    first eight characters, so a hash that differs there gives a
    different name. *)
Theorem run_dir_name_spec (v : values) (b s bug : string) (h : hash_object)
    (task tag : string) (fs : filesys) (info : gmap string string)
    (fs' : filesys) :
  generate_local_tool_dir_info v b s bug h task tag fs = Some (info, fs') →
  run_dir_name task h = task +:+ "-" +:+ str_take 8 (hexdigest h) ∧
  info !! "logs" = Some (join (dir_logs v) [run_dir_name task h]) ∧
  info !! "artifacts" = Some (join (dir_artifacts v) [run_dir_name task h]) ∧
  info !! "results" = Some (join (dir_results v) [run_dir_name task h]) ∧
  ∀ h', run_dir_name task h' = run_dir_name task h ↔
        str_take 8 (hexdigest h') = str_take 8 (hexdigest h).
Proof.
  intros (base & fs1 & _ & _ & ->)%generate_local_tool_dir_info_inv.
  split; [done |]. split; [by simplify_map_eq |].
  split; [by simplify_map_eq |]. split; [by simplify_map_eq |].
  intros h'. unfold run_dir_name. split.
  - intros E. by do 2 apply str_app_inv_head in E.
  - by intros ->.
Qed.

Lemma run_dir_name_spec_witness :
  ∃ info fs',
    generate_local_tool_dir_info ex_values "defects4j" "Lang" "1" ex_hash
      "arja-e" "" ex_disk_empty = Some (info, fs') ∧
    run_dir_name "arja-e" ex_hash = "arja-e-a1b2c3d4" ∧
    info !! "results" = Some "/cerberus/results/arja-e-a1b2c3d4".
Proof.
  destruct (succeeds_Some
              (generate_local_tool_dir_info ex_values "defects4j" "Lang" "1"
                 ex_hash "arja-e" "" ex_disk_empty)) as [[info fs'] E];
    [vm_compute; reflexivity |].
  exists info, fs'. split; [exact E |].
  destruct (run_dir_name_spec _ _ _ _ _ _ _ _ _ _ E)
    as (Hname & _ & _ & Hres & _).
  rewrite Hres, Hname. split; vm_compute; reflexivity.
Defined.

(** C1, as stated, fails: two different content hashes whose digests
    share their first eight characters give the same run directory. *)
Lemma run_dir_name_collision :
  hexdigest ex_hash ≠ hexdigest ex_hash_twin ∧
  run_dir_name "arja-e" ex_hash = run_dir_name "arja-e" ex_hash_twin ∧
  ∃ info1 fs1 info2 fs2,
    generate_local_tool_dir_info ex_values "defects4j" "Lang" "1" ex_hash
      "arja-e" "" ex_disk_empty = Some (info1, fs1) ∧
    generate_local_tool_dir_info ex_values "defects4j" "Lang" "1"
      ex_hash_twin "arja-e" "" ex_disk_empty = Some (info2, fs2) ∧
    info1 !! "results" = info2 !! "results".
Proof.
  split; [vm_compute; discriminate |].
  split; [vm_compute; reflexivity |].
  destruct (succeeds_Some
              (generate_local_tool_dir_info ex_values "defects4j" "Lang" "1"
                 ex_hash "arja-e" "" ex_disk_empty)) as [[info1 fs1] E1];
    [vm_compute; reflexivity |].
  destruct (succeeds_Some
              (generate_local_tool_dir_info ex_values "defects4j" "Lang" "1"
                 ex_hash_twin "arja-e" "" ex_disk_empty)) as [[info2 fs2] E2];
    [vm_compute; reflexivity |].
  exists info1, fs1, info2, fs2. split; [exact E1 |]. split; [exact E2 |].
  apply generate_local_tool_dir_info_inv in E1 as (b1 & ? & _ & _ & ->).
  apply generate_local_tool_dir_info_inv in E2 as (b2 & ? & _ & _ & ->).
  rewrite !lookup_insert_eq. vm_compute; reflexivity.
Qed.

(** C3 (amended).  The tool-scoped extension returns the local namespace
    with [logs] and [artifacts] replaced and [results] added, nothing else
    changed, all three under the run directory name.  After the call the
    three directories exist: each is created when it is missing and kept
    as it is when it is there, so nothing that was on the disk is
    removed. *)
Theorem tool_layout_extension (v : values) (b s bug : string)
    (h : hash_object) (task tag : string) (fs : filesys)
    (info : gmap string string) (fs' : filesys) :
  generate_local_tool_dir_info v b s bug h task tag fs = Some (info, fs') →
  ∃ base fs1,
    generate_local_dir_info v b s bug tag fs = Some (base, fs1) ∧
    is_Some (base !! "logs") ∧ is_Some (base !! "artifacts") ∧
    base !! "results" = None ∧
    info !! "logs" = Some (join (dir_logs v) [run_dir_name task h]) ∧
    info !! "artifacts" = Some (join (dir_artifacts v) [run_dir_name task h]) ∧
    info !! "results" = Some (join (dir_results v) [run_dir_name task h]) ∧
    (∀ role, role ≠ "logs" → role ≠ "artifacts" → role ≠ "results" →
       info !! role = base !! role) ∧
    path_isdir fs' (join (dir_logs v) [run_dir_name task h]) = true ∧
    path_isdir fs' (join (dir_artifacts v) [run_dir_name task h]) = true ∧
    path_isdir fs' (join (dir_results v) [run_dir_name task h]) = true ∧
    (∀ p, path_exists fs1 p = true → path_exists fs' p = true) ∧
    (∀ p l, read_file fs1 p = Some l → read_file fs' p = Some l).
Proof.
  intros (base & fs1 & Hbase & Hmk & ->)%generate_local_tool_dir_info_inv.
  exists base, fs1. split; [done |].
  pose proof Hbase as [_ Eb]%generate_local_dir_info_inv.
  split; [by rewrite Eb |]. split; [by rewrite Eb |]. split; [by rewrite Eb |].
  split; [by simplify_map_eq |]. split; [by simplify_map_eq |].
  split; [by simplify_map_eq |].
  split; [intros; by simplify_map_eq |].
  destruct (makedirs_all_spec _ _ _ Hmk) as [Hle Hall].
  repeat (apply Forall_cons in Hall as [? Hall]).
  repeat (split; [done |]). split.
  - intros p. by apply fs_le_exists.
  - intros p l. by apply fs_le_read_file.
Qed.

Lemma tool_layout_extension_witness :
  ∃ info fs',
    generate_local_tool_dir_info ex_values "defects4j" "Lang" "1" ex_hash
      "arja-e" "" ex_disk_rerun = Some (info, fs') ∧
    info !! "results" = Some "/cerberus/results/arja-e-a1b2c3d4" ∧
    path_isdir fs' "/cerberus/results/arja-e-a1b2c3d4" = true.
Proof.
  destruct (succeeds_Some
              (generate_local_tool_dir_info ex_values "defects4j" "Lang" "1"
                 ex_hash "arja-e" "" ex_disk_rerun)) as [[info fs'] E];
    [vm_compute; reflexivity |].
  exists info, fs'. split; [exact E |].
  destruct (tool_layout_extension _ _ _ _ _ _ _ _ _ _ E)
    as (base & fs1 & _ & _ & _ & _ & _ & _ & Hres & _ & _ & _ & Hdir & _).
  assert (join (dir_results ex_values) [run_dir_name "arja-e" ex_hash]
          = "/cerberus/results/arja-e-a1b2c3d4") as Ep
    by (vm_compute; reflexivity).
  rewrite Ep in Hres, Hdir. split; [exact Hres | exact Hdir].
Defined.

(** C3, as stated, fails: a run directory left by an earlier run with the
    same hash is not empty after the extension. *)
Lemma tool_dirs_not_emptied :
  ∃ info fs',
    generate_local_tool_dir_info ex_values "defects4j" "Lang" "1" ex_hash
      "arja-e" "" ex_disk_rerun = Some (info, fs') ∧
    info !! "results" = Some "/cerberus/results/arja-e-a1b2c3d4" ∧
    listdir ex_disk_rerun "/cerberus/results/arja-e-a1b2c3d4"
    = Some ["old.json"] ∧
    listdir fs' "/cerberus/results/arja-e-a1b2c3d4" = Some ["old.json"].
Proof.
  destruct (succeeds_Some
              (generate_local_tool_dir_info ex_values "defects4j" "Lang" "1"
                 ex_hash "arja-e" "" ex_disk_rerun)) as [[info fs'] E];
    [vm_compute; reflexivity |].
  assert (match generate_local_tool_dir_info ex_values "defects4j" "Lang"
                  "1" ex_hash "arja-e" "" ex_disk_rerun with
          | Some (i, fs1) =>
              (i !! "results",
               listdir fs1 "/cerberus/results/arja-e-a1b2c3d4")
          | None => (None, None)
          end = (Some "/cerberus/results/arja-e-a1b2c3d4",
                 Some ["old.json"])) as Hobs by (vm_compute; reflexivity).
  rewrite E in Hobs. injection Hobs as H1 H2.
  exists info, fs'. split; [exact E |]. split; [exact H1 |].
  split; [vm_compute; reflexivity | exact H2].
Qed.

(** C8.  The container namespace depends on the benchmark, the subject
    and the bug only: whatever the tag and the state of the host disk, it
    is the same mapping, with [logs] at [/logs], [artifacts] at [/output],
    [setup] at [/setup] joined with [{benchmark}/{subject}/{bug}/], and
    without a [results] role. *)
Theorem container_layout_fixed (v : values) (b s bug : string) :
  (∀ tag fs di fs',
     generate_dir_info v b s bug tag fs = Some (di, fs') →
     container di = generate_container_dir_info v b s bug) ∧
  (∀ h task tag fs di fs',
     generate_tool_dir_info v b s bug h task tag fs = Some (di, fs') →
     container di = generate_container_dir_info v b s bug) ∧
  generate_container_dir_info v b s bug !! "logs" = Some "/logs" ∧
  generate_container_dir_info v b s bug !! "artifacts" = Some "/output" ∧
  generate_container_dir_info v b s bug !! "setup"
  = Some (join "/setup" [join b [s; bug; ""]]) ∧
  generate_container_dir_info v b s bug !! "results" = None ∧
  (plain_name b = true → plain_name s = true → plain_name bug = true →
   generate_container_dir_info v b s bug !! "setup"
   = Some ("/setup/" +:+ b +:+ "/" +:+ s +:+ "/" +:+ bug +:+ "/")).
Proof.
  split; [|split].
  - intros tag fs di fs'. unfold generate_dir_info.
    destruct (generate_local_dir_info _ _ _ _ _ _) as [[l fs1]|]; [|done].
    by intros [= <- <-].
  - intros h task tag fs di fs'. unfold generate_tool_dir_info.
    destruct (generate_local_tool_dir_info _ _ _ _ _ _ _ _) as [[l fs1]|];
      [|done].
    by intros [= <- <-].
  - repeat (split; [done |]). intros Hb Hs Hbug.
    assert (join "/setup" [join b [s; bug; ""]]
            = "/setup/" +:+ b +:+ "/" +:+ s +:+ "/" +:+ bug +:+ "/") as <-;
      [|done].
    rewrite dir_path_plain by done. unfold join. cbn [foldl].
    rewrite join2_plain; [reflexivity | reflexivity | reflexivity |].
    rewrite starts_with_sep_app by by apply plain_name_truthy.
    by apply has_sep_starts, plain_name_has_sep.
Qed.

Lemma container_layout_fixed_witness :
  ∃ di1 fs1 di2 fs2,
    generate_dir_info ex_values "defects4j" "Lang" "1" "" ex_disk_shadow
    = Some (di1, fs1) ∧
    generate_dir_info ex_values "defects4j" "Lang" "1" "v2" ex_disk_shadow
    = Some (di2, fs2) ∧
    container di1 = container di2 ∧
    container di1 !! "setup" = Some "/setup/defects4j/Lang/1/".
Proof.
  destruct (succeeds_Some
              (generate_dir_info ex_values "defects4j" "Lang" "1" ""
                 ex_disk_shadow)) as [[di1 fs1] E1];
    [vm_compute; reflexivity |].
  destruct (succeeds_Some
              (generate_dir_info ex_values "defects4j" "Lang" "1" "v2"
                 ex_disk_shadow)) as [[di2 fs2] E2];
    [vm_compute; reflexivity |].
  exists di1, fs1, di2, fs2. split; [exact E1 |]. split; [exact E2 |].
  destruct (container_layout_fixed ex_values "defects4j" "Lang" "1")
    as (Hdi & _ & _ & _ & _ & _ & Hsetup).
  rewrite (Hdi _ _ _ _ E1), (Hdi _ _ _ _ E2). split; [reflexivity |].
  rewrite Hsetup; vm_compute; reflexivity.
Defined.

(* ===================================================================== *)
(** ** The lifecycle of a repair tool                                    *)
(* ===================================================================== *)

Lemma active_container_inv (self : tool) (cid : string) :
  active_container self = Some cid →
  container_id self = Some cid ∧ truthy cid = true.
Proof.
  unfold active_container. destruct (container_id self) as [c|]; [|done].
  destruct (truthy c) eqn:Ec; [|done]. by intros [= <-].
Qed.

(** C4.  [save_artifacts] removes the directory [patches/{tool_name}] of
    the layout and copies the tool's working patch directory in its place,
    so that whatever was there before, the destination holds exactly the
    entries of the current patch directory; a second call in succession
    ends in the same state of the destination.

    The layout's [patches] role is an existing directory given by a
    normalised absolute path, the tool name is a plain file name and the
    destination is not a regular file.  The working patch directory
    exists: in the container of the tool when it has one; otherwise on the
    host, at a normalised path apart from the destination, and both paths
    are words of the shell.  The parent method, which the sources do not
    contain, is asked to leave the destination and the patch directory
    alone. *)
Theorem save_artifacts_replaces `{Collaborators} (self : tool)
    (dir_info : gmap string string) (w : world) (cb : list string)
    (m : gmap string node) :
  dir_info !! "patches" = Some (abs_path cb) →
  cb ≠ [] →
  forallb plain_name cb = true →
  plain_name (name self) = true →
  path_isdir (host w) (abs_path cb) = true →
  path_isfile (host w) (join (abs_path cb) [name self]) = false →
  (∃ cid cfs,
     container_id self = Some cid ∧ truthy cid = true ∧
     guests w !! cid = Some cfs ∧
     node_at cfs (dir_patch self) = Some (Dir m))
  ∨ ((container_id self = None ∨ container_id self = Some "") ∧
     ∃ cs,
       dir_patch self = abs_path cs ∧ forallb plain_name cs = true ∧
       apart cs (cb ++ [name self]) = true ∧
       shell_word (dir_patch self) = true ∧
       shell_word (join (abs_path cb) [name self]) = true ∧
       node_at (host w) (dir_patch self) = Some (Dir m)) →
  parent_frame self dir_info (join (abs_path cb) [name self]) →
  (∃ w0, save_patches self dir_info w = Some w0 ∧
         node_at (host w0) (join (abs_path cb) [name self]) = Some (Dir m)) ∧
  ∀ w1, save_artifacts self dir_info w = Some w1 →
    node_at (host w1) (join (abs_path cb) [name self]) = Some (Dir m) ∧
    (∃ w0, save_patches self dir_info w1 = Some w0 ∧
           node_at (host w0) (join (abs_path cb) [name self])
           = Some (Dir m)) ∧
    ∀ w2, save_artifacts self dir_info w1 = Some w2 →
      node_at (host w2) (join (abs_path cb) [name self]) = Some (Dir m).
Proof.
  intros Hrole Hne Hcb%forallb_plain Hname Hbase Hnofile Hgiven Hparent.
  pose proof (dst_plain self cb Hcb Hname) as Hdst.
  rewrite (dst_path self cb Hcb Hne Hname) in *.
  (* the two ways of running, in the terms of the lemmas *)
  assert (patch_source self w = Some (Dir m) ∧
          ∃ cs, source_apart self cs (cb ++ [name self]))
    as (Hsource & cs & Hsrc).
  { unfold patch_source, source_apart, active_container.
    destruct Hgiven as [(cid & cfs & -> & -> & -> & Hm)
                       | (Hcid & cs & Hp & Hcs & Hap & Hw1 & Hw2 & Hm)].
    - split; [done | by exists []].
    - assert (match container_id self with
              | Some cid => if truthy cid then Some cid else None
              | None => None
              end = None) as -> by (by destruct Hcid as [-> | ->]).
      split; [done |]. exists cs. by rewrite <- Hp. }
  assert (∀ w1 w2, parent_save_artifacts self dir_info w1 = Some w2 →
            node_at (host w2) (abs_path (cb ++ [name self]))
            = node_at (host w1) (abs_path (cb ++ [name self])) ∧
            patch_source self w2 = patch_source self w1) as Hframe.
  { intros wa wb Hp. destruct (Hparent _ _ Hp) as (Hd & Hs & Hg).
    split; [done |]. unfold patch_source.
    destruct (active_container self) as [cid|] eqn:Ec; [|done].
    apply active_container_inv in Ec as [Ec _]. by rewrite (Hg cid Ec). }
  assert (∀ fs, node_at fs (abs_path (cb ++ [name self]))
                = lookup_node (cb ++ [name self]) (fs_tree fs)) as Hat.
  { intros fs. apply node_at_abs_path; [done | by destruct cb]. }
  unfold path_isdir, path_isfile in *.
  rewrite Hat in Hnofile. rewrite node_at_abs_path in Hbase by done.
  destruct (save_patches_spec self dir_info cb cs m Hrole Hcb Hne Hname Hsrc
              w Hbase Hnofile Hsource) as (w0 & E0 & Hd0 & Hs0).
  split; [exists w0; by rewrite Hat |].
  intros w1 Hsave. unfold save_artifacts in Hsave. rewrite E0 in Hsave.
  destruct (Hframe _ _ Hsave) as [Hd1 Hs1].
  rewrite (Hat (host w0)), Hd0 in Hd1. rewrite Hs0 in Hs1.
  split; [done |]. rewrite Hat in Hd1.
  destruct (save_patches_spec self dir_info cb cs m Hrole Hcb Hne Hname Hsrc
              w1) as (w0' & E0' & Hd0' & Hs0').
  { by eapply is_dir_node_prefix; [rewrite Hd1 |]. }
  { by rewrite Hd1. }
  { done. }
  split; [exists w0'; by rewrite Hat |].
  intros w2 Hsave2. unfold save_artifacts in Hsave2. rewrite E0' in Hsave2.
  destruct (Hframe _ _ Hsave2) as [Hd2 _].
  by rewrite (Hat (host w0')), Hd0' in Hd2.
Qed.

Lemma save_artifacts_replaces_witness :
  (∃ w1 w2,
     save_artifacts (H := ex_collaborators) ex_arja_e ex_dir_info ex_world
     = Some w1 ∧
     save_artifacts (H := ex_collaborators) ex_arja_e ex_dir_info w1
     = Some w2 ∧
     listdir (host ex_world) "/setup/patches/arja_e" = Some ["stale.txt"] ∧
     node_at (host w1) (join (abs_path ["setup"; "patches"]) [name ex_arja_e])
     = Some (Dir {[ "Patch_1.txt" := File ["-a"; "+b"] ]}) ∧
     node_at (host w2) (join (abs_path ["setup"; "patches"]) [name ex_arja_e])
     = Some (Dir {[ "Patch_1.txt" := File ["-a"; "+b"] ]})) ∧
  (∃ w1,
     save_artifacts (H := ex_collaborators) ex_arja_e_container ex_dir_info
       ex_world_container = Some w1 ∧
     node_at (host ex_world_container) (dir_patch ex_arja_e_container)
     = Some (Dir {[ "Patch_1.txt" := File ["-a"; "+b"] ]}) ∧
     node_at (host w1)
       (join (abs_path ["setup"; "patches"]) [name ex_arja_e_container])
     = Some (Dir {[ "Patch_7.txt" := File ["-x"; "+y"] ]})).
Proof.
  split.
  - destruct (succeeds_Some
                (save_artifacts (H := ex_collaborators) ex_arja_e ex_dir_info
                   ex_world)) as [w1 E1]; [vm_compute; reflexivity |].
    destruct (save_artifacts_replaces (H := ex_collaborators) ex_arja_e
                ex_dir_info ex_world ["setup"; "patches"]
                {[ "Patch_1.txt" := File ["-a"; "+b"] ]})
      as [_ Hsave].
    + vm_compute; reflexivity.
    + discriminate.
    + vm_compute; reflexivity.
    + vm_compute; reflexivity.
    + vm_compute; reflexivity.
    + vm_compute; reflexivity.
    + right. split; [by left |]. exists ["output"; "patches"].
      repeat (split; [vm_compute; reflexivity |]). vm_compute; reflexivity.
    + intros wa wb [= <-]. repeat split; reflexivity.
    + destruct (Hsave w1 E1) as (Hd1 & (w0 & E0 & _) & Hsave2).
      assert (save_artifacts (H := ex_collaborators) ex_arja_e ex_dir_info w1
              = Some w0) as E2.
      { unfold save_artifacts. rewrite E0. reflexivity. }
      exists w1, w0. split; [exact E1 |]. split; [exact E2 |].
      split; [vm_compute; reflexivity |].
      split; [exact Hd1 | exact (Hsave2 w0 E2)].
  - destruct (succeeds_Some
                (save_artifacts (H := ex_collaborators) ex_arja_e_container
                   ex_dir_info ex_world_container)) as [w1 E1];
      [vm_compute; reflexivity |].
    destruct (save_artifacts_replaces (H := ex_collaborators)
                ex_arja_e_container ex_dir_info ex_world_container
                ["setup"; "patches"]
                {[ "Patch_7.txt" := File ["-x"; "+y"] ]})
      as [_ Hsave].
    + vm_compute; reflexivity.
    + discriminate.
    + vm_compute; reflexivity.
    + vm_compute; reflexivity.
    + vm_compute; reflexivity.
    + vm_compute; reflexivity.
    + left. exists "c1", ex_disk_guest.
      repeat (split; [vm_compute; reflexivity |]). vm_compute; reflexivity.
    + intros wa wb [= <-]. repeat split; reflexivity.
    + exists w1. split; [exact E1 |].
      split; [vm_compute; reflexivity | exact (proj1 (Hsave w1 E1))].
Defined.

(** C4, as stated, fails: a regular file standing where the archive goes
    is not a directory, so it is not removed; the copy of the patch
    directory over it fails, the exit status is not looked at, and after
    the call the destination still is the old file and holds none of the
    patches of the run. *)
Lemma save_artifacts_keeps_stale_file :
  path_isdir ex_disk_stale_file "/setup/patches" = true ∧
  node_at ex_disk_stale_file (dir_patch ex_arja_e)
  = Some (Dir {[ "Patch_1.txt" := File ["-a"; "+b"] ]}) ∧
  node_at ex_disk_stale_file "/setup/patches/arja_e" = Some (File ["old"]) ∧
  save_patches (H := ex_collaborators) ex_arja_e ex_dir_info
    (mk_world ex_disk_stale_file ∅)
  = Some (mk_world ex_disk_stale_file ∅) ∧
  ∃ w1,
    save_artifacts (H := ex_collaborators) ex_arja_e ex_dir_info
      (mk_world ex_disk_stale_file ∅) = Some w1 ∧
    node_at (host w1) "/setup/patches/arja_e" = Some (File ["old"]) ∧
    node_at (host w1) "/setup/patches/arja_e"
    ≠ Some (Dir {[ "Patch_1.txt" := File ["-a"; "+b"] ]}).
Proof.
  repeat (split; [vm_compute; reflexivity |]).
  destruct (succeeds_Some
              (save_artifacts (H := ex_collaborators) ex_arja_e ex_dir_info
                 (mk_world ex_disk_stale_file ∅))) as [w1 E];
    [vm_compute; reflexivity |].
  assert (match save_artifacts (H := ex_collaborators) ex_arja_e ex_dir_info
                  (mk_world ex_disk_stale_file ∅) with
          | Some w' =>
              match node_at (host w') "/setup/patches/arja_e" with
              | Some (File l) => Some l
              | _ => None
              end
          | None => None
          end = Some ["old"]) as Hobs by (vm_compute; reflexivity).
  rewrite E in Hobs. exists w1. split; [exact E |].
  destruct (node_at (host w1) "/setup/patches/arja_e") as [[l|md]|];
    [| discriminate Hobs..].
  injection Hobs as ->. split; [reflexivity | discriminate].
Qed.

(** C5.  The default [analyse_output] never raises, whatever the state of
    the log, and returns the statistics object of the run: when the
    patch-output directory exists, [generated] is the number of its
    entries; when it does not, the statistics are as they were, so
    [generated] is still 0 for a fresh run. *)
Theorem analyse_output_default (self : tool) (fs : filesys) :
  ∃ self',
    analyse_output self fs = Some (stats self', self') ∧
    (∀ m, node_at fs (dir_patch self) = Some (Dir m) →
       self' = set_generated (Z.of_nat (size m)) self ∧
       generated (patch_stats (stats self')) = Z.of_nat (size m)) ∧
    (is_dir fs (dir_patch self) = false →
       self' = self ∧
       (stats self = new_stats → generated (patch_stats (stats self')) = 0)).
Proof.
  unfold analyse_output, is_dir, list_dir, listdir, path_isdir.
  destruct (node_at fs (dir_patch self)) as [[l|m]|] eqn:E; simpl.
  - exists self. split; [done |]. split; [done |]. split; [done |].
    by intros ->.
  - exists (set_generated (Z.of_nat (length (map fst (map_to_list m)))) self).
    split; [done |]. split; [|done].
    intros m' [= <-]. rewrite length_map, length_map_to_list.
    split; reflexivity.
  - exists self. split; [done |]. split; [done |]. split; [done |].
    by intros ->.
Qed.

Lemma analyse_output_default_witness :
  ∃ self',
    analyse_output ex_arja_e ex_disk_run_patch = Some (stats self', self') ∧
    generated (patch_stats (stats self')) = 3 ∧
    analyse_output ex_arja_e ex_disk_empty = Some (stats ex_arja_e, ex_arja_e) ∧
    generated (patch_stats (stats ex_arja_e)) = 0.
Proof.
  destruct (analyse_output_default ex_arja_e ex_disk_run_patch)
    as (self' & E & Hdir & _).
  destruct (analyse_output_default ex_arja_e ex_disk_empty)
    as (self0 & E0 & _ & Hno).
  exists self'. split; [exact E |].
  destruct (Hdir {[ "1.patch" := File ["-a"; "+b"];
                    "2.patch" := File ["-c"; "+d"];
                    "3.patch" := File ["-e"; "+f"] ]})
    as [_ Hgen]; [vm_compute; reflexivity |].
  split; [rewrite Hgen; vm_compute; reflexivity |].
  destruct Hno as [Eself H0]; [vm_compute; reflexivity |].
  rewrite Eself in E0, H0. split; [exact E0 | apply H0; reflexivity].
Defined.

(** The counting loop of [ARJA_E.analyse_output]: a line that reports a
    finished evaluation is an enumeration, and only a line that does not
    can count as plausible. *)
Lemma count_log_lines_spec (log_lines : list string) (a b : Z) :
  count_log_lines log_lines (a, b) =
  (a + count_lines "One fitness evaluation is finished" log_lines,
   b + count_lines_without "failed tests: 0"
         "One fitness evaluation is finished" log_lines).
Proof.
  unfold count_lines, count_lines_without.
  revert a b. induction log_lines as [|line rest IH]; intros a b.
  - simpl. f_equal; lia.
  - cbn [count_log_lines fst snd]. rewrite !filter_cons.
    destruct (str_contains "One fitness evaluation is finished" line) eqn:E1.
    + rewrite IH. rewrite decide_True by done.
      rewrite decide_False by (by intros [_ ?]).
      cbn [length]. f_equal; lia.
    + rewrite decide_False by done.
      destruct (str_contains "failed tests: 0" line) eqn:E2.
      * rewrite IH. rewrite decide_True by done.
        cbn [length]. f_equal; lia.
      * rewrite IH. rewrite decide_False by (by intros [? _]).
        done.
Qed.

(** What [ARJA_E.analyse_output] returns is [self.stats]. *)
Lemma arja_e_analyse_output_stats (self : tool) (fs : filesys)
    (st : RepairToolStats) (self' : tool) :
  arja_e_analyse_output self fs = Some (st, self') → st = stats self'.
Proof.
  unfold arja_e_analyse_output. intros H.
  repeat case_match; simplify_eq; reflexivity.
Qed.

(** C6 (amended).  For the ARJA_E driver, given a run whose output
    directory can be listed, whose patch directory [{dir_output}/patches]
    ([patch-valid] with valkyrie) holds exactly three entries with [.txt]
    in their names, and whose captured log has exactly two lines that
    contain "One fitness evaluation is finished" and exactly one other
    line that contains "failed tests: 0", [analyse_output] returns the
    statistics with [generated] 3, [enumerations] 2 and [plausible] 1. *)
Theorem arja_e_analyse_output_counts (self : tool) (fs : filesys)
    (l0 log_lines l : list string) :
  list_dir fs (dir_output self) = Some l0 →
  truthy (log_output_path self) = true →
  read_file fs (log_output_path self) = Some log_lines →
  count_lines "One fitness evaluation is finished" log_lines = 2 →
  count_lines_without "failed tests: 0" "One fitness evaluation is finished"
    log_lines = 1 →
  list_dir fs (join (dir_output self)
                 [if use_valkyrie self then "patch-valid" else "patches"])
  = Some l →
  length (filter (λ x, str_contains ".txt" x = true) l) = 3%nat →
  ∃ self',
    arja_e_analyse_output self fs = Some (stats self', self') ∧
    generated (patch_stats (stats self')) = 3 ∧
    enumerations (patch_stats (stats self')) = 2 ∧
    plausible (patch_stats (stats self')) = 1.
Proof.
  intros Hout Hlog Hread Henum Hplaus Hpatches Hthree.
  unfold arja_e_analyse_output. rewrite Hout, Hlog.
  assert (is_file fs (log_output_path self) = true) as Hfile.
  { unfold is_file, path_isfile. unfold read_file in Hread.
    by destruct (node_at fs (log_output_path self)) as [[|]|]. }
  rewrite Hfile, Hread. cbn [negb orb].
  destruct log_lines as [|first_line rest]; [done |].
  destruct (last (first_line :: rest)) as [last_line|] eqn:Elast.
  2: { by apply last_None in Elast. }
  cbn [head]. rewrite count_log_lines_spec, Henum, Hplaus, Hpatches, Hthree.
  eexists. split; [done |]. done.
Qed.

Lemma arja_e_analyse_output_counts_witness :
  ∃ self',
    arja_e_analyse_output ex_arja_e ex_disk_run_txt
    = Some (stats self', self') ∧
    generated (patch_stats (stats self')) = 3 ∧
    enumerations (patch_stats (stats self')) = 2 ∧
    plausible (patch_stats (stats self')) = 1.
Proof.
  eapply (arja_e_analyse_output_counts ex_arja_e ex_disk_run_txt);
    vm_compute; reflexivity.
Defined.

(** C6, as stated, fails: three patch files whose names do not contain
    [.txt] are not counted; [generated] is 0 for them. *)
Lemma arja_e_patch_files_not_counted :
  length <$> listdir ex_disk_run_patch (dir_patch ex_arja_e) = Some 3%nat ∧
  read_file ex_disk_run_patch (log_output_path ex_arja_e) = Some ex_log ∧
  count_lines "One fitness evaluation is finished" ex_log = 2 ∧
  count_lines "failed tests: 0" ex_log = 1 ∧
  ∃ self',
    arja_e_analyse_output ex_arja_e ex_disk_run_patch
    = Some (stats self', self') ∧
    generated (patch_stats (stats self')) = 0 ∧
    generated (patch_stats (stats self')) ≠ 3.
Proof.
  repeat (split; [vm_compute; reflexivity |]).
  destruct (succeeds_Some (arja_e_analyse_output ex_arja_e ex_disk_run_patch))
    as [[st self'] E]; [vm_compute; reflexivity |].
  assert (match arja_e_analyse_output ex_arja_e ex_disk_run_patch with
          | Some (_, t) => generated (patch_stats (stats t))
          | None => 3
          end = 0) as Hgen by (vm_compute; reflexivity).
  rewrite E in Hgen.
  pose proof (arja_e_analyse_output_stats _ _ _ _ E) as ->.
  exists self'. split; [exact E |]. split; [exact Hgen |].
  rewrite Hgen. discriminate.
Qed.
(* ===================================================================== *)
(** ** The ARJA-e command line                                           *)
(* ===================================================================== *)

Lemma str_prefix_app (pat a b : string) :
  str_prefix pat a = true → str_prefix pat (a +:+ b) = true.
Proof.
  revert a. induction pat as [|x pat IH]; intros a; [done |].
  destruct a as [|y a]; [done |]. simpl.
  intros [-> Hp]%andb_true_iff. simpl. by apply IH.
Qed.

Lemma str_prefix_refl (p : string) : str_prefix p p = true.
Proof.
  induction p as [|x p IH]; [done |]. simpl.
  by rewrite bool_decide_eq_true_2.
Qed.

Lemma str_contains_prefix (pat s : string) :
  str_prefix pat s = true → str_contains pat s = true.
Proof. destruct s; simpl; by intros ->. Qed.

Lemma str_contains_app_l (pat a b : string) :
  str_contains pat a = true → str_contains pat (a +:+ b) = true.
Proof.
  induction a as [|x a IH].
  - simpl. rewrite orb_false_r. intros Hp. destruct pat; [|done].
    by destruct b.
  - cbn [str_contains]. intros [Hp | Hc]%orb_true_iff.
    + change (String x a +:+ b) with (String x (a +:+ b)).
      cbn [str_contains].
      change (String x (a +:+ b)) with (String x a +:+ b).
      by rewrite str_prefix_app.
    + change (String x a +:+ b) with (String x (a +:+ b)).
      cbn [str_contains]. rewrite IH by done. by rewrite orb_true_r.
Qed.

Lemma str_contains_app_r (pat a b : string) :
  str_contains pat b = true → str_contains pat (a +:+ b) = true.
Proof.
  intros Hb. induction a as [|x a IH]; [done |].
  change (String x a +:+ b) with (String x (a +:+ b)).
  cbn [str_contains]. rewrite IH. by rewrite orb_true_r.
Qed.

(** Look for a flag in a command built by appending: either it starts
    here, or it is further to the right. *)
Ltac find_flag :=
  repeat first
    [ by (apply str_contains_prefix; vm_compute)
    | apply str_contains_app_r ].

(** *** Where a text cannot occur

    An occurrence of [pat] cannot reach across a character that is not
    in [pat]. *)

Lemma str_prefix_sep (pat a b : string) (c : ascii) :
  has_char c pat = false →
  str_prefix pat (a +:+ String c b) = str_prefix pat a.
Proof.
  revert a. induction pat as [|x pat IH]; intros a; [done |].
  cbn [has_char]. intros [Hx Hc]%orb_false_iff.
  destruct a as [|y a].
  - simpl. by rewrite Hx.
  - change (String y a +:+ String c b) with (String y (a +:+ String c b)).
    cbn [str_prefix]. by rewrite IH.
Qed.

Lemma str_contains_sep (pat a b : string) (c : ascii) :
  has_char c pat = false →
  str_contains pat (a +:+ String c b)
  = str_contains pat a || str_contains pat b.
Proof.
  intros Hc. induction a as [|x a IH].
  - change ("" +:+ String c b) with (String c b). cbn [str_contains].
    rewrite <- (str_prefix_sep pat "" b c Hc).
    change ("" +:+ String c b) with (String c b).
    by rewrite orb_false_r.
  - change (String x a +:+ String c b) with (String x (a +:+ String c b)).
    cbn [str_contains]. rewrite IH.
    change (String x (a +:+ String c b)) with (String x a +:+ String c b).
    by rewrite str_prefix_sep, orb_assoc.
Qed.

Lemma ends_outside_inv (pat a : string) :
  ends_outside pat a = true →
  ∃ a' c, a = a' +:+ String c "" ∧ has_char c pat = false.
Proof.
  induction a as [|x a IH]; [done |]. cbn [ends_outside].
  destruct a as [|y a].
  - intros Hx%negb_true_iff. by exists "", x.
  - intros (a' & c & -> & Hc)%IH. by exists (String x a'), c.
Qed.

Lemma str_contains_app_false (pat a r : string) :
  str_contains pat a = false → str_contains pat r = false →
  ends_outside pat a = true ∨ starts_outside pat r = true →
  str_contains pat (a +:+ r) = false.
Proof.
  intros Ha Hr [(a' & c & -> & Hc)%ends_outside_inv | Hstart].
  - rewrite str_app_assoc. change (String c "" +:+ r) with (String c r).
    rewrite str_contains_sep in * by done.
    apply orb_false_iff in Ha as [-> _]. by rewrite Hr.
  - destruct r as [|c r]; [done |]. simpl in Hstart.
    apply negb_true_iff in Hstart.
    rewrite str_contains_sep by done. rewrite Ha.
    cbn [str_contains] in Hr. by apply orb_false_iff in Hr as [_ ->].
Qed.

Lemma ends_with_sep_outside (pat a : string) :
  has_char "/" pat = false → ends_with_sep a = true →
  ends_outside pat a = true.
Proof.
  intros Hp. induction a as [|x a IH]; [done |]. cbn [ends_with_sep ends_outside].
  destruct a as [|y a]; [|done].
  case_bool_decide; [|done]. subst x. by rewrite Hp.
Qed.

Lemma str_contains_join2_false (pat a b : string) :
  has_char "/" pat = false →
  str_contains pat a = false → str_contains pat b = false →
  str_contains pat (join2 a b) = false.
Proof.
  intros Hp Ha Hb. unfold join2.
  destruct (starts_with_sep b); [done |].
  destruct (truthy a) eqn:Et; cbn [negb orb].
  - destruct (ends_with_sep a) eqn:Ee.
    + apply str_contains_app_false; [done | done | left].
      by apply ends_with_sep_outside.
    + change ("/" +:+ b) with (String "/" b).
      by rewrite str_contains_sep, Ha, Hb.
  - by destruct a.
Qed.

Lemma str_contains_join_false (pat a : string) (l : list string) :
  has_char "/" pat = false →
  str_contains pat a = false →
  forallb (λ x, negb (str_contains pat x)) l = true →
  str_contains pat (join a l) = false.
Proof.
  intros Hp. unfold join. revert a.
  induction l as [|x l IH]; intros a Ha Hl; [done |].
  cbn [forallb] in Hl. apply andb_true_iff in Hl as [Hx%negb_true_iff Hl].
  cbn [foldl]. apply IH; [|done]. by apply str_contains_join2_false.
Qed.

Lemma str_contains_concat_false (pat : string) (c : ascii) (l : list string) :
  has_char c pat = false → str_contains pat "" = false →
  forallb (λ x, negb (str_contains pat x)) l = true →
  str_contains pat (String.concat (String c "") l) = false.
Proof.
  intros Hc He. induction l as [|x l IH]; [done |].
  cbn [forallb]. intros [Hx%negb_true_iff Hl]%andb_true_iff.
  destruct l as [|y l]; [done |].
  change (String.concat (String c "") (x :: y :: l))
    with (x +:+ String c (String.concat (String c "") (y :: l))).
  by rewrite str_contains_sep, Hx, IH.
Qed.

(** Go through a text built by appending: no piece holds the pattern,
    and where two pieces meet one of them has a character there that is
    not in the pattern. *)
Ltac no_flag :=
  repeat lazymatch goal with
    | |- str_contains _ (_ +:+ _) = false =>
        apply str_contains_app_false;
        [ first [ assumption | vm_compute; reflexivity ]
        |
        | first [ left; vm_compute; reflexivity
                | right; vm_compute; reflexivity ] ]
    end;
  first [ assumption | vm_compute; reflexivity ].

(** Without the flag of lines 100 to 102 the command holds the text
    [-Dtests] only if one of the texts written into it does. *)
Lemma arja_e_command_base_no_flag (self : tool) (bi : bug_info)
    (timeout_h : string) :
  forallb (λ x, negb (str_contains "-Dtests" x))
    (command_fields self bi timeout_h) = true →
  str_contains "-Dtests" (arja_e_command_base self bi timeout_h) = false.
Proof.
  unfold command_fields. rewrite forallb_app. cbn [forallb].
  intros [Hfields Hdeps]%andb_true_iff.
  repeat (apply andb_true_iff in Hfields as [?%negb_true_iff Hfields]).
  assert (∀ d, str_contains "-Dtests" d = false →
               str_contains "-Dtests" (join (dir_expr self) ["src"; d])
               = false) as Hjoin.
  { intros d Hd. apply str_contains_join_false; [done | done |].
    cbn [forallb]. by rewrite Hd. }
  assert (str_contains "-Dtests" (list_deps_str self bi) = false) as Hlist.
  { unfold list_deps_str. apply str_contains_concat_false; [done | done |].
    rewrite forallb_app. apply andb_true_iff. split; [|done].
    clear -Hdeps H0. induction (dependencies bi) as [|d ds IH]; [done |].
    cbn [forallb map] in *.
    apply andb_true_iff in Hdeps as [Hd%negb_true_iff Hds].
    apply andb_true_iff. split; [|by apply IH].
    apply negb_true_iff, str_contains_join_false; [done | done |].
    cbn [forallb]. by rewrite Hd. }
  pose proof (Hjoin _ H1) as Hsrc. pose proof (Hjoin _ H2) as Hbin.
  pose proof (Hjoin _ H3) as Htest.
  assert (str_contains "-Dtests" (dir_output self +:+ "/localization")
          = false) as Hloc by no_flag.
  unfold arja_e_command_base. cbv zeta. no_flag.
Qed.

(** C9.  [ARJA_E.invoke] appends the flag [ -Dtests <list>], the list
    being the identifiers of the failing tests joined by commas, to the
    repair command exactly when the list of passing tests of the bug is
    empty; otherwise the command is left as it was built, with nothing
    appended.  When none of the texts that the task, the tool and the bug
    put into the command holds [-Dtests], the command holds it exactly
    when the list of passing tests is empty. *)
Theorem tests_flag_iff (self : tool) (bi : bug_info) (timeout_h : string) :
  (passing_test_identifiers bi = [] →
   arja_e_command self bi timeout_h
   = arja_e_command_base self bi timeout_h
     +:+ " -Dtests " +:+ String.concat "," (failing_test_identifiers bi)) ∧
  (passing_test_identifiers bi ≠ [] →
   arja_e_command self bi timeout_h = arja_e_command_base self bi timeout_h) ∧
  (arja_e_command self bi timeout_h
   = arja_e_command_base self bi timeout_h
     +:+ " -Dtests " +:+ String.concat "," (failing_test_identifiers bi)
   ↔ passing_test_identifiers bi = []) ∧
  (passing_test_identifiers bi = [] →
   str_contains
     (" -Dtests " +:+ String.concat "," (failing_test_identifiers bi))
     (arja_e_command self bi timeout_h) = true) ∧
  (forallb (λ x, negb (str_contains "-Dtests" x))
     (command_fields self bi timeout_h) = true →
   (str_contains "-Dtests" (arja_e_command self bi timeout_h) = true
    ↔ passing_test_identifiers bi = [])).
Proof.
  unfold arja_e_command, tests_flag.
  destruct (passing_test_identifiers bi) as [|p ps].
  - split; [done |]. split; [done |]. split; [done |]. split.
    + intros _. apply str_contains_app_r, str_contains_prefix,
        str_prefix_refl.
    + intros _. split; [done |]. intros _.
      apply str_contains_app_r.
      apply (str_contains_app_r _ " " ("-Dtests " +:+ _)).
      by apply str_contains_prefix.
  - split; [done |]. split; [done |]. split.
    + split; [|done]. intros E%str_app_self_nil. discriminate E.
    + split; [done |]. intros Hfields.
      rewrite arja_e_command_base_no_flag by done. done.
Qed.

Lemma tests_flag_iff_witness :
  (arja_e_command ex_arja_e ex_bug_info "1"
   = arja_e_command_base ex_arja_e ex_bug_info "1"
     +:+ " -Dtests org.A::t1,org.B::t2") ∧
  str_contains "-Dtests" (arja_e_command ex_arja_e ex_bug_info "1") = true ∧
  passing_test_identifiers ex_bug_info_passing ≠ [] ∧
  str_contains "-Dtests" (arja_e_command ex_arja_e ex_bug_info_passing "1")
  = false.
Proof.
  destruct (tests_flag_iff ex_arja_e ex_bug_info "1")
    as (Happ & _ & _ & _ & Hiff).
  destruct (tests_flag_iff ex_arja_e ex_bug_info_passing "1")
    as (_ & _ & _ & _ & Hiff').
  split; [apply Happ; reflexivity |].
  split; [apply Hiff; reflexivity |].
  split; [discriminate |].
  apply not_true_is_false. intros E.
  apply Hiff' in E; [discriminate E | vm_compute; reflexivity].
Defined.

(** C9, as stated, fails: with a list of passing tests that is not empty
    the command still holds a [-Dtests] flag when one of the texts
    written into it does, here the Java version of the bug. *)
Lemma tests_flag_from_java_version :
  passing_test_identifiers ex_bug_info_version ≠ [] ∧
  java_version ex_bug_info_version = "8 -Dtests org.X::y" ∧
  str_contains " -DsrcVersion=8 -Dtests org.X::y "
    (arja_e_command ex_arja_e ex_bug_info_version "1") = true ∧
  str_contains " -Dtests "
    (arja_e_command ex_arja_e ex_bug_info_version "1") = true.
Proof.
  split; [discriminate |]. split; [reflexivity |].
  split; vm_compute; reflexivity.
Qed.

(** C10.  In the command of [ARJA_E.invoke] the value of
    [-DmaxGenerations] is the floor of [(2^31 - 1) / 41], which is
    52377649, and the value of [-DpopulationSize] is 40, so the product
    of the two is [40 * floor ((2^31 - 1) / 41)], which is 2095105960 and
    at most [2^31 - 1]: it fits a signed 32-bit integer. *)
Theorem max_generations_no_overflow :
  max_generations = (2 ^ 31 - 1) / 41 ∧
  max_generations = 52377649 ∧
  arja_default_population_size = 40 ∧
  arja_default_population_size * max_generations = 40 * ((2 ^ 31 - 1) / 41) ∧
  arja_default_population_size * max_generations = 2095105960 ∧
  - 2 ^ 31 ≤ arja_default_population_size * max_generations ≤ 2 ^ 31 - 1 ∧
  ∀ (self : tool) (bi : bug_info) (timeout_h : string),
    str_contains "-DmaxGenerations 52377649 "
      (arja_e_command self bi timeout_h) = true ∧
    str_contains "-DpopulationSize 40 "
      (arja_e_command self bi timeout_h) = true.
Proof.
  split; [done |]. split; [done |]. split; [done |]. split; [done |].
  split; [done |]. split; [by vm_compute |].
  intros self bi timeout_h. unfold arja_e_command.
  assert (str_contains "-DmaxGenerations 52377649 "
            (arja_e_command_base self bi timeout_h) = true ∧
          str_contains "-DpopulationSize 40 "
            (arja_e_command_base self bi timeout_h) = true) as [Hg Hp].
  { unfold arja_e_command_base. cbv zeta. split; find_flag. }
  destruct (passing_test_identifiers bi); [|done].
  split; by apply str_contains_app_l.
Qed.

(* ===================================================================== *)
(** ** More on the layout resolver                                       *)
(* ===================================================================== *)

Lemma fs_le_isfile (fs fs' : filesys) (p : string) :
  fs_le fs fs' → path_isfile fs p = true → path_isfile fs' p = true.
Proof.
  intros Hle. unfold path_isfile, node_at.
  destruct (resolve fs p) as [np|] eqn:E; [|done].
  rewrite (fs_le_resolve _ _ _ _ Hle E).
  destruct Hle as [Hle _]. specialize (Hle np).
  destruct (lookup_node np (fs_tree fs)) as [[l|m]|]; [|done|done].
  by rewrite Hle.
Qed.

(** [makedirs] fails on a path that names a regular file. *)
Lemma makedirs_walk_isfile (cs cur r : list string) (t : node) :
  is_dir_node (lookup_node (rev cur) t) = true →
  walk t cur cs = Some r →
  is_file_node (lookup_node (rev r) t) = true →
  makedirs_walk cs cur t = None.
Proof.
  revert cur. induction cs as [|c cs IH]; intros cur Hdir Hw Hfile.
  - simpl in Hw. injection Hw as <-.
    by destruct (lookup_node (rev cur) t) as [[|]|].
  - simpl in *. rewrite Hdir in *.
    destruct (classify c) as [| |d].
    + by apply IH.
    + apply IH; [by apply is_dir_node_tail | done | done].
    + destruct (lookup_node (rev cur ++ [d]) t) as [[l|m]|] eqn:E; [done | |].
      * apply IH; [simpl; by rewrite E | done | done].
      * destruct cs as [|c' cs]; simpl in Hw.
        -- injection Hw as <-. simpl in Hfile. by rewrite E in Hfile.
        -- by rewrite E in Hw.
Qed.

Lemma makedirs_isfile (fs : filesys) (p : string) :
  path_isfile fs p = true → makedirs fs p = None.
Proof.
  unfold path_isfile, node_at, resolve, makedirs.
  destruct (truthy p); [|done].
  destruct (walk _ _ _) as [r|] eqn:E; [|done]. simpl. intros Hfile.
  rewrite (makedirs_walk_isfile _ _ r); [done | | done | done].
  destruct (split_sep_cons p) as (w & ws & Es). rewrite Es in E.
  simpl in E. by destruct (is_dir_node _).
Qed.

Lemma isfile_not_isdir (fs : filesys) (p : string) :
  path_isfile fs p = true → path_isdir fs p = false.
Proof.
  unfold path_isfile, path_isdir. by destruct (node_at fs p) as [[|]|].
Qed.

Lemma split_sep_app_slash (p : string) :
  split_sep (p +:+ "/") = split_sep p ++ [""].
Proof.
  induction p as [|c p IH]; [done |].
  change (String c p +:+ "/") with (String c (p +:+ "/")).
  cbn [split_sep]. rewrite IH. case_bool_decide; [done |].
  destruct (split_sep_cons p) as (w & ws & ->). done.
Qed.

Lemma walk_app (t : node) (cur cs ds : list string) :
  walk t cur (cs ++ ds)
  = match walk t cur cs with
    | Some r => walk t r ds
    | None => None
    end.
Proof.
  revert cur. induction cs as [|c cs IH]; intros cur; [done |].
  simpl. destruct (is_dir_node _); [|done].
  destruct (classify c); apply IH.
Qed.

Lemma makedirs_walk_none_app (cs ds cur : list string) (t : node) :
  makedirs_walk cs cur t = None → makedirs_walk (cs ++ ds) cur t = None.
Proof.
  revert cur t. induction cs as [|c cs IH]; intros cur t; [done |].
  simpl. destruct (is_dir_node _); [|done].
  destruct (classify c) as [| |d]; [apply IH.. |].
  destruct (lookup_node (rev cur ++ [d]) t) as [[l|m]|]; [done | apply IH |].
  destruct (alter_dir _ _ t) as [t'|]; [apply IH | done].
Qed.

(** A regular file named with a slash after it is not a directory, and
    [makedirs] fails on it as it does on the name alone. *)
Lemma isfile_slash (fs : filesys) (p : string) :
  path_isfile fs p = true →
  path_isdir fs (p +:+ "/") = false ∧ makedirs fs (p +:+ "/") = None.
Proof.
  intros Hfile. pose proof (makedirs_isfile _ _ Hfile) as Hmk.
  unfold path_isfile, path_isdir, node_at, resolve, makedirs,
    start_cursor in *.
  destruct (truthy p) eqn:Hp; [|done].
  rewrite truthy_app_l, starts_with_sep_app, split_sep_app_slash by done.
  split.
  - rewrite walk_app.
    destruct (walk _ _ (split_sep p)) as [r|]; [|done]. simpl in *.
    by destruct (lookup_node (rev r) (fs_tree fs)) as [[l|m]|].
  - destruct (makedirs_walk (split_sep p) _ _) eqn:E; [done |].
    by rewrite makedirs_walk_none_app.
Qed.

Lemma ensure_dirs_file_in_the_way (ds : list string) (d : string)
    (fs : filesys) :
  d ∈ ds →
  path_isfile fs d = true ∨ (∃ p, d = p +:+ "/" ∧ path_isfile fs p = true) →
  ensure_dirs ds fs = None.
Proof.
  revert fs. induction ds as [|d0 ds IH]; intros fs Hin Hfile.
  - by apply elem_of_nil in Hin.
  - simpl. apply elem_of_cons in Hin as [<- | Hin].
    + destruct Hfile as [Hfile | (p & -> & Hfile)].
      * by rewrite isfile_not_isdir, makedirs_isfile.
      * destruct (isfile_slash _ _ Hfile) as [-> ->]. done.
    + destruct (path_isdir fs d0); [by apply IH |].
      destruct (makedirs fs d0) as [fs1|] eqn:Em; [|done].
      apply IH; [done |].
      destruct Hfile as [Hfile | (p & -> & Hfile)]; [left | right; exists p];
        (split || idtac); try done;
        (eapply fs_le_isfile; [by eapply makedirs_le | done]).
Qed.

(** X5.  A regular file where one of the nine directories has to be is
    fatal: the local resolver raises, it does not return a layout.  The
    file is found under the path of the directory as the resolver writes
    it, or, for the experiment and the setup directory, whose paths end
    in a slash, under that path without the slash. *)
Theorem resolver_file_collision (v : values) (b s bug tag : string)
    (fs : filesys) (d : string) :
  d ∈ local_dirs_created v b s bug (dir_setup_local v b s bug tag fs) →
  path_isfile fs d = true ∨ (∃ p, d = p +:+ "/" ∧ path_isfile fs p = true) →
  generate_local_dir_info v b s bug tag fs = None.
Proof.
  intros Hin Hfile. unfold generate_local_dir_info. cbv zeta.
  by rewrite (ensure_dirs_file_in_the_way _ d).
Qed.

Lemma resolver_file_collision_witness :
  generate_local_dir_info ex_values "defects4j" "Lang" "1" ""
    (mk_filesys
       (Dir {[ "cerberus" :=
                 Dir {[ "benchmark" :=
                          Dir {[ "defects4j" :=
                                   Dir {[ "Lang" :=
                                            Dir {[ "base" := File [] ]} ]} ]}
                 ]} ]}) [])
  = None ∧
  path_isfile ex_disk_file_in_the_way "/cerberus/experiments/defects4j/Lang/1"
  = true ∧
  generate_local_dir_info ex_values "defects4j" "Lang" "1" ""
    ex_disk_file_in_the_way = None.
Proof.
  split; [|split; [vm_compute; reflexivity |]].
  - apply (resolver_file_collision _ _ _ _ _ _
             "/cerberus/benchmark/defects4j/Lang/base").
    + do 3 apply list_elem_of_further.
      replace "/cerberus/benchmark/defects4j/Lang/base"
        with (join (dir_benchmark ex_values) ["defects4j"; "Lang"; "base"])
        by (vm_compute; reflexivity).
      apply list_elem_of_here.
    + left. vm_compute; reflexivity.
  - apply (resolver_file_collision _ _ _ _ _ _
             "/cerberus/experiments/defects4j/Lang/1/").
    + replace "/cerberus/experiments/defects4j/Lang/1/"
        with (join (dir_experiments ex_values)
                [join "defects4j" ["Lang"; "1"; ""]])
        by (vm_compute; reflexivity).
      apply list_elem_of_here.
    + right. exists "/cerberus/experiments/defects4j/Lang/1".
      split; vm_compute; reflexivity.
Defined.

Lemma generate_local_dir_info_le (v : values) (b s bug tag : string)
    (fs : filesys) (info : gmap string string) (fs' : filesys) :
  generate_local_dir_info v b s bug tag fs = Some (info, fs') → fs_le fs fs'.
Proof.
  intros [Hdirs _]%generate_local_dir_info_inv.
  by apply ensure_dirs_spec in Hdirs as [? _].
Qed.

(** X4.  The resolvers only ever add directories: after a successful call
    of the local or of the tool-scoped resolver every path that existed
    still exists, directories are still directories and every file has
    the lines it had. *)
Theorem resolver_keeps_disk (v : values) (b s bug : string)
    (h : hash_object) (task tag : string) (fs : filesys)
    (info : gmap string string) (fs' : filesys) :
  generate_local_dir_info v b s bug tag fs = Some (info, fs')
  ∨ generate_local_tool_dir_info v b s bug h task tag fs = Some (info, fs') →
  (∀ p, path_exists fs p = true → path_exists fs' p = true) ∧
  (∀ p, path_isdir fs p = true → path_isdir fs' p = true) ∧
  (∀ p l, read_file fs p = Some l → read_file fs' p = Some l).
Proof.
  intros Hgen. assert (fs_le fs fs') as Hle.
  { destruct Hgen as [Hgen | Hgen].
    - by eapply generate_local_dir_info_le.
    - apply generate_local_tool_dir_info_inv in Hgen
        as (base & fs1 & Hbase & Hmk & _).
      eapply fs_le_trans; [by eapply generate_local_dir_info_le |].
      by apply makedirs_all_spec in Hmk as [? _]. }
  split; [|split].
  - intros p. by apply fs_le_exists.
  - intros p. by apply fs_le_isdir.
  - intros p l. by apply fs_le_read_file.
Qed.

Lemma resolver_keeps_disk_witness :
  ∃ info fs',
    generate_local_tool_dir_info ex_values "defects4j" "Lang" "1" ex_hash
      "arja-e" "" ex_disk_rerun = Some (info, fs') ∧
    read_file fs' "/cerberus/results/arja-e-a1b2c3d4/old.json" = Some ["{}"].
Proof.
  destruct (succeeds_Some
              (generate_local_tool_dir_info ex_values "defects4j" "Lang" "1"
                 ex_hash "arja-e" "" ex_disk_rerun)) as [[info fs'] E];
    [vm_compute; reflexivity |].
  exists info, fs'. split; [exact E |].
  destruct (resolver_keeps_disk ex_values "defects4j" "Lang" "1" ex_hash
              "arja-e" "" ex_disk_rerun info fs' (or_intror E))
    as (_ & _ & Hread).
  apply Hread. vm_compute; reflexivity.
Defined.

(** X6.  The roles of the three namespaces: the local one has exactly
    eleven, the tool-scoped one these and [results], the container one
    six; asking either for any other role finds nothing. *)
Theorem layout_roles (v : values) (b s bug : string) :
  (∀ tag fs info fs',
     generate_local_dir_info v b s bug tag fs = Some (info, fs') →
     dom info = list_to_set
                  [ "logs"; "artifacts"; "experiment"; "setup"; "base";
                    "aux"; "patches"; "localization"; "selection";
                    "validation"; "bugs" ]) ∧
  (∀ h task tag fs info fs',
     generate_local_tool_dir_info v b s bug h task tag fs = Some (info, fs') →
     dom info = list_to_set
                  [ "results"; "logs"; "artifacts"; "experiment"; "setup";
                    "base"; "aux"; "patches"; "localization"; "selection";
                    "validation"; "bugs" ]) ∧
  dom (generate_container_dir_info v b s bug)
  = list_to_set [ "logs"; "artifacts"; "experiment"; "setup"; "base"; "aux" ].
Proof.
  assert (∀ tag fs info fs',
            generate_local_dir_info v b s bug tag fs = Some (info, fs') →
            dom info = list_to_set
                         [ "logs"; "artifacts"; "experiment"; "setup"; "base";
                           "aux"; "patches"; "localization"; "selection";
                           "validation"; "bugs" ]) as Hlocal.
  { intros tag fs info fs' [_ ->]%generate_local_dir_info_inv.
    rewrite !dom_insert_L, dom_singleton_L.
    rewrite <- (union_empty_r_L ({["bugs"]} : gset string)). reflexivity. }
  split; [exact Hlocal |]. split.
  - intros h task tag fs info fs'
      (base & fs1 & Hbase & _ & ->)%generate_local_tool_dir_info_inv.
    pose proof (Hlocal _ _ _ _ Hbase) as Hdom.
    pose proof Hbase as [_ Eb]%generate_local_dir_info_inv.
    rewrite !dom_insert_L.
    rewrite (subseteq_union_1_L {["logs"]} (dom base)).
    2: { apply singleton_subseteq_l, elem_of_dom. by rewrite Eb. }
    rewrite (subseteq_union_1_L {["artifacts"]} (dom base)).
    2: { apply singleton_subseteq_l, elem_of_dom. by rewrite Eb. }
    rewrite Hdom. reflexivity.
  - unfold generate_container_dir_info. cbv zeta.
    rewrite !dom_insert_L, dom_singleton_L.
    rewrite <- (union_empty_r_L ({["aux"]} : gset string)). reflexivity.
Qed.

Lemma layout_roles_witness :
  ∃ info fs',
    generate_local_dir_info ex_values "defects4j" "Lang" "1" ""
      ex_disk_empty = Some (info, fs') ∧
    info !! "results" = None.
Proof.
  destruct (succeeds_Some
              (generate_local_dir_info ex_values "defects4j" "Lang" "1" ""
                 ex_disk_empty)) as [[info fs'] E];
    [vm_compute; reflexivity |].
  exists info, fs'. split; [exact E |].
  destruct (layout_roles ex_values "defects4j" "Lang" "1") as (Hlocal & _).
  apply not_elem_of_dom. rewrite (Hlocal _ _ _ _ E).
  vm_compute. intros H. inversion H.
Defined.

(** X7.  The tool-scoped extension is idempotent by hash: after a
    successful call, a second call with the same arguments succeeds,
    returns the same mapping and changes nothing on the disk, provided
    the first call did not itself bring the shadow directory of the tag
    into existence. *)
Theorem tool_layout_idempotent (v : values) (b s bug : string)
    (h : hash_object) (task tag : string) (fs : filesys)
    (info : gmap string string) (fs' : filesys) :
  generate_local_tool_dir_info v b s bug h task tag fs = Some (info, fs') →
  (truthy tag = true →
   path_exists fs' (dir_setup_extended v b s bug tag)
   = path_exists fs (dir_setup_extended v b s bug tag)) →
  generate_local_tool_dir_info v b s bug h task tag fs' = Some (info, fs').
Proof.
  intros Hgen Hshadow.
  pose proof Hgen
    as (base & fs1 & Hbase & Hmk & ->)%generate_local_tool_dir_info_inv.
  pose proof Hbase as [Hdirs Eb]%generate_local_dir_info_inv.
  pose proof (ensure_dirs_spec _ _ _ Hdirs) as [Hle1 Hall1].
  pose proof (makedirs_all_spec _ _ _ Hmk) as [Hle2 Hall2].
  assert (dir_setup_local v b s bug tag fs'
          = dir_setup_local v b s bug tag fs) as Hsetup.
  { unfold dir_setup_local. destruct (truthy tag); [|done].
    by rewrite Hshadow. }
  assert (generate_local_dir_info v b s bug tag fs' = Some (base, fs'))
    as Hbase'.
  { unfold generate_local_dir_info in *. cbv zeta in *.
    rewrite Hsetup, ensure_dirs_id.
    - rewrite Hdirs in Hbase. congruence.
    - eapply Forall_impl; [exact Hall1 |]. intros d. by apply fs_le_isdir. }
  unfold generate_local_tool_dir_info. cbv zeta. rewrite Hbase'.
  repeat (apply Forall_cons in Hall2 as [? Hall2]).
  cbn [makedirs_all]. by rewrite !makedirs_id.
Qed.

Lemma tool_layout_idempotent_witness :
  ∃ info fs',
    generate_local_tool_dir_info ex_values "defects4j" "Lang" "1" ex_hash
      "arja-e" "v2" ex_disk_empty = Some (info, fs') ∧
    generate_local_tool_dir_info ex_values "defects4j" "Lang" "1" ex_hash
      "arja-e" "v2" fs' = Some (info, fs').
Proof.
  destruct (succeeds_Some
              (generate_local_tool_dir_info ex_values "defects4j" "Lang" "1"
                 ex_hash "arja-e" "v2" ex_disk_empty)) as [[info fs'] E];
    [vm_compute; reflexivity |].
  exists info, fs'. split; [exact E |].
  apply (tool_layout_idempotent _ _ _ _ _ _ _ _ _ _ E). intros _.
  assert (match generate_local_tool_dir_info ex_values "defects4j" "Lang"
                  "1" ex_hash "arja-e" "v2" ex_disk_empty with
          | Some (_, fs1) =>
              path_exists fs1
                (dir_setup_extended ex_values "defects4j" "Lang" "1" "v2")
          | None => true
          end = false) as Hobs by (vm_compute; reflexivity).
  rewrite E in Hobs. rewrite Hobs. vm_compute; reflexivity.
Defined.

Lemma lower_char_idemp (c : ascii) : lower_char (lower_char c) = lower_char c.
Proof.
  unfold lower_char.
  destruct ((65 <=? nat_of_ascii c) && (nat_of_ascii c <=? 90))%nat eqn:E;
    [|by rewrite E].
  apply andb_true_iff in E as [H1%Nat.leb_le H2%Nat.leb_le].
  rewrite nat_ascii_embedding by lia.
  replace ((65 <=? nat_of_ascii c + 32) && (nat_of_ascii c + 32 <=? 90))%nat
    with false; [done |].
  symmetry. apply andb_false_iff. right. apply Nat.leb_gt. lia.
Qed.

Lemma lower_idemp (s : string) : lower (lower s) = lower s.
Proof.
  induction s as [|c s IH]; [done |]. simpl.
  by rewrite lower_char_idemp, IH.
Qed.

(** X1.  After [generate_dir_info] or [generate_tool_dir_info],
    [update_dir_info] does not raise: both namespaces have their [setup]
    role.  It adds the role [instrumentation], in the local namespace
    under the setup root that the tag override chose and in the container
    namespace under the container setup root, named after the tool in
    small letters, and leaves every other role as it is. *)
Theorem update_dir_info_after_generate (v : values) (b s bug : string)
    (h : hash_object) (task tag : string) (fs : filesys)
    (di : DirectoryInfo) (fs' : filesys) (tool_name : string) :
  ascii_only tool_name = true →
  generate_dir_info v b s bug tag fs = Some (di, fs')
  ∨ generate_tool_dir_info v b s bug h task tag fs = Some (di, fs') →
  ∃ di',
    update_dir_info di tool_name = Some di' ∧
    local di' !! "instrumentation"
    = Some (join (dir_setup_local v b s bug tag fs) [lower tool_name]) ∧
    container di' !! "instrumentation"
    = Some (join (join "/setup" [join b [s; bug; ""]]) [lower tool_name]) ∧
    ∀ role, role ≠ "instrumentation" →
      local di' !! role = local di !! role ∧
      container di' !! role = container di !! role.
Proof.
  intros _ Hgen.
  assert (local di !! "setup" = Some (dir_setup_local v b s bug tag fs) ∧
          container di = generate_container_dir_info v b s bug)
    as [Hl Hc].
  { destruct Hgen as [Hgen | Hgen].
    - unfold generate_dir_info in Hgen.
      destruct (generate_local_dir_info v b s bug tag fs)
        as [[l fs1]|] eqn:E; [|done].
      injection Hgen as <- <-.
      apply generate_local_dir_info_inv in E as [_ ->]. done.
    - unfold generate_tool_dir_info in Hgen.
      destruct (generate_local_tool_dir_info v b s bug h task tag fs)
        as [[l fs1]|] eqn:E; [|done].
      injection Hgen as <- <-.
      apply generate_local_tool_dir_info_inv in E
        as (base & fs0 & [_ ->]%generate_local_dir_info_inv & _ & ->).
      done. }
  unfold update_dir_info. rewrite Hl, Hc.
  change (generate_container_dir_info v b s bug !! "setup")
    with (Some (join "/setup" [join b [s; bug; ""]])).
  cbv zeta. eexists. split; [reflexivity |]. cbn [local container].
  split; [by rewrite lookup_insert_eq |].
  split; [by rewrite lookup_insert_eq |].
  intros role Hrole. by rewrite !lookup_insert_ne.
Qed.

Lemma update_dir_info_after_generate_witness :
  ∃ di fs' di',
    generate_dir_info ex_values "defects4j" "Lang" "1" "v2" ex_disk_shadow
    = Some (di, fs') ∧
    update_dir_info di "ARJA_E" = Some di' ∧
    local di' !! "instrumentation"
    = Some "/cerberus/benchmark/defects4j/Lang/1-v2/arja_e" ∧
    container di' !! "instrumentation"
    = Some "/setup/defects4j/Lang/1/arja_e".
Proof.
  destruct (succeeds_Some
              (generate_dir_info ex_values "defects4j" "Lang" "1" "v2"
                 ex_disk_shadow)) as [[di fs'] E];
    [vm_compute; reflexivity |].
  destruct (update_dir_info_after_generate ex_values "defects4j" "Lang" "1"
              ex_hash "" "v2" ex_disk_shadow di fs' "ARJA_E")
    as (di' & Hup & Hl & Hc & _);
    [vm_compute; reflexivity | by left |].
  exists di, fs', di'. split; [exact E |]. split; [exact Hup |].
  rewrite Hl, Hc. split; vm_compute; reflexivity.
Defined.

(** X2.  [update_dir_info] raises ([KeyError]) exactly when one of the
    two namespaces has no [setup] role. *)
Theorem update_dir_info_error (di : DirectoryInfo) (tool_name : string) :
  update_dir_info di tool_name = None ↔
  local di !! "setup" = None ∨ container di !! "setup" = None.
Proof.
  unfold update_dir_info.
  destruct (local di !! "setup"), (container di !! "setup");
    split; try done; try (intros [?|?]; done); auto.
Qed.

Lemma update_dir_info_error_witness :
  update_dir_info (mk_DirectoryInfo ex_dir_info ex_dir_info_no_patches)
    "arja_e" = None.
Proof.
  apply update_dir_info_error. left. vm_compute; reflexivity.
Defined.

(** X3.  [update_dir_info] overwrites, it does not accumulate: a second
    call on its result with a tool name that is the same up to the case
    of its letters returns that result unchanged. *)
Theorem update_dir_info_idempotent (di di' : DirectoryInfo)
    (tool_name tool_name' : string) :
  ascii_only tool_name = true → ascii_only tool_name' = true →
  lower tool_name' = lower tool_name →
  update_dir_info di tool_name = Some di' →
  update_dir_info di' tool_name' = Some di'.
Proof.
  intros _ _ Hlow. unfold update_dir_info.
  destruct (local di !! "setup") as [ls|] eqn:El; [|done].
  destruct (container di !! "setup") as [cs|] eqn:Ec; [|done].
  intros [= <-]. cbn [local container].
  rewrite !lookup_insert_ne, El, Ec by done.
  by rewrite Hlow, !insert_insert_eq.
Qed.

Lemma update_dir_info_idempotent_witness :
  ∃ di',
    update_dir_info
      (mk_DirectoryInfo ex_dir_info_no_patches ex_dir_info_no_patches)
      "ARJA_E" = Some di' ∧
    update_dir_info di' "arja_e" = Some di'.
Proof.
  destruct (succeeds_Some
              (update_dir_info
                 (mk_DirectoryInfo ex_dir_info_no_patches
                    ex_dir_info_no_patches) "ARJA_E")) as [di' E];
    [vm_compute; reflexivity |].
  exists di'. split; [exact E |].
  apply (update_dir_info_idempotent
           (mk_DirectoryInfo ex_dir_info_no_patches ex_dir_info_no_patches)
           di' "ARJA_E" "arja_e");
    [vm_compute; reflexivity.. | exact E].
Defined.

(* ===================================================================== *)
(** ** More on [AbstractRepairTool]                                      *)
(* ===================================================================== *)

(** X8.  Without a [patches] role in the layout, or with one that is not
    an existing directory, [save_artifacts] skips the archive of the
    patches: nothing is removed, nothing is copied, and the parent method
    runs on the world as it was. *)
Theorem save_artifacts_skips `{Collaborators} (self : tool)
    (dir_info : gmap string string) (w : world) :
  (∀ p, dir_info !! "patches" = Some p → path_isdir (host w) p = false) →
  save_patches self dir_info w = Some w ∧
  save_artifacts self dir_info w = parent_save_artifacts self dir_info w.
Proof.
  intros Hrole.
  assert (save_patches self dir_info w = Some w) as E.
  { unfold save_patches. cbv zeta.
    destruct (dir_info !! "patches") as [p|] eqn:Ep.
    - change (default "" (Some p)) with p. by rewrite (Hrole p).
    - reflexivity. }
  split; [exact E |]. unfold save_artifacts. by rewrite E.
Qed.

Lemma save_artifacts_skips_witness :
  save_patches (H := ex_collaborators) ex_arja_e ex_dir_info_no_patches
    ex_world = Some ex_world ∧
  save_artifacts (H := ex_collaborators) ex_arja_e ex_dir_info_no_patches
    ex_world
  = parent_save_artifacts (Collaborators := ex_collaborators) ex_arja_e
      ex_dir_info_no_patches ex_world.
Proof.
  apply (save_artifacts_skips (H := ex_collaborators)).
  intros p Hp. vm_compute in Hp. discriminate Hp.
Defined.

(** Copying to a normalised path that is not a directory, from a source
    that does not lie above it, changes nothing apart from that path. *)
Lemma copy_node_to_frame `{Collaborators} (sn : node) (src : string)
    (cs : list string) (c : string) (within : option (list string))
    (fs fs' : filesys) (q : list string) :
  Forall (λ c, plain_name c = true) (cs ++ [c]) →
  is_dir_node (lookup_node cs (fs_tree fs)) = true →
  is_dir_node (lookup_node (cs ++ [c]) (fs_tree fs)) = false →
  match within with
  | Some ns => is_prefix ns (cs ++ [c])
  | None => false
  end = false →
  copy_node_to sn src (abs_path (cs ++ [c])) within fs = Some fs' →
  apart (cs ++ [c]) q = true →
  lookup_node q (fs_tree fs') = lookup_node q (fs_tree fs).
Proof.
  intros Hall Hdir Hnodir Hwithin Hcopy Hq. unfold copy_node_to in Hcopy.
  rewrite node_at_abs_path in Hcopy by (done || by destruct cs).
  assert (truthy c = true) as Hc.
  { apply plain_name_truthy. rewrite Forall_app in Hall.
    destruct Hall as [_ Hc]. by apply Forall_inv in Hc. }
  pose proof (walk_abs_path fs cs c Hall Hdir) as Hw.
  assert (∀ t', alter_dir (insert c sn) cs (fs_tree fs) = Some t' →
                lookup_node q t' = lookup_node q (fs_tree fs)) as Hframe.
  { intros t' Ea. eapply alter_dir_entry_other; [|exact Ea | exact Hq].
    intros m0 c0 Hne. by apply lookup_insert_ne. }
  destruct (lookup_node (cs ++ [c]) (fs_tree fs)) as [[l|m]|] eqn:Ed;
    [| done |].
  - destruct sn as [ls|ms]; [|done]. rewrite Hw in Hcopy.
    rewrite rev_involutive in Hcopy.
    destruct (alter_dir _ cs (fs_tree fs)) as [t'|] eqn:Ea; [|done].
    injection Hcopy as <-. by apply Hframe.
  - rewrite abs_path_truthy in Hcopy by (by destruct cs).
    rewrite split_sep_abs_path_ne in * by (done || by destruct cs).
    rewrite app_comm_cons, strip_trailing_empty_last in Hcopy by done.
    rewrite <- app_comm_cons, Hw in Hcopy. simpl in Hcopy.
    rewrite rev_involutive, Ed, Hwithin in Hcopy.
    destruct (alter_dir _ cs (fs_tree fs)) as [t'|] eqn:Ea; [|done].
    injection Hcopy as <-. by apply Hframe.
Qed.

(** X11.  The archive of the patches touches the destination
    [patches/{tool_name}] and nothing else on the host: at every
    normalised path that lies neither at or below the destination nor
    above it, what is there after the call is what was there before.

    The tool runs in a container, or it has no patch directory, or its
    patch directory is a normalised path that does not lie above the
    destination, and this path and the destination are words of the
    shell, so that the command line is [cp] with these two operands. *)
Theorem save_patches_frame `{Collaborators} (self : tool)
    (dir_info : gmap string string) (w w' : world) (cb q : list string) :
  dir_info !! "patches" = Some (abs_path cb) →
  cb ≠ [] →
  forallb plain_name cb = true →
  plain_name (name self) = true →
  (∃ cid, container_id self = Some cid ∧ truthy cid = true)
  ∨ dir_patch self = ""
  ∨ (∃ cs,
       dir_patch self = abs_path cs ∧ forallb plain_name cs = true ∧
       is_prefix cs (cb ++ [name self]) = false ∧
       shell_word (dir_patch self) = true ∧
       shell_word (join (abs_path cb) [name self]) = true) →
  save_patches self dir_info w = Some w' →
  apart (cb ++ [name self]) q = true →
  lookup_node q (fs_tree (host w')) = lookup_node q (fs_tree (host w)).
Proof.
  intros Hrole Hne Hcb%forallb_plain Hname Hmode Hsave Hq.
  pose proof (dst_plain self cb Hcb Hname) as Hdst.
  unfold save_patches in Hsave. rewrite Hrole in Hsave. cbv zeta in Hsave.
  change (default "" (Some (abs_path cb))) with (abs_path cb) in Hsave.
  rewrite (dst_path self cb Hcb Hne Hname) in *.
  unfold path_isdir in Hsave.
  rewrite !node_at_abs_path in Hsave by (done || by destruct cb).
  destruct (is_dir_node (lookup_node cb (fs_tree (host w)))) eqn:Hbase;
    [|by injection Hsave as <-].
  (* the removal *)
  assert (∃ w1,
            (if is_dir_node (lookup_node (cb ++ [name self])
                               (fs_tree (host w)))
             then match rmtree (host w) (abs_path (cb ++ [name self])) with
                  | Some h' => Some (mk_world h' (guests w))
                  | None => None
                  end
             else Some w) = Some w1 ∧
            is_dir_node (lookup_node cb (fs_tree (host w1))) = true ∧
            is_dir_node (lookup_node (cb ++ [name self])
                           (fs_tree (host w1))) = false ∧
            lookup_node q (fs_tree (host w1))
            = lookup_node q (fs_tree (host w))) as (w1 & E1 & Hb1 & Hd1 & Hq1).
  { destruct (is_dir_node (lookup_node (cb ++ [name self])
                             (fs_tree (host w)))) eqn:Ed; [|by exists w].
    destruct (rmtree_abs_path (host w) cb (name self) Hdst Ed)
      as (t1 & Ea & Erm).
    rewrite Erm in Hsave. rewrite Erm. eexists. split; [reflexivity |].
    cbn [host fs_tree].
    destruct (alter_dir_lookup _ _ _ _ Ea) as (m0 & _ & E0).
    destruct (alter_dir_lookup_below _ _ [] (name self) _ _ Ea)
      as (m1 & _ & Em1).
    split; [by rewrite E0 |]. split; [by rewrite Em1, lookup_delete_eq |].
    eapply alter_dir_entry_other; [|exact Ea | exact Hq].
    intros m2 c0 Hc0. by apply lookup_delete_ne. }
  rewrite E1 in Hsave. rewrite <- Hq1.
  (* the copy *)
  destruct (active_container self) as [cid|] eqn:Ec.
  - unfold copy_file_from_container in Hsave.
    destruct (guests w1 !! cid) as [cfs|]; [|done].
    destruct (node_at cfs (dir_patch self)) as [sn|]; [|done].
    destruct (copy_node_to sn _ _ None (host w1)) as [h'|] eqn:Ecp; [|done].
    injection Hsave as <-. cbn [host].
    by eapply (copy_node_to_frame sn _ cb (name self) None);
      [.. | exact Ecp |].
  - destruct (truthy (dir_patch self)) eqn:Etruthy;
      [|by injection Hsave as <-].
    injection Hsave as <-. cbn [host].
    destruct Hmode as [(cid & Hcid & Hcid_truthy)
                      | [Hempty | (cs & Hp & Hcs & Habove & Hw1 & Hw2)]].
    { unfold active_container in Ec. by rewrite Hcid, Hcid_truthy in Ec. }
    { by rewrite Hempty in Etruthy. }
    apply forallb_plain in Hcs.
    unfold execute_cp_rf. rewrite Hw1, Hw2. cbn [andb].
    unfold cp_rf. rewrite Hp.
    destruct (node_at (host w1) (abs_path cs)) as [sn|] eqn:Esn; [|done].
    assert (cs ≠ []) as Hcs_ne.
    { intros ->. by rewrite Hp in Etruthy. }
    rewrite node_at_abs_path in Esn by done.
    rewrite resolve_abs_path by (done || by rewrite Esn).
    destruct (copy_node_to sn _ _ _ (host w1)) as [h'|] eqn:Ecp; [|done].
    by eapply (copy_node_to_frame sn _ cb (name self) (Some cs));
      [.. | exact Ecp |].
Qed.

Lemma save_patches_frame_witness :
  (∃ w',
     save_patches (H := ex_collaborators) ex_arja_e ex_dir_info ex_world
     = Some w' ∧
     lookup_node ["output"; "patches"; "Patch_1.txt"] (fs_tree (host w'))
     = Some (File ["-a"; "+b"])) ∧
  (∃ w',
     save_patches (H := ex_collaborators) ex_arja_e_container ex_dir_info
       ex_world_container = Some w' ∧
     lookup_node ["output"; "patches"; "Patch_1.txt"] (fs_tree (host w'))
     = Some (File ["-a"; "+b"])).
Proof.
  split.
  - destruct (succeeds_Some
                (save_patches (H := ex_collaborators) ex_arja_e ex_dir_info
                   ex_world)) as [w' E]; [vm_compute; reflexivity |].
    exists w'. split; [exact E |].
    rewrite (save_patches_frame (H := ex_collaborators) ex_arja_e ex_dir_info
               ex_world w' ["setup"; "patches"]
               ["output"; "patches"; "Patch_1.txt"]);
      try (vm_compute; reflexivity).
    + discriminate.
    + right. right. exists ["output"; "patches"].
      repeat (split; [vm_compute; reflexivity |]). vm_compute; reflexivity.
    + exact E.
  - destruct (succeeds_Some
                (save_patches (H := ex_collaborators) ex_arja_e_container
                   ex_dir_info ex_world_container)) as [w' E];
      [vm_compute; reflexivity |].
    exists w'. split; [exact E |].
    rewrite (save_patches_frame (H := ex_collaborators) ex_arja_e_container
               ex_dir_info ex_world_container w' ["setup"; "patches"]
               ["output"; "patches"; "Patch_1.txt"]);
      try (vm_compute; reflexivity).
    + discriminate.
    + left. exists "c1". split; reflexivity.
    + exact E.
Defined.

(** X10.  A run on the host that has no patch directory configured
    ([dir_patch] is empty) still removes what an earlier run archived:
    after [save_patches] the destination does not exist. *)
Theorem save_patches_without_source `{Collaborators} (self : tool)
    (dir_info : gmap string string) (w : world) (cb : list string) :
  dir_info !! "patches" = Some (abs_path cb) →
  cb ≠ [] →
  forallb plain_name cb = true →
  plain_name (name self) = true →
  path_isdir (host w) (join (abs_path cb) [name self]) = true →
  active_container self = None →
  dir_patch self = "" →
  ∃ w', save_patches self dir_info w = Some w' ∧
        path_exists (host w') (join (abs_path cb) [name self]) = false.
Proof.
  intros Hrole Hne Hcb%forallb_plain Hname Hdir Hcid Hpatch.
  pose proof (dst_plain self cb Hcb Hname) as Hdst.
  rewrite (dst_path self cb Hcb Hne Hname) in *.
  unfold path_isdir, path_exists in *.
  rewrite node_at_abs_path in Hdir by (done || by destruct cb).
  destruct (rmtree_abs_path (host w) cb (name self) Hdst Hdir)
    as (t1 & Ea & Erm).
  exists (mk_world (mk_filesys t1 (fs_cwd (host w))) (guests w)).
  split.
  - unfold save_patches. rewrite Hrole. cbv zeta.
    change (default "" (Some (abs_path cb))) with (abs_path cb).
    rewrite (dst_path self cb Hcb Hne Hname). unfold path_isdir.
    rewrite !node_at_abs_path by (done || by destruct cb).
    rewrite (is_dir_node_prefix cb [name self])
      by (done || by apply is_dir_is_some).
    by rewrite Hdir, Erm, Hcid, Hpatch.
  - rewrite node_at_abs_path by (done || by destruct cb). cbn [host fs_tree].
    destruct (alter_dir_lookup_below _ _ [] (name self) _ _ Ea)
      as (m1 & _ & Em1).
    by rewrite Em1, lookup_delete_eq.
Qed.

Lemma save_patches_without_source_witness :
  ∃ w',
    save_patches (H := ex_collaborators) ex_arja_e_no_patch_dir ex_dir_info
      ex_world = Some w' ∧
    path_exists (host ex_world)
      (join (abs_path ["setup"; "patches"]) [name ex_arja_e_no_patch_dir])
    = true ∧
    path_exists (host w')
      (join (abs_path ["setup"; "patches"]) [name ex_arja_e_no_patch_dir])
    = false.
Proof.
  destruct (save_patches_without_source (H := ex_collaborators)
              ex_arja_e_no_patch_dir ex_dir_info ex_world
              ["setup"; "patches"]) as (w' & E & Hgone);
    try (vm_compute; reflexivity).
  - discriminate.
  - exists w'. split; [exact E |]. split; [vm_compute; reflexivity |].
    exact Hgone.
Defined.

(** X12.  The default [analyse_output] sets [generated] and nothing
    else, and it sets it to the current count, it does not add to it: the
    other statistics and the attributes of the tool are unchanged, and a
    second call on the same disk returns the same statistics. *)
Theorem analyse_output_idempotent (self self' : tool) (fs : filesys)
    (st : RepairToolStats) :
  analyse_output self fs = Some (st, self') →
  analyse_output self' fs = Some (st, self') ∧
  enumerations (patch_stats st) = enumerations (patch_stats (stats self)) ∧
  plausible (patch_stats st) = plausible (patch_stats (stats self)) ∧
  non_compilable (patch_stats st)
  = non_compilable (patch_stats (stats self)) ∧
  patch_size (patch_stats st) = patch_size (patch_stats (stats self)) ∧
  time_stats st = time_stats (stats self) ∧
  dir_patch self' = dir_patch self ∧
  log_output_path self' = log_output_path self.
Proof.
  unfold analyse_output.
  destruct (is_dir fs (dir_patch self)) eqn:Ed.
  - destruct (list_dir fs (dir_patch self)) as [l|] eqn:El; [|done].
    intros [= <- <-]. cbn [dir_patch set_generated]. rewrite Ed, El.
    repeat split; reflexivity.
  - intros [= <- <-]. rewrite Ed. repeat split; reflexivity.
Qed.

Lemma analyse_output_idempotent_witness :
  ∃ st self',
    analyse_output ex_arja_e ex_disk_run_patch = Some (st, self') ∧
    analyse_output self' ex_disk_run_patch = Some (st, self').
Proof.
  destruct (succeeds_Some (analyse_output ex_arja_e ex_disk_run_patch))
    as [[st self'] E]; [vm_compute; reflexivity |].
  exists st, self'. split; [exact E |].
  exact (proj1 (analyse_output_idempotent _ _ _ _ E)).
Defined.

(* ===================================================================== *)
(** ** More on [ARJA_E]                                                  *)
(* ===================================================================== *)

(** X13.  Without a log (no log path, or a path that is not a regular
    file) [ARJA_E.analyse_output] returns after the first count:
    [generated] is the number of names with [.patch] in the listing of
    the output directory, and no other statistic is touched. *)
Theorem arja_e_missing_log (self : tool) (fs : filesys) (l0 : list string) :
  list_dir fs (dir_output self) = Some l0 →
  truthy (log_output_path self) = false
  ∨ is_file fs (log_output_path self) = false →
  arja_e_analyse_output self fs =
  Some (stats (set_generated
                 (Z.of_nat (length (filter (λ x, str_contains ".patch" x = true)
                                      l0))) self),
        set_generated
          (Z.of_nat (length (filter (λ x, str_contains ".patch" x = true) l0)))
          self).
Proof.
  intros Hout Hlog. unfold arja_e_analyse_output. rewrite Hout.
  destruct Hlog as [-> | ->]; [done |]. by rewrite orb_true_r.
Qed.

Lemma arja_e_missing_log_witness :
  ∃ self',
    arja_e_analyse_output ex_arja_e ex_disk_no_log = Some (stats self', self') ∧
    generated (patch_stats (stats self')) = 1 ∧
    enumerations (patch_stats (stats self')) = 0.
Proof.
  destruct (succeeds_Some (list_dir ex_disk_no_log (dir_output ex_arja_e)))
    as [l0 E0]; [vm_compute; reflexivity |].
  assert (match list_dir ex_disk_no_log (dir_output ex_arja_e) with
          | Some l =>
              Z.of_nat (length (filter (λ x, str_contains ".patch" x = true) l))
          | None => 0
          end = 1) as Hobs by (vm_compute; reflexivity).
  rewrite E0 in Hobs.
  eexists. split.
  - apply (arja_e_missing_log ex_arja_e ex_disk_no_log l0 E0).
    right. vm_compute; reflexivity.
  - cbn [stats set_generated patch_stats generated enumerations].
    split; [exact Hobs | reflexivity].
Defined.

(** X14.  An empty log file makes [ARJA_E.analyse_output] raise: it
    reads the first line of the log ([log_lines[0]]) without a check. *)
Theorem arja_e_empty_log_raises (self : tool) (fs : filesys) :
  truthy (log_output_path self) = true →
  read_file fs (log_output_path self) = Some [] →
  arja_e_analyse_output self fs = None.
Proof.
  intros Hlog Hread. unfold arja_e_analyse_output.
  destruct (list_dir fs (dir_output self)) as [l0|]; [|done].
  assert (is_file fs (log_output_path self) = true) as Hfile.
  { unfold is_file, path_isfile. unfold read_file in Hread.
    by destruct (node_at fs (log_output_path self)) as [[|]|]. }
  by rewrite Hlog, Hfile, Hread.
Qed.

Lemma arja_e_empty_log_raises_witness :
  arja_e_analyse_output ex_arja_e ex_disk_empty_log = None.
Proof.
  apply arja_e_empty_log_raises; vm_compute; reflexivity.
Defined.

Lemma count_lines_bound (log_lines : list string) :
  0 ≤ count_lines "One fitness evaluation is finished" log_lines ∧
  0 ≤ count_lines_without "failed tests: 0"
        "One fitness evaluation is finished" log_lines ∧
  count_lines "One fitness evaluation is finished" log_lines
  + count_lines_without "failed tests: 0"
      "One fitness evaluation is finished" log_lines
  ≤ Z.of_nat (length log_lines).
Proof.
  unfold count_lines, count_lines_without.
  split; [lia |]. split; [lia |].
  induction log_lines as [|line rest IH]; [done |].
  rewrite !filter_cons.
  destruct (str_contains "One fitness evaluation is finished" line) eqn:E1.
  - rewrite decide_True by done.
    rewrite decide_False by (by intros [_ ?]). cbn [length]. lia.
  - rewrite decide_False by done.
    destruct (decide _); cbn [length]; lia.
Qed.

Lemma has_char_strip_newlines (s : string) :
  has_char "010"%char (strip_newlines s) = false.
Proof.
  induction s as [|c s IH]; [done |]. simpl.
  case_bool_decide as E; [done |]. simpl.
  by rewrite bool_decide_eq_false_2.
Qed.

(** X15.  With a log, every line is counted at most once: a line that
    reports a finished evaluation is an enumeration, a line that does not
    and reports no failed test is plausible.  So the two counters are not
    negative and together at most the number of lines of the log; the two
    timestamps are the first and the last line without their newlines. *)
Theorem arja_e_log_statistics (self self' : tool) (fs : filesys)
    (st : RepairToolStats) (log_lines : list string) :
  arja_e_analyse_output self fs = Some (st, self') →
  truthy (log_output_path self) = true →
  read_file fs (log_output_path self) = Some log_lines →
  enumerations (patch_stats st)
  = count_lines "One fitness evaluation is finished" log_lines ∧
  plausible (patch_stats st)
  = count_lines_without "failed tests: 0"
      "One fitness evaluation is finished" log_lines ∧
  0 ≤ enumerations (patch_stats st) ∧
  0 ≤ plausible (patch_stats st) ∧
  enumerations (patch_stats st) + plausible (patch_stats st)
  ≤ Z.of_nat (length log_lines) ∧
  (∃ first_line last_line,
     head log_lines = Some first_line ∧ last log_lines = Some last_line ∧
     timestamp_start (time_stats st) = strip_newlines first_line ∧
     timestamp_end (time_stats st) = strip_newlines last_line) ∧
  has_char "010"%char (timestamp_start (time_stats st)) = false ∧
  has_char "010"%char (timestamp_end (time_stats st)) = false.
Proof.
  intros Hrun Hlog Hread. unfold arja_e_analyse_output in Hrun.
  destruct (list_dir fs (dir_output self)) as [l0|]; [|done].
  assert (is_file fs (log_output_path self) = true) as Hfile.
  { unfold is_file, path_isfile. unfold read_file in Hread.
    by destruct (node_at fs (log_output_path self)) as [[|]|]. }
  rewrite Hlog, Hfile, Hread in Hrun. cbn [negb orb] in Hrun.
  destruct (head log_lines) as [first_line|] eqn:Ehead; [|done].
  destruct (last log_lines) as [last_line|] eqn:Elast; [|done].
  rewrite count_log_lines_spec in Hrun.
  destruct (list_dir fs _) as [l|]; [|done].
  injection Hrun as <- <-.
  cbn [stats set_plausible set_enumerations set_generated set_timestamps
       patch_stats time_stats enumerations plausible timestamp_start
       timestamp_end].
  rewrite !Z.add_0_l.
  pose proof (count_lines_bound log_lines) as (H1 & H2 & H3).
  repeat (split; [done |]). split.
  - by exists first_line, last_line.
  - split; apply has_char_strip_newlines.
Qed.

Lemma arja_e_log_statistics_witness :
  ∃ st self',
    arja_e_analyse_output ex_arja_e ex_disk_run_txt = Some (st, self') ∧
    enumerations (patch_stats st) + plausible (patch_stats st) ≤ 5 ∧
    timestamp_start (time_stats st) = "Generation 1".
Proof.
  destruct (succeeds_Some (arja_e_analyse_output ex_arja_e ex_disk_run_txt))
    as [[st self'] E]; [vm_compute; reflexivity |].
  exists st, self'. split; [exact E |].
  destruct (arja_e_log_statistics ex_arja_e self' ex_disk_run_txt st ex_log E)
    as (_ & _ & _ & _ & Hsum & (f & l & Hf & _ & Hs & _) & _);
    [vm_compute; reflexivity.. |].
  split; [exact Hsum |].
  rewrite Hs. vm_compute in Hf. injection Hf as <-. vm_compute; reflexivity.
Defined.

Lemma concat_cons_ne (sep x : string) (xs : list string) :
  xs ≠ [] → String.concat sep (x :: xs) = x +:+ sep +:+ String.concat sep xs.
Proof. by destruct xs. Qed.

Lemma concat_app_last2 (sep a b : string) (l : list string) :
  ∃ pre, String.concat sep (l ++ [a; b]) = pre +:+ a +:+ sep +:+ b.
Proof.
  induction l as [|x l (pre & IH)].
  - by exists "".
  - exists (x +:+ sep +:+ pre).
    change ((x :: l) ++ [a; b]) with (x :: (l ++ [a; b])).
    rewrite concat_cons_ne by (by destruct l).
    by rewrite IH, !str_app_assoc.
Qed.

(** X17.  Whatever dependencies the bug lists, the [-Ddependences]
    argument ends with the two jars that come with ARJA
    ([hamcrest-core-1.3.jar] and [junit-4.12.jar]); for a bug without
    dependencies it is exactly these two. *)
Theorem list_deps_str_bundled (self : tool) (bi : bug_info) :
  (∃ pre, list_deps_str self bi
          = pre +:+ "/opt/arja/external/lib/hamcrest-core-1.3.jar"
                +:+ ":" +:+ "/opt/arja/external/lib/junit-4.12.jar") ∧
  (dependencies bi = [] →
   list_deps_str self bi
   = "/opt/arja/external/lib/hamcrest-core-1.3.jar:/opt/arja/external/lib/junit-4.12.jar").
Proof.
  unfold list_deps_str. split.
  - apply (concat_app_last2 ":"
             (join arja_e_home ["external"; "lib"; "hamcrest-core-1.3.jar"])
             (join arja_e_home ["external"; "lib"; "junit-4.12.jar"])).
  - intros ->. vm_compute; reflexivity.
Qed.

Lemma list_deps_str_bundled_witness :
  list_deps_str ex_arja_e
    (mk_bug_info "src" "test" "bin" "bin-test" [] [] [] "8")
  = "/opt/arja/external/lib/hamcrest-core-1.3.jar:/opt/arja/external/lib/junit-4.12.jar".
Proof.
  apply (proj2 (list_deps_str_bundled ex_arja_e
                  (mk_bug_info "src" "test" "bin" "bin-test" [] [] [] "8"))).
  reflexivity.
Defined.

(** X19.  The [tests] file that [invoke] writes has the header line
    first and one line for every listed test, the failing ones marked
    [FAIL] and the passing ones [PASS], every line ending in a newline;
    with no test at all it is the header alone. *)
Theorem test_name_lines_spec (bi : bug_info) :
  head (test_name_lines bi)
  = Some ("name,outcome,runtime,stacktrace" +:+ String "010"%char "") ∧
  length (test_name_lines bi)
  = S (length (failing_test_identifiers bi)
       + length (passing_test_identifiers bi)) ∧
  (∀ name, name ∈ failing_test_identifiers bi →
     name +:+ ",FAIL,0," +:+ String "010"%char "" ∈ test_name_lines bi) ∧
  (∀ name, name ∈ passing_test_identifiers bi →
     name +:+ ",PASS,0," +:+ String "010"%char "" ∈ test_name_lines bi) ∧
  (failing_test_identifiers bi = [] → passing_test_identifiers bi = [] →
   test_name_lines bi
   = ["name,outcome,runtime,stacktrace" +:+ String "010"%char ""]).
Proof.
  unfold test_name_lines, text_line. split; [done |]. split.
  - cbn [app length]. by rewrite length_app, !length_map.
  - split; [|split].
    + intros name Hin. apply elem_of_app. right. apply elem_of_app. left.
      rewrite <- str_app_assoc.
      by apply (list_elem_of_fmap_2
                  (λ name, (name +:+ ",FAIL,0,") +:+ String "010"%char "")).
    + intros name Hin. apply elem_of_app. right. apply elem_of_app. right.
      rewrite <- str_app_assoc.
      by apply (list_elem_of_fmap_2
                  (λ name, (name +:+ ",PASS,0,") +:+ String "010"%char "")).
    + by intros -> ->.
Qed.

Lemma test_name_lines_spec_witness :
  "org.A::t1,FAIL,0," +:+ String "010"%char "" ∈ test_name_lines ex_bug_info ∧
  "org.P::t0,PASS,0," +:+ String "010"%char ""
  ∈ test_name_lines ex_bug_info_passing ∧
  length (test_name_lines ex_bug_info_passing) = 3%nat.
Proof.
  destruct (test_name_lines_spec ex_bug_info) as (_ & _ & Hfail & _).
  destruct (test_name_lines_spec ex_bug_info_passing)
    as (_ & Hlen & _ & Hpass & _).
  split; [|split].
  - apply (Hfail "org.A::t1"). apply list_elem_of_here.
  - apply (Hpass "org.P::t0"). apply list_elem_of_here.
  - exact Hlen.
Defined.

Lemma length_flat_map {A B : Type} (f : A → list B) (l : list A) :
  length (flat_map f l) = sum_list (map (λ x, length (f x)) l).
Proof.
  induction l as [|x l IH]; [done |].
  cbn [flat_map map sum_list]. by rewrite length_app, IH.
Qed.

(** X20.  [transform_localization] writes the header and then one line
    for every line number of every entry, every line ending in a newline:
    an entry without line numbers adds nothing, and empty localization
    data give the header alone.  The line of an entry is written out for
    a location in ASCII, on which the class name is the one [classname_of]
    computes. *)
Theorem transform_localization_lines (data : list loc_entry) :
  head (transform_localization data)
  = Some ("name;suspiciousness_value" +:+ String "010"%char "") ∧
  length (transform_localization data)
  = S (sum_list (map (λ x, length (line_numbers x)) data)) ∧
  transform_localization []
  = ["name;suspiciousness_value" +:+ String "010"%char ""] ∧
  ∀ x lineno, x ∈ data → lineno ∈ line_numbers x →
    ascii_only (location x) = true →
    "<" +:+ classname_of (location x) +:+ "{#" +:+ str_of_int lineno
      +:+ "," +:+ score x +:+ String "010"%char ""
    ∈ transform_localization data.
Proof.
  unfold transform_localization, text_line.
  split; [done |]. split; [|split; [done |]].
  - cbn [length]. f_equal. rewrite length_flat_map. f_equal.
    apply map_ext. intros x. by rewrite length_map.
  - intros x lineno Hx Hl _. apply list_elem_of_further.
    apply list_elem_of_In, in_flat_map. exists x.
    split; [by apply list_elem_of_In |].
    apply list_elem_of_In.
    replace ("<" +:+ classname_of (location x) +:+ "{#" +:+ str_of_int lineno
               +:+ "," +:+ score x +:+ String "010"%char "")
      with (("<" +:+ classname_of (location x) +:+ "{#" +:+ str_of_int lineno
               +:+ "," +:+ score x) +:+ String "010"%char "")
      by (by rewrite !str_app_assoc).
    by apply (list_elem_of_fmap_2
                (λ lineno, ("<" +:+ classname_of (location x)
                            +:+ "{#" +:+ str_of_int lineno +:+ ","
                            +:+ score x) +:+ String "010"%char "")).
Qed.

Lemma transform_localization_lines_witness :
  "<org.A.B{#17,0.5" +:+ String "010"%char ""
  ∈ transform_localization
      [mk_loc_entry "1.0" "x" []; mk_loc_entry "0.5" "org.A$B$1#m()" [3; 17]].
Proof.
  destruct (transform_localization_lines
              [mk_loc_entry "1.0" "x" [];
               mk_loc_entry "0.5" "org.A$B$1#m()" [3; 17]])
    as (_ & _ & _ & Hin).
  apply (Hin (mk_loc_entry "0.5" "org.A$B$1#m()" [3; 17]) 17).
  - apply list_elem_of_further, list_elem_of_here.
  - apply list_elem_of_further, list_elem_of_here.
  - reflexivity.
Defined.

Lemma has_char_app (c : ascii) (a b : string) :
  has_char c (a +:+ b) = has_char c a || has_char c b.
Proof.
  induction a as [|x a IH]; [done |]. simpl. by rewrite IH, orb_assoc.
Qed.

Lemma before_hash_app (a r : string) :
  has_char "#"%char a = false → before_hash (a +:+ "#" +:+ r) = a.
Proof.
  intros H. induction a as [|x a IH]; simpl in *; [done |].
  apply orb_false_iff in H as [Hx Ha]. by rewrite Hx, IH.
Qed.

Lemma replace_first_dollar_app (a b : string) :
  has_char "$"%char a = false →
  replace_first_dollar (a +:+ "$" +:+ b) = a +:+ "." +:+ b.
Proof.
  intros H. induction a as [|x a IH]; simpl in *; [done |].
  apply orb_false_iff in H as [Hx Ha]. by rewrite Hx, IH.
Qed.

Lemma strip_anonymous_id (s : string) :
  has_char "$"%char s = false → strip_anonymous s = s.
Proof.
  induction s as [|x s IH]; [done |]. simpl.
  intros [Hx Hs]%orb_false_iff. by rewrite Hx, IH.
Qed.

Lemma is_digit_not (c x : ascii) :
  is_digit x = false → is_digit c = true → bool_decide (c = x) = false.
Proof. intros Hx Hc. apply bool_decide_eq_false_2. by intros ->; congruence. Qed.

Lemma all_digits_has_char (x : ascii) (d : string) :
  is_digit x = false → all_digits d = true → has_char x d = false.
Proof.
  intros Hx. induction d as [|c d IH]; [done |]. simpl.
  intros [Hc Hd]%andb_true_iff. by rewrite (is_digit_not c x), IH.
Qed.

Lemma digits_to_end_all (d : string) :
  all_digits d = true → d ≠ "" → digits_to_end d = Some false.
Proof.
  induction d as [|c d IH]; [done |]. intros [Hc Hd]%andb_true_iff _.
  cbn [digits_to_end]. rewrite Hc.
  destruct d as [|x d]; [done |].
  destruct d as [|y d].
  - simpl in Hd. apply andb_true_iff in Hd as [Hx _].
    rewrite (is_digit_not x "010"%char) by done. by rewrite Hx.
  - by apply IH.
Qed.

Lemma strip_anonymous_suffix (a d : string) :
  has_char "$"%char a = false → all_digits d = true → d ≠ "" →
  strip_anonymous (a +:+ "$" +:+ d) = a.
Proof.
  intros Ha Hd Hne. induction a as [|x a IH]; simpl in *.
  - by rewrite digits_to_end_all.
  - apply orb_false_iff in Ha as [Hx Ha]. by rewrite Hx, IH.
Qed.

(** X21.  The class name of a location: the method part from the hash
    sign on is dropped, the dollar sign of a nested class becomes a dot,
    and the number of an anonymous class is cut off with its dollar
    sign (as in [org.jsoup.parser$TokeniserState$37#read(...)], which
    gives [org.jsoup.parser.TokeniserState]). *)
Theorem classname_of_nested (pkg outer rest : string) :
  has_char "$"%char pkg = false → has_char "#"%char pkg = false →
  has_char "$"%char outer = false → has_char "#"%char outer = false →
  classname_of (pkg +:+ "#" +:+ rest) = pkg ∧
  classname_of (pkg +:+ "$" +:+ outer +:+ "#" +:+ rest)
  = pkg +:+ "." +:+ outer ∧
  ∀ digits, all_digits digits = true → digits ≠ "" →
    classname_of (pkg +:+ "$" +:+ outer +:+ "$" +:+ digits +:+ "#" +:+ rest)
    = pkg +:+ "." +:+ outer.
Proof.
  intros Hp1 Hp2 Ho1 Ho2. unfold classname_of.
  assert (replace_first_dollar pkg = pkg) as Hpkg.
  { clear Hp2. induction pkg as [|x p IH]; simpl in *; [done |].
    apply orb_false_iff in Hp1 as [Hx Hp]. by rewrite Hx, IH. }
  split; [|split].
  - rewrite before_hash_app, Hpkg by done. by apply strip_anonymous_id.
  - replace (pkg +:+ "$" +:+ outer +:+ "#" +:+ rest)
      with ((pkg +:+ "$" +:+ outer) +:+ "#" +:+ rest)
      by (by rewrite !str_app_assoc).
    rewrite before_hash_app
      by (rewrite !has_char_app, Hp2, Ho2; reflexivity).
    rewrite replace_first_dollar_app by done.
    apply strip_anonymous_id. rewrite !has_char_app, Hp1, Ho1. reflexivity.
  - intros digits Hd Hne.
    replace (pkg +:+ "$" +:+ outer +:+ "$" +:+ digits +:+ "#" +:+ rest)
      with ((pkg +:+ "$" +:+ outer +:+ "$" +:+ digits) +:+ "#" +:+ rest)
      by (by rewrite !str_app_assoc).
    rewrite before_hash_app.
    2: { rewrite !has_char_app, Hp2, Ho2.
         by rewrite (all_digits_has_char "#"%char digits). }
    rewrite replace_first_dollar_app by done.
    replace (pkg +:+ "." +:+ outer +:+ "$" +:+ digits)
      with ((pkg +:+ "." +:+ outer) +:+ "$" +:+ digits)
      by (by rewrite !str_app_assoc).
    apply strip_anonymous_suffix; [|done..].
    rewrite !has_char_app, Hp1, Ho1. reflexivity.
Qed.

Lemma classname_of_nested_witness :
  classname_of
    ("org.jsoup.parser" +:+ "$" +:+ "TokeniserState" +:+ "$" +:+ "37" +:+ "#"
     +:+ "read(org.jsoup.parser.Tokeniser,org.jsoup.parser.CharacterReader)")
  = "org.jsoup.parser" +:+ "." +:+ "TokeniserState".
Proof.
  apply (classname_of_nested "org.jsoup.parser" "TokeniserState");
    try (vm_compute; reflexivity).
  discriminate.
Defined.

Lemma has_hash_replace_first_dollar (s : string) :
  has_char "#"%char (replace_first_dollar s) = has_char "#"%char s.
Proof.
  induction s as [|x s IH]; [done |]. simpl.
  case_bool_decide as E; simpl; [by subst x | by rewrite IH].
Qed.

Lemma has_hash_strip_anonymous (s : string) :
  has_char "#"%char s = false → has_char "#"%char (strip_anonymous s) = false.
Proof.
  induction s as [|x s IH]; [done |]. simpl.
  intros [Hx Hs]%orb_false_iff.
  destruct (bool_decide (x = "$"%char)).
  - destruct (digits_to_end s) as [[|]|]; [done | done |].
    simpl. by rewrite Hx, (IH Hs).
  - simpl. by rewrite Hx, (IH Hs).
Qed.

Lemma has_hash_before_hash (s : string) :
  has_char "#"%char (before_hash s) = false.
Proof.
  induction s as [|x s IH]; [done |]. simpl.
  case_bool_decide as E; [done |]. simpl.
  by rewrite bool_decide_eq_false_2, IH.
Qed.

(** X22.  Nothing of the method part of a location gets into the class
    column of the spectra file: the class name never contains a hash
    sign. *)
Theorem classname_of_no_hash (method : string) :
  has_char "#"%char (classname_of method) = false.
Proof.
  unfold classname_of. apply has_hash_strip_anonymous.
  rewrite has_hash_replace_first_dollar. apply has_hash_before_hash.
Qed.

Lemma split_sep_app_sep (a b : string) :
  split_sep (a +:+ "/" +:+ b) = split_sep a ++ split_sep b.
Proof.
  induction a as [|x a IH]; simpl in *; [done |].
  case_bool_decide; [by rewrite IH |]. rewrite IH.
  by destruct (split_sep_cons a) as (w & ws & ->).
Qed.

Lemma split_sep_name (c : string) : has_sep c = false → split_sep c = [c].
Proof.
  intros Hc. rewrite <- (str_app_nil_r c) at 1.
  rewrite split_sep_name_app by done. simpl. by rewrite str_app_nil_r.
Qed.

Lemma basename_app (d x : string) :
  has_sep x = false → basename (d +:+ "/" +:+ x) = x.
Proof.
  intros Hx. unfold basename.
  by rewrite split_sep_app_sep, (split_sep_name x), last_snoc.
Qed.

Lemma str_take_app (a b : string) : str_take (String.length a) (a +:+ b) = a.
Proof. induction a as [|x a IH]; simpl; [by destruct b | by rewrite IH]. Qed.

(** X23.  The tool name that [ARJA_E] and [Cardumen] derive from the
    path of their module does not depend on where the module is
    installed: for a module [{name}.py] in any directory it is the name
    in small letters, [arja_e] for [ARJA_E.py] and [cardumen] for
    [Cardumen.py]. *)
Theorem tool_name_of_file_spec (directory module_name : string) :
  has_sep module_name = false → ascii_only module_name = true →
  tool_name_of_file (directory +:+ "/" +:+ module_name +:+ ".py")
  = lower module_name.
Proof.
  intros Hsep _. unfold tool_name_of_file, str_drop_last.
  rewrite basename_app by (by rewrite has_sep_app, Hsep).
  rewrite str_app_length. cbn [String.length].
  replace (String.length module_name + 3 - 3)%nat
    with (String.length module_name) by lia.
  by rewrite str_take_app.
Qed.

Lemma tool_name_of_file_spec_witness :
  tool_name_of_file
    ("/opt/cerberus/app/drivers/tools/repair/java" +:+ "/" +:+ "ARJA_E"
     +:+ ".py") = "arja_e" ∧
  tool_name_of_file ("app/drivers/tools/repair/java" +:+ "/" +:+ "Cardumen"
                     +:+ ".py") = "cardumen".
Proof.
  split.
  - rewrite tool_name_of_file_spec; vm_compute; reflexivity.
  - rewrite tool_name_of_file_spec; vm_compute; reflexivity.
Defined.

(** X16.  With a log, [generated] is the number of names with [.txt]
    in the listing of [{dir_output}/patches] ([patch-valid] with
    valkyrie): the first count, of the [.patch] names in the output
    directory itself, is overwritten. *)
Theorem arja_e_generated_with_log (self self' : tool) (fs : filesys)
    (st : RepairToolStats) :
  arja_e_analyse_output self fs = Some (st, self') →
  truthy (log_output_path self) = true →
  is_file fs (log_output_path self) = true →
  ∃ l,
    list_dir fs (join (dir_output self)
                   [if use_valkyrie self then "patch-valid" else "patches"])
    = Some l ∧
    generated (patch_stats st)
    = Z.of_nat (length (filter (λ x, str_contains ".txt" x = true) l)).
Proof.
  intros Hrun Hlog Hfile. unfold arja_e_analyse_output in Hrun.
  destruct (list_dir fs (dir_output self)) as [l0|]; [|done].
  rewrite Hlog, Hfile in Hrun. cbn [negb orb] in Hrun.
  destruct (read_file fs (log_output_path self)) as [log_lines|]; [|done].
  destruct (head log_lines); [|done]. destruct (last log_lines); [|done].
  destruct (count_log_lines log_lines (0, 0)) as [e p].
  destruct (list_dir fs _) as [l|]; [|done].
  injection Hrun as <- <-. by exists l.
Qed.

Lemma arja_e_generated_with_log_witness :
  ∃ st self',
    arja_e_analyse_output ex_arja_e ex_disk_run_patch = Some (st, self') ∧
    generated (patch_stats st) = 0.
Proof.
  destruct (succeeds_Some (arja_e_analyse_output ex_arja_e ex_disk_run_patch))
    as [[st self'] E]; [vm_compute; reflexivity |].
  exists st, self'. split; [exact E |].
  destruct (arja_e_generated_with_log _ _ _ _ E) as (l & Hl & ->);
    [vm_compute; reflexivity.. |].
  assert (match list_dir ex_disk_run_patch
                  (join (dir_output ex_arja_e)
                     [if use_valkyrie ex_arja_e then "patch-valid"
                      else "patches"]) with
          | Some l =>
              Z.of_nat (length (filter (λ x, str_contains ".txt" x = true) l))
          | None => 1
          end = 0) as Hobs by (vm_compute; reflexivity).
  rewrite Hl in Hobs. exact Hobs.
Defined.

Lemma str_contains_here (a d c r : string) :
  str_contains (a +:+ d +:+ c) (a +:+ d +:+ c +:+ r) = true.
Proof.
  apply str_contains_prefix.
  replace (a +:+ d +:+ c +:+ r) with ((a +:+ d +:+ c) +:+ r)
    by (by rewrite !str_app_assoc).
  apply str_prefix_app, str_prefix_refl.
Qed.

Lemma join_absolute (a s p : string) :
  starts_with_sep p = true → join a [s; p] = p.
Proof.
  intros Hp. unfold join. cbn [foldl]. unfold join2 at 1.
  by rewrite Hp.
Qed.

(** X18.  A source or class directory that the bug metadata give as an
    absolute path is passed to ARJA as it is: [os.path.join] drops the
    experiment directory and [src] in front of it. *)
Theorem arja_e_command_absolute_dirs (self : tool) (bi : bug_info)
    (timeout_h : string) :
  (starts_with_sep (dir_source bi) = true →
   str_contains ("-DsrcJavaDir " +:+ dir_source bi +:+ " ")
     (arja_e_command self bi timeout_h) = true) ∧
  (starts_with_sep (dir_class bi) = true →
   str_contains ("-DbinJavaDir " +:+ dir_class bi +:+ " ")
     (arja_e_command self bi timeout_h) = true) ∧
  (starts_with_sep (dir_test_class bi) = true →
   str_contains ("-DbinTestDir " +:+ dir_test_class bi +:+ " ")
     (arja_e_command self bi timeout_h) = true).
Proof.
  assert (∀ pat, str_contains pat (arja_e_command_base self bi timeout_h)
                 = true →
                 str_contains pat (arja_e_command self bi timeout_h) = true)
    as Hbase.
  { intros pat Hpat. unfold arja_e_command.
    destruct (passing_test_identifiers bi); [|done].
    by apply str_contains_app_l. }
  split; [|split]; intros Habs; apply Hbase;
    unfold arja_e_command_base; cbv zeta;
    rewrite (join_absolute (dir_expr self) "src" _ Habs);
    repeat first [ apply str_contains_here | apply str_contains_app_r ].
Qed.

Lemma arja_e_command_absolute_dirs_witness :
  str_contains ("-DsrcJavaDir " +:+ "/data/Lang/src/main/java" +:+ " ")
    (arja_e_command ex_arja_e
       (mk_bug_info "/data/Lang/src/main/java" "src/test/java"
          "target/classes" "target/test-classes" [] [] [] "8") "1") = true.
Proof.
  apply (proj1 (arja_e_command_absolute_dirs ex_arja_e
                  (mk_bug_info "/data/Lang/src/main/java" "src/test/java"
                     "target/classes" "target/test-classes" [] [] [] "8")
                  "1")).
  reflexivity.
Defined.
